(** * Settings of the agent application: a shallow embedding of
    [python/helpers/settings.py]

    The module keeps one process-wide settings record, renders it as a form
    schema for the web UI ([convert_out]), applies a submitted schema back
    ([convert_in]), normalises partial records against the defaults
    ([normalize_settings]) and persists the record as JSON while the secrets go
    to the dotenv store ([_write_settings_file]).

    Conventions of the embedding.
    - A Python [str] is a [string]: a sequence of character codes below 256.
      [str.upper] is modelled on the ASCII letters only.
    - A Python value that a settings record can hold (what [json.loads] yields
      for the declared field types, and [None]) is a [value]; a [dict] with
      [str] keys is an association list in insertion order.  No declared
      field holds a list, and [value] has none.
    - A Python [float] is a binary64 primitive float.
    - A raised exception is a [Raise] result; code that mutates the process
      state runs in the monad [M] over [State], which keeps the settings
      objects in a heap so that aliasing between the caller's record and the
      cached record is explicit.
    - What the module imports and this file does not contain (the runtime
      flags, the dotenv key names, the provider enumeration, directory
      listings, the JSON library, and the interpreter's number parsing and
      [repr]) is gathered in the record [Env]. *)

From Stdlib Require Import ZArith List String Ascii Bool Lia Floats DecimalString.
Import ListNotations.

Set Warnings "-inexact-float,-register-all".

Open Scope string_scope.
Open Scope Z_scope.

(** ** Characters and strings *)

Definition LF : ascii := "010"%char.
Definition CR : ascii := "013"%char.
Definition dquote : ascii := "034"%char.
Definition squote : ascii := "039"%char.

Definition code (c : ascii) : N := N_of_ascii c.

(** [str.isspace] on one character (codes below 256). *)
Definition is_space (c : ascii) : bool :=
  let n := code c in
  ((9 <=? n) && (n <=? 13) || (28 <=? n) && (n <=? 32) || (n =? 133) || (n =? 160))%N.

(** The line boundaries of [str.splitlines] (codes below 256). *)
Definition is_linebreak (c : ascii) : bool :=
  let n := code c in
  ((10 <=? n) && (n <=? 13) || (28 <=? n) && (n <=? 30) || (n =? 133))%N.

Definition is_empty (s : string) : bool :=
  match s with EmptyString => true | _ => false end.

Fixpoint contains_char (c : ascii) (s : string) : bool :=
  match s with
  | EmptyString => false
  | String d r => Ascii.eqb c d || contains_char c r
  end.

Fixpoint lstrip_by (p : ascii -> bool) (s : string) : string :=
  match s with
  | EmptyString => EmptyString
  | String c r => if p c then lstrip_by p r else s
  end.

Fixpoint rstrip_by (p : ascii -> bool) (s : string) : string :=
  match s with
  | EmptyString => EmptyString
  | String c r =>
      let r' := rstrip_by p r in
      if p c && is_empty r' then EmptyString else String c r'
  end.

(** [s.strip()] and [s.strip(c)] for a single character [c]. *)
Definition strip (s : string) : string := rstrip_by is_space (lstrip_by is_space s).
Definition strip_char (c : ascii) (s : string) : string :=
  rstrip_by (Ascii.eqb c) (lstrip_by (Ascii.eqb c) s).

(** [s.splitlines()]: a carriage return followed by a line feed is one
    boundary, and a final boundary opens no empty last line. *)
Fixpoint splitlines (s : string) : list string :=
  match s with
  | EmptyString => []
  | String c rest =>
      if is_linebreak c then
        EmptyString ::
          match rest with
          | EmptyString => []
          | String c2 rest2 =>
              if Ascii.eqb c CR && Ascii.eqb c2 LF then splitlines rest2
              else splitlines rest
          end
      else
        match splitlines rest with
        | [] => [String c EmptyString]
        | l :: ls => String c l :: ls
        end
  end.

Fixpoint endswith_aux (s suf : string) : bool :=
  String.eqb s suf ||
  match s with
  | EmptyString => false
  | String _ r => endswith_aux r suf
  end.

Definition endswith (s suf : string) : bool := endswith_aux s suf.
Definition startswith (s pre : string) : bool := String.prefix pre s.

Definition upper_char (c : ascii) : ascii :=
  let n := code c in
  if ((97 <=? n) && (n <=? 122))%N then ascii_of_N (n - 32) else c.

Fixpoint upper (s : string) : string :=
  match s with
  | EmptyString => EmptyString
  | String c r => String (upper_char c) (upper r)
  end.

(** ** Python values, exceptions and results *)

Inductive value : Type :=
| VNone
| VBool (b : bool)
| VInt (z : Z)
| VFloat (f : float)
| VStr (s : string)
| VDict (d : list (string * value)).

Definition dict : Type := list (string * value).

Inductive exn : Type :=
| KeyError (key : string)
| TypeError
| ValueError
| OverflowError
| AttributeError
| JSONDecodeError
| CalledProcessError
| PyException (msg : string).

Inductive res (A : Type) : Type :=
| Ok (a : A)
| Raise (e : exn).

Arguments Ok {A} a.
Arguments Raise {A} e.

Definition rbind {A B : Type} (r : res A) (k : A -> res B) : res B :=
  match r with
  | Ok a => k a
  | Raise e => Raise e
  end.

Declare Scope res_scope.
Delimit Scope res_scope with res.
Notation "'let?' x ':=' r 'in' k" := (rbind r (fun x => k))
  (at level 10, x pattern, r at level 100, k at level 200) : res_scope.
Open Scope res_scope.

(** Runs the actions left to right and stops at the first exception. *)
Fixpoint sequence {A : Type} (l : list (res A)) : res (list A) :=
  match l with
  | [] => Ok []
  | r :: rs => let? a := r in let? tl := sequence rs in Ok (a :: tl)
  end.

(** *** Dictionaries: [d.get(k)], [k in d], [d[k]], [d[k] = v] *)

Fixpoint dict_get (d : dict) (k : string) : option value :=
  match d with
  | [] => None
  | (k', v) :: r => if String.eqb k' k then Some v else dict_get r k
  end.

Definition dict_has (d : dict) (k : string) : bool :=
  match dict_get d k with Some _ => true | None => false end.

Fixpoint dict_set (d : dict) (k : string) (v : value) : dict :=
  match d with
  | [] => [(k, v)]
  | (k', v') :: r => if String.eqb k' k then (k', v) :: r else (k', v') :: dict_set r k v
  end.

(** [d.get(k, dflt)]. *)
Definition dict_get_default (d : dict) (k : string) (dflt : value) : value :=
  match dict_get d k with
  | Some v => v
  | None => dflt
  end.

Definition getitem (d : dict) (k : string) : res value :=
  match dict_get d k with
  | Some v => Ok v
  | None => Raise (KeyError k)
  end.

(** Truth value of a Python object ([bool(x)], [if x], [x or y]). *)
Definition truthy (v : value) : bool :=
  match v with
  | VNone => false
  | VBool b => b
  | VInt z => negb (z =? 0)
  | VFloat f => negb (PrimFloat.eqb f 0%float)
  | VStr s => negb (is_empty s)
  | VDict d => match d with [] => false | _ => true end
  end.

(** [v == s] for a [str] [s]: only an equal [str] compares equal. *)
Definition eq_str (v : value) (s : string) : bool :=
  match v with
  | VStr t => String.eqb t s
  | _ => false
  end.

(** ** What the module imports *)

Record Env : Type := {
  (** interpreter: [repr] of a float or a dict, [float(str)], [int(str)]
      ([None]: [ValueError]) *)
  repr : value -> string;
  float_of_string : string -> option float;
  int_of_string : string -> option Z;
  (** [json.loads] ([None]: [JSONDecodeError]) and [json.dumps(_, indent=4)] *)
  json_loads : string -> option value;
  json_dumps : dict -> string;
  (** [runtime.is_dockerized()], [runtime.is_development()] *)
  is_dockerized : bool;
  is_development : bool;
  (** [models.ModelProvider]: the members as (name, value), and
      [models.get_api_key] *)
  ModelProvider : list (string * string);
  get_api_key : string -> value;
  (** [files.get_subdirectories(dir, exclude=...)] *)
  get_subdirectories : string -> option string -> list string;
  (** the key names of the [dotenv] module *)
  KEY_AUTH_LOGIN : string;
  KEY_AUTH_PASSWORD : string;
  KEY_RFC_PASSWORD : string;
  KEY_ROOT_PASSWORD : string;
  (** whether [subprocess.run(cmd, shell=True, check=True)] exits with 0 *)
  shell_succeeds : string -> bool
}.

(** ** Conversions of the interpreter *)

Definition string_of_Z (z : Z) : string :=
  NilZero.string_of_int (Z.to_int z).

(** [str(v)], also what an f-string writes for [{v}]. *)
Definition py_str (E : Env) (v : value) : string :=
  match v with
  | VStr s => s
  | VNone => "None"
  | VBool true => "True"
  | VBool false => "False"
  | VInt z => string_of_Z z
  | VFloat _ | VDict _ => repr E v
  end.

(** [int(f)] for a float: truncation towards zero. *)
Definition trunc_float (f : float) : res Z :=
  match Prim2SF f with
  | S754_nan => Raise ValueError
  | S754_infinity _ => Raise OverflowError
  | S754_zero _ => Ok 0
  | S754_finite s m e =>
      let a := if 0 <=? e then Z.shiftl (Zpos m) e else Z.shiftr (Zpos m) (- e) in
      Ok (if s then - a else a)
  end.

(** [float(z)] for an int: the nearest binary64, ties to even;
    [OverflowError] when it is out of range. *)
Definition float_of_Z (z : Z) : res float :=
  match binary_normalize prec emax z 0 false with
  | S754_infinity _ => Raise OverflowError
  | sf => Ok (SF2Prim sf)
  end.

Definition py_int (E : Env) (v : value) : res value :=
  match v with
  | VInt z => Ok (VInt z)
  | VBool b => Ok (VInt (if b then 1 else 0))
  | VFloat f => let? z := trunc_float f in Ok (VInt z)
  | VStr s => match int_of_string E s with
              | Some z => Ok (VInt z)
              | None => Raise ValueError
              end
  | VNone | VDict _ => Raise TypeError
  end.

Definition py_float (E : Env) (v : value) : res value :=
  match v with
  | VFloat f => Ok (VFloat f)
  | VInt z => let? f := float_of_Z z in Ok (VFloat f)
  | VBool b => Ok (VFloat (if b then 1%float else 0%float))
  | VStr s => match float_of_string E s with
              | Some f => Ok (VFloat f)
              | None => Raise ValueError
              end
  | VNone | VDict _ => Raise TypeError
  end.

(** [dict(v)]: a copy of a dict; a [str] is a sequence of one-character
    strings, none of which is a pair; the other values are not iterable. *)
Definition py_dict (v : value) : res value :=
  match v with
  | VDict d => Ok (VDict d)
  | VStr s => if is_empty s then Ok (VDict []) else Raise ValueError
  | VNone | VBool _ | VInt _ | VFloat _ => Raise TypeError
  end.

(** [type(dflt)(v)]. *)
Definition coerce (E : Env) (dflt v : value) : res value :=
  match dflt with
  | VStr _ => Ok (VStr (py_str E v))
  | VInt _ => py_int E v
  | VFloat _ => py_float E v
  | VBool _ => Ok (VBool (truthy v))
  | VDict _ => py_dict v
  | VNone => Raise TypeError
  end.

(** [c in v] for a one-character string [c]. *)
Definition py_contains (c : ascii) (v : value) : res bool :=
  match v with
  | VStr s => Ok (contains_char c s)
  | VDict d => Ok (dict_has d (String c EmptyString))
  | VNone | VBool _ | VInt _ | VFloat _ => Raise TypeError
  end.

(** ** The KEY=VALUE text codec *)

(** [line_pattern]: optional white space, a key (one character other than
    the hash sign, then a greedy run of characters other than the equals
    sign), optional white space, the equals sign, optional white space, and
    the rest of the line as the value; matched at the start of a line.
    [split_at_eq] ends the run at the first equals sign: the run is greedy
    and holds no equals sign, so the white space after the key is empty and
    the match exists exactly when an equals sign follows the run. *)
Fixpoint split_at_eq (s : string) : option (string * string) :=
  match s with
  | EmptyString => None
  | String c r =>
      if Ascii.eqb c "="%char then Some (EmptyString, r)
      else match split_at_eq r with
           | Some (a, b) => Some (String c a, b)
           | None => None
           end
  end.

(** The value group: the dot matches every character but a line feed. *)
Fixpoint dot_star (s : string) : string :=
  match s with
  | EmptyString => EmptyString
  | String c r => if Ascii.eqb c LF then EmptyString else String c (dot_star r)
  end.

(** The pattern after its leading white space: key, equals sign, value. *)
Definition match_key_value (s : string) : option (string * string) :=
  match s with
  | EmptyString => None
  | String c r =>
      if Ascii.eqb c "#"%char then None
      else match split_at_eq r with
           | Some (run, after) =>
               Some (String c run, dot_star (lstrip_by is_space after))
           | None => None
           end
  end.

(** The leading white space is matched greedily with backtracking: the
    longest run is tried first, then each shorter one. *)
Fixpoint line_pattern_match (s : string) : option (string * string) :=
  match s with
  | EmptyString => None
  | String c r =>
      if is_space c then
        match line_pattern_match r with
        | Some m => Some m
        | None => match_key_value s
        end
      else match_key_value s
  end.

Definition _env_to_dict (data : string) : dict :=
  fold_left
    (fun env_dict line =>
       match line_pattern_match line with
       | Some (key, value) =>
           let value := strip_char squote (strip_char dquote (strip value)) in
           dict_set env_dict (strip key) (VStr value)
       | None => env_dict
       end)
    (splitlines data) [].

(** One entry of [_dict_to_env]: the text of its line. *)
Definition env_line (E : Env) (key : string) (value : value) : res string :=
  let? has_nl := py_contains LF value in
  let? text :=
    if has_nl then Ok (String squote (py_str E value ++ String squote ""))
    else
      let? has_sp := py_contains " "%char value in
      let? quoted :=
        if has_sp || eq_str value "" then Ok true
        else
          let? has_dq := py_contains dquote value in
          if has_dq then Ok true else py_contains squote value in
      if quoted then Ok (String dquote (py_str E value ++ String dquote ""))
      else Ok (py_str E value) in
  Ok (key ++ "=" ++ text).

Definition _dict_to_env (E : Env) (data_dict : value) : res string :=
  match data_dict with
  | VDict d =>
      let? lines := sequence (map (fun kv => env_line E (fst kv) (snd kv)) d) in
      Ok (String.concat (String LF "") lines)
  | _ => Raise AttributeError
  end.

(** ** Defaults and normalisation *)

Definition PASSWORD_PLACEHOLDER : string := "****PSWD****".

(** [get_default_settings()]; [ModelProvider.OPENAI.name] is the member's
    name. *)
Definition get_default_settings : dict :=
  [ ("chat_model_provider", VStr "OPENAI");
    ("chat_model_name", VStr "gpt-4o");
    ("chat_model_temperature", VFloat 0.0);
    ("chat_model_kwargs", VDict []);
    ("chat_model_ctx_length", VInt 120000);
    ("chat_model_ctx_history", VFloat 0.7);
    ("chat_model_rl_requests", VInt 0);
    ("chat_model_rl_input", VInt 0);
    ("chat_model_rl_output", VInt 0);
    ("util_model_provider", VStr "OPENAI");
    ("util_model_name", VStr "gpt-4o-mini");
    ("util_model_temperature", VFloat 0.0);
    ("util_model_ctx_length", VInt 120000);
    ("util_model_ctx_input", VFloat 0.7);
    ("util_model_kwargs", VDict []);
    ("util_model_rl_requests", VInt 60);
    ("util_model_rl_input", VInt 0);
    ("util_model_rl_output", VInt 0);
    ("embed_model_provider", VStr "OPENAI");
    ("embed_model_name", VStr "text-embedding-3-small");
    ("embed_model_kwargs", VDict []);
    ("embed_model_rl_requests", VInt 0);
    ("embed_model_rl_input", VInt 0);
    ("browser_model_provider", VStr "OPENAI");
    ("browser_model_name", VStr "gpt-4o");
    ("browser_model_vision", VBool false);
    ("browser_model_temperature", VFloat 0.0);
    ("browser_model_kwargs", VDict []);
    ("api_keys", VDict []);
    ("auth_login", VStr "");
    ("auth_password", VStr "");
    ("root_password", VStr "");
    ("agent_prompts_subdir", VStr "default");
    ("agent_memory_subdir", VStr "default");
    ("agent_knowledge_subdir", VStr "custom");
    ("rfc_auto_docker", VBool true);
    ("rfc_url", VStr "localhost");
    ("rfc_password", VStr "");
    ("rfc_port_http", VInt 55080);
    ("rfc_port_ssh", VInt 55022);
    ("stt_model_size", VStr "base");
    ("stt_language", VStr "en");
    ("stt_silence_threshold", VFloat 0.3);
    ("stt_silence_duration", VInt 1000);
    ("stt_waiting_timeout", VInt 2000) ].

(** One turn of the loop of [normalize_settings]: the [try] catches
    [ValueError] and [TypeError] only. *)
Definition normalize_key (E : Env) (copy : dict) (kv : string * value) : res dict :=
  let (key, value) := kv in
  match dict_get copy key with
  | None => Ok (dict_set copy key value)
  | Some present =>
      match coerce E value present with
      | Ok coerced => Ok (dict_set copy key coerced)
      | Raise ValueError | Raise TypeError => Ok (dict_set copy key value)
      | Raise e => Raise e
      end
  end.

Fixpoint normalize_loop (E : Env) (items : dict) (copy : dict) : res dict :=
  match items with
  | [] => Ok copy
  | kv :: rest => let? copy' := normalize_key E copy kv in normalize_loop E rest copy'
  end.

(** [normalize_settings(settings)] as a function of the content of its
    argument; the result is a new object ([settings.copy()]).  A value that is
    no dict has no [copy] method. *)
Definition normalize_settings (E : Env) (settings : value) : res dict :=
  match settings with
  | VDict d => normalize_loop E get_default_settings d
  | VNone | VBool _ | VInt _ | VFloat _ | VStr _ => Raise AttributeError
  end.

(** ** Process state *)

(** The side effects the module has on its collaborators, in order. *)
Inductive Event : Type :=
| SaveDotenv (key : string) (v : value)
| RunShell (cmd : string)
| WriteFile (content : string)
| Reconfigure
| WhisperPreload (size : value).

(** [heap]: the settings objects, a reference is a position; [_settings]: the
    module's global; [dotenv]: the secret store; [settings_file]: the content
    of the settings file when it exists. *)
Record State : Type := mkState {
  heap : list dict;
  _settings : option nat;
  dotenv : dict;
  settings_file : option string;
  trace : list Event
}.

Definition M (A : Type) : Type := State -> res A * State.

Definition ret {A : Type} (a : A) : M A := fun st => (Ok a, st).
Definition raise {A : Type} (e : exn) : M A := fun st => (Raise e, st).
Definition lift {A : Type} (r : res A) : M A := fun st => (r, st).
Definition bind {A B : Type} (m : M A) (k : A -> M B) : M B :=
  fun st =>
    match m st with
    | (Ok a, st') => k a st'
    | (Raise e, st') => (Raise e, st')
    end.

Declare Scope m_scope.
Delimit Scope m_scope with M.
Notation "x <- m ;; k" := (bind m (fun x => k))
  (at level 100, m at next level, right associativity) : m_scope.
Notation "m ;; k" := (bind m (fun _ => k))
  (at level 100, right associativity) : m_scope.

(** The object a reference denotes. *)
Definition deref (st : State) (r : nat) : dict := nth r (heap st) [].

Fixpoint list_update {A : Type} (l : list A) (i : nat) (a : A) : list A :=
  match l, i with
  | [], _ => []
  | _ :: t, O => a :: t
  | h :: t, S j => h :: list_update t j a
  end.

(** A new dict object. *)
Definition new_dict (d : dict) : M nat :=
  fun st => (Ok (List.length (heap st)),
             mkState (heap st ++ [d]) (_settings st) (dotenv st) (settings_file st) (trace st)).

Definition load (r : nat) : M dict := fun st => (Ok (deref st r), st).

(** [obj[key] = v] on the object behind [r]. *)
Definition setitem (r : nat) (key : string) (v : value) : M unit :=
  fun st => (Ok tt,
             mkState (list_update (heap st) r (dict_set (deref st r) key v))
                     (_settings st) (dotenv st) (settings_file st) (trace st)).

Definition put (r : nat) (d : dict) : M unit :=
  fun st => (Ok tt,
             mkState (list_update (heap st) r d)
                     (_settings st) (dotenv st) (settings_file st) (trace st)).

Definition set_global (c : option nat) : M unit :=
  fun st => (Ok tt, mkState (heap st) c (dotenv st) (settings_file st) (trace st)).

Definition emit (e : Event) : M unit :=
  fun st => (Ok tt,
             mkState (heap st) (_settings st) (dotenv st) (settings_file st) (trace st ++ [e])).

(** [not _settings] is false for a non-empty dict only. *)
Definition global_truthy (st : State) : bool :=
  match _settings st with
  | None => false
  | Some r => truthy (VDict (deref st r))
  end.

(** Modelled from the spec: [dotenv.save_dotenv_value(key, v)] of
    [python/helpers/dotenv.py], which is not among the sources.  The secret
    store is keyed; a write upserts a key. *)
Definition save_dotenv_value (key : string) (v : value) : M unit :=
  fun st => (Ok tt,
             mkState (heap st) (_settings st) (dict_set (dotenv st) key v)
                     (settings_file st) (trace st ++ [SaveDotenv key v])).

(** Modelled from the spec: [dotenv.get_dotenv_value(key)] of the same
    module.  A read returns the stored value, or [None] when the key is
    absent. *)
Definition get_dotenv_value (secrets : dict) (key : string) : value :=
  match dict_get secrets key with
  | Some v => v
  | None => VNone
  end.

(** Modelled from the spec: [files.write_file(SETTINGS_FILE, content)] of
    [python/helpers/files.py], which is not among the sources.  The settings
    file is a single document at a fixed path; a write replaces it. *)
Definition write_file (content : string) : M unit :=
  fun st => (Ok tt,
             mkState (heap st) (_settings st) (dotenv st) (Some content)
                     (trace st ++ [WriteFile content])).

(** [subprocess.run(cmd, shell=True, check=True)]. *)
Definition run_shell (E : Env) (cmd : string) : M unit :=
  bind (emit (RunShell cmd))
       (fun _ => if shell_succeeds E cmd then ret tt else raise CalledProcessError).

(** ** Persistence and the service *)

Open Scope m_scope.

Definition set_root_password (E : Env) (password : value) : M unit :=
  if negb (is_dockerized E) then
    raise (PyException "root password can only be set in dockerized environments")
  else
    run_shell E ("echo 'root:" ++ py_str E password ++ "' | chpasswd") ;;
    save_dotenv_value (KEY_ROOT_PASSWORD E) password.

(** The loop over [settings["api_keys"].items()]. *)
Fixpoint save_api_keys (items : dict) : M unit :=
  match items with
  | [] => ret tt
  | (key, val) :: rest => save_dotenv_value (upper key) val ;; save_api_keys rest
  end.

Definition when (b : bool) (m : M unit) : M unit := if b then m else ret tt.

Definition _write_sensitive_settings (E : Env) (settings : nat) : M unit :=
  d <- load settings ;;
  api_keys <- lift (getitem d "api_keys") ;;
  match api_keys with
  | VDict items => save_api_keys items
  | _ => raise AttributeError
  end ;;
  auth_login <- lift (getitem d "auth_login") ;;
  save_dotenv_value (KEY_AUTH_LOGIN E) auth_login ;;
  auth_password <- lift (getitem d "auth_password") ;;
  when (truthy auth_password) (save_dotenv_value (KEY_AUTH_PASSWORD E) auth_password) ;;
  rfc_password <- lift (getitem d "rfc_password") ;;
  when (truthy rfc_password) (save_dotenv_value (KEY_RFC_PASSWORD E) rfc_password) ;;
  root_password <- lift (getitem d "root_password") ;;
  when (truthy root_password) (save_dotenv_value (KEY_ROOT_PASSWORD E) root_password) ;;
  when (truthy root_password) (set_root_password E root_password).

Definition _remove_sensitive_settings (settings : nat) : M unit :=
  setitem settings "api_keys" (VDict []) ;;
  setitem settings "auth_login" (VStr "") ;;
  setitem settings "auth_password" (VStr "") ;;
  setitem settings "rfc_password" (VStr "") ;;
  setitem settings "root_password" (VStr "").

Definition _write_settings_file (E : Env) (settings : nat) : M unit :=
  _write_sensitive_settings E settings ;;
  _remove_sensitive_settings settings ;;
  d <- load settings ;;
  write_file (json_dumps E d).

(** [None] when the file does not exist. *)
Definition _read_settings_file (E : Env) : M (option nat) :=
  fun st =>
    match settings_file st with
    | Some content =>
        match json_loads E content with
        | Some parsed =>
            (d <- lift (normalize_settings E parsed) ;;
             r <- new_dict d ;;
             ret (Some r)) st
        | None => (Raise JSONDecodeError, st)
        end
    | None => (Ok None, st)
    end.

Definition get_settings (E : Env) : M nat :=
  (fun st => when (negb (global_truthy st))
                  (r <- _read_settings_file E ;; set_global r) st) ;;
  (fun st => when (negb (global_truthy st))
                  (r <- new_dict get_default_settings ;; set_global (Some r)) st) ;;
  (fun st =>
     match _settings st with
     | Some r =>
         (d <- load r ;;
          norm <- lift (normalize_settings E (VDict d)) ;;
          new_dict norm) st
     | None => (Raise AttributeError, st)
     end).

(** The agent contexts and the speech model belong to other modules:
    reinitialising the contexts and scheduling the reload of the speech
    model are one event each. *)
Definition _apply_settings : M unit :=
  fun st =>
    when (global_truthy st)
         (match _settings st with
          | Some r =>
              emit Reconfigure ;;
              d <- load r ;;
              size <- lift (getitem d "stt_model_size") ;;
              emit (WhisperPreload size)
          | None => ret tt
          end) st.

Definition set_settings (E : Env) (settings : nat) : M unit :=
  d <- load settings ;;
  norm <- lift (normalize_settings E (VDict d)) ;;
  r <- new_dict norm ;;
  set_global (Some r) ;;
  _write_settings_file E r ;;
  _apply_settings.

(** ** The UI schema *)

Inductive FieldType : Type :=
| text | number | select | range | textarea | password | switch.

Record FieldOption : Type := mkOption {
  opt_value : string;
  opt_label : string
}.

(** [SettingsField] and [SettingsSection] are declared with [total=False]:
    every key may be missing. *)
Record SettingsField : Type := mkField {
  f_id : option string;
  f_title : option string;
  f_description : option string;
  f_type : option FieldType;
  f_value : option value;
  f_min : option value;
  f_max : option value;
  f_step : option value;
  f_options : option (list FieldOption)
}.

Record SettingsSection : Type := mkSection {
  s_id : option string;
  s_title : option string;
  s_description : option string;
  s_fields : option (list SettingsField)
}.

Record SettingsOutput : Type := mkOutput {
  sections : list SettingsSection
}.

Definition field (id title description : string) (ty : FieldType) (v : value)
  : SettingsField :=
  mkField (Some id) (Some title) (Some description) (Some ty) (Some v)
          None None None None.

Definition range_field (id title description : string) (min max step v : value)
  : SettingsField :=
  mkField (Some id) (Some title) (Some description) (Some range) (Some v)
          (Some min) (Some max) (Some step) None.

Definition select_field (id title description : string) (v : value)
    (options : list FieldOption) : SettingsField :=
  mkField (Some id) (Some title) (Some description) (Some select) (Some v)
          None None None (Some options).

Definition section (id title description : string) (fields : list SettingsField)
  : SettingsSection :=
  mkSection (Some id) (Some title) (Some description) (Some fields).

Definition provider_options (E : Env) : list FieldOption :=
  map (fun p => mkOption (fst p) (snd p)) (ModelProvider E).

Definition subdir_options (subdirs : list string) : list FieldOption :=
  map (fun subdir => mkOption subdir subdir) subdirs.

(** [a or b]. *)
Definition py_or (a b : value) : value := if truthy a then a else b.

(** The key looked up for a provider: the entry of [settings["api_keys"]]
    when there is one, else what [models.get_api_key] knows. *)
Definition _get_api_key_field (E : Env) (settings : dict) (provider title : string)
  : res SettingsField :=
  let? api_keys := getitem settings "api_keys" in
  match api_keys with
  | VDict keys =>
      let key := dict_get_default keys provider (get_api_key E provider) in
      Ok (mkField (Some ("api_key_" ++ provider)) (Some title) None (Some password)
                  (Some (VStr (if truthy key && negb (eq_str key "None")
                               then PASSWORD_PLACEHOLDER else "")))
                  None None None None)
  | _ => Raise AttributeError
  end.

Definition chat_model_fields (E : Env) (settings : dict)
  : list (res SettingsField) :=
  [ (let? v := getitem settings "chat_model_provider" in
       Ok (select_field "chat_model_provider"
         "Chat model provider"
         "Select provider for main chat model used by Agent Zero"
         v (provider_options E)));
    (let? v := getitem settings "chat_model_name" in
       Ok (field "chat_model_name"
         "Chat model name"
         "Exact name of model from selected provider"
         text v));
    (let? v := getitem settings "chat_model_temperature" in
       Ok (range_field "chat_model_temperature"
         "Chat model temperature"
         "Determines the randomness of generated responses. 0 is deterministic, 1 is random"
         (VInt 0) (VInt 1) (VFloat 0.01) v));
    (let? v := getitem settings "chat_model_ctx_length" in
       Ok (field "chat_model_ctx_length"
         "Chat model context length"
         "Maximum number of tokens in the context window for LLM. System prompt, chat history, RAG and response all count towards this limit."
         number v));
    (let? v := getitem settings "chat_model_ctx_history" in
       Ok (range_field "chat_model_ctx_history"
         "Context window space for chat history"
         "Portion of context window dedicated to chat history visible to the agent. Chat history will automatically be optimized to fit. Smaller size will result in shorter and more summarized history. The remaining space will be used for system prompt, RAG and response."
         (VFloat 0.01) (VInt 1) (VFloat 0.01) v));
    (let? v := getitem settings "chat_model_rl_requests" in
       Ok (field "chat_model_rl_requests"
         "Requests per minute limit"
         "Limits the number of requests per minute to the chat model. Waits if the limit is exceeded. Set to 0 to disable rate limiting."
         number v));
    (let? v := getitem settings "chat_model_rl_input" in
       Ok (field "chat_model_rl_input"
         "Input tokens per minute limit"
         "Limits the number of input tokens per minute to the chat model. Waits if the limit is exceeded. Set to 0 to disable rate limiting."
         number v));
    (let? v := getitem settings "chat_model_rl_output" in
       Ok (field "chat_model_rl_output"
         "Output tokens per minute limit"
         "Limits the number of output tokens per minute to the chat model. Waits if the limit is exceeded. Set to 0 to disable rate limiting."
         number v));
    (let? kwargs := getitem settings "chat_model_kwargs" in
       let? encoded := _dict_to_env E kwargs in
       Ok (field "chat_model_kwargs"
         "Chat model additional parameters"
         "Any other parameters supported by the model. Format is KEY=VALUE on individual lines, just like .env file."
         textarea (VStr encoded))) ].

Definition util_model_fields (E : Env) (settings : dict)
  : list (res SettingsField) :=
  [ (let? v := getitem settings "util_model_provider" in
       Ok (select_field "util_model_provider"
         "Utility model provider"
         "Select provider for utility model used by the framework"
         v (provider_options E)));
    (let? v := getitem settings "util_model_name" in
       Ok (field "util_model_name"
         "Utility model name"
         "Exact name of model from selected provider"
         text v));
    (let? v := getitem settings "util_model_temperature" in
       Ok (range_field "util_model_temperature"
         "Utility model temperature"
         "Determines the randomness of generated responses. 0 is deterministic, 1 is random"
         (VInt 0) (VInt 1) (VFloat 0.01) v));
    (let? v := getitem settings "util_model_rl_requests" in
       Ok (field "util_model_rl_requests"
         "Requests per minute limit"
         "Limits the number of requests per minute to the utility model. Waits if the limit is exceeded. Set to 0 to disable rate limiting."
         number v));
    (let? v := getitem settings "util_model_rl_input" in
       Ok (field "util_model_rl_input"
         "Input tokens per minute limit"
         "Limits the number of input tokens per minute to the utility model. Waits if the limit is exceeded. Set to 0 to disable rate limiting."
         number v));
    (let? v := getitem settings "util_model_rl_output" in
       Ok (field "util_model_rl_output"
         "Output tokens per minute limit"
         "Limits the number of output tokens per minute to the utility model. Waits if the limit is exceeded. Set to 0 to disable rate limiting."
         number v));
    (let? kwargs := getitem settings "util_model_kwargs" in
       let? encoded := _dict_to_env E kwargs in
       Ok (field "util_model_kwargs"
         "Utility model additional parameters"
         "Any other parameters supported by the model. Format is KEY=VALUE on individual lines, just like .env file."
         textarea (VStr encoded))) ].

Definition embed_model_fields (E : Env) (settings : dict)
  : list (res SettingsField) :=
  [ (let? v := getitem settings "embed_model_provider" in
       Ok (select_field "embed_model_provider"
         "Embedding model provider"
         "Select provider for embedding model used by the framework"
         v (provider_options E)));
    (let? v := getitem settings "embed_model_name" in
       Ok (field "embed_model_name"
         "Embedding model name"
         "Exact name of model from selected provider"
         text v));
    (let? v := getitem settings "embed_model_rl_requests" in
       Ok (field "embed_model_rl_requests"
         "Requests per minute limit"
         "Limits the number of requests per minute to the embedding model. Waits if the limit is exceeded. Set to 0 to disable rate limiting."
         number v));
    (let? v := getitem settings "embed_model_rl_input" in
       Ok (field "embed_model_rl_input"
         "Input tokens per minute limit"
         "Limits the number of input tokens per minute to the embedding model. Waits if the limit is exceeded. Set to 0 to disable rate limiting."
         number v));
    (let? kwargs := getitem settings "embed_model_kwargs" in
       let? encoded := _dict_to_env E kwargs in
       Ok (field "embed_model_kwargs"
         "Embedding model additional parameters"
         "Any other parameters supported by the model. Format is KEY=VALUE on individual lines, just like .env file."
         textarea (VStr encoded))) ].

Definition browser_model_fields (E : Env) (settings : dict)
  : list (res SettingsField) :=
  [ (let? v := getitem settings "browser_model_provider" in
       Ok (select_field "browser_model_provider"
         "Web Browser model provider"
         "Select provider for web browser model used by <a href='https://github.com/browser-use/browser-use' target='_blank'>browser-use</a> framework"
         v (provider_options E)));
    (let? v := getitem settings "browser_model_name" in
       Ok (field "browser_model_name"
         "Web Browser model name"
         "Exact name of model from selected provider"
         text v));
    (let? v := getitem settings "browser_model_vision" in
       Ok (field "browser_model_vision"
         "Use Vision"
         "Models capable of Vision can use it to analyze web pages from screenshots. Increases quality but also token usage."
         switch v));
    (let? v := getitem settings "browser_model_temperature" in
       Ok (range_field "browser_model_temperature"
         "Web Browser model temperature"
         "Determines the randomness of generated responses. 0 is deterministic, 1 is random"
         (VInt 0) (VInt 1) (VFloat 0.01) v));
    (let? kwargs := getitem settings "browser_model_kwargs" in
       let? encoded := _dict_to_env E kwargs in
       Ok (field "browser_model_kwargs"
         "Web Browser model additional parameters"
         "Any other parameters supported by the model. Format is KEY=VALUE on individual lines, just like .env file."
         textarea (VStr encoded))) ].

Definition auth_fields (E : Env) (secrets : dict) (settings : dict)
  : list (res SettingsField) :=
  [ (Ok (field "auth_login"
         "UI Login"
         "Set user name for web UI"
         text (py_or (get_dotenv_value secrets (KEY_AUTH_LOGIN E)) (VStr ""))));
    (Ok (field "auth_password"
         "UI Password"
         "Set user password for web UI"
         password (VStr (if truthy (get_dotenv_value secrets (KEY_AUTH_PASSWORD E)) then PASSWORD_PLACEHOLDER else "")))) ]
  ++ (if is_dockerized E then
    [ (Ok (field "root_password"
         "root Password"
         "Change linux root password in docker container. This password can be used for SSH access. Original password was randomly generated during setup."
         password (VStr ""))) ]
   else []).

Definition api_keys_fields (E : Env) (settings : dict)
  : list (res SettingsField) :=
  [ (_get_api_key_field E settings "openai" "OpenAI API Key");
    (_get_api_key_field E settings "anthropic" "Anthropic API Key");
    (_get_api_key_field E settings "groq" "Groq API Key");
    (_get_api_key_field E settings "google" "Google API Key");
    (_get_api_key_field E settings "deepseek" "DeepSeek API Key");
    (_get_api_key_field E settings "openrouter" "OpenRouter API Key");
    (_get_api_key_field E settings "sambanova" "Sambanova API Key");
    (_get_api_key_field E settings "mistralai" "MistralAI API Key");
    (_get_api_key_field E settings "huggingface" "HuggingFace API Key") ].

Definition agent_fields (E : Env) (settings : dict)
  : list (res SettingsField) :=
  [ (let? v := getitem settings "agent_prompts_subdir" in
       Ok (select_field "agent_prompts_subdir"
         "Prompts Subdirectory"
         "Subdirectory of /prompts folder to use for agent prompts. Used to adjust agent behaviour."
         v (subdir_options (get_subdirectories E "prompts" None))));
    (let? v := getitem settings "agent_memory_subdir" in
       Ok (select_field "agent_memory_subdir"
         "Memory Subdirectory"
         "Subdirectory of /memory folder to use for agent memory storage. Used to separate memory storage between different instances."
         v (subdir_options (get_subdirectories E "memory" (Some "embeddings")))));
    (let? v := getitem settings "agent_knowledge_subdir" in
       Ok (select_field "agent_knowledge_subdir"
         "Knowledge subdirectory"
         "Subdirectory of /knowledge folder to use for agent knowledge import. 'default' subfolder is always imported and contains framework knowledge."
         v (subdir_options (get_subdirectories E "knowledge" (Some "default"))))) ].

Definition dev_fields (E : Env) (secrets : dict) (settings : dict)
  : list (res SettingsField) :=
  (if is_development E then
    [ (let? v := getitem settings "rfc_url" in
       Ok (field "rfc_url"
         "RFC Destination URL"
         "URL of dockerized A0 instance for remote function calls. Do not specify port here."
         text v)) ]
   else [])
  ++ [ (Ok (field "rfc_password"
         "RFC Password"
         "Password for remote function calls. Passwords must match on both instances. RFCs can not be used with empty password."
         password (VStr (if truthy (get_dotenv_value secrets (KEY_RFC_PASSWORD E)) then PASSWORD_PLACEHOLDER else "")))) ]
  ++ (if is_development E then
    [ (let? v := getitem settings "rfc_port_http" in
       Ok (field "rfc_port_http"
         "RFC HTTP port"
         "HTTP port for dockerized instance of A0."
         text v));
    (let? v := getitem settings "rfc_port_ssh" in
       Ok (field "rfc_port_ssh"
         "RFC SSH port"
         "SSH port for dockerized instance of A0."
         text v)) ]
   else []).

Definition stt_fields (E : Env) (settings : dict)
  : list (res SettingsField) :=
  [ (let? v := getitem settings "stt_model_size" in
       Ok (select_field "stt_model_size"
         "Model Size"
         "Select the speech recognition model size"
         v ([ mkOption "tiny" "Tiny (39M, English)";
            mkOption "base" "Base (74M, English)";
            mkOption "small" "Small (244M, English)";
            mkOption "medium" "Medium (769M, English)";
            mkOption "large" "Large (1.5B, Multilingual)";
            mkOption "turbo" "Turbo (Multilingual)" ])));
    (let? v := getitem settings "stt_language" in
       Ok (field "stt_language"
         "Language Code"
         "Language code (e.g. en, fr, it)"
         text v));
    (let? v := getitem settings "stt_silence_threshold" in
       Ok (range_field "stt_silence_threshold"
         "Silence threshold"
         "Silence detection threshold. Lower values are more sensitive."
         (VInt 0) (VInt 1) (VFloat 0.01) v));
    (let? v := getitem settings "stt_silence_duration" in
       Ok (field "stt_silence_duration"
         "Silence duration (ms)"
         "Duration of silence before the server considers speaking to have ended."
         text v));
    (let? v := getitem settings "stt_waiting_timeout" in
       Ok (field "stt_waiting_timeout"
         "Waiting timeout (ms)"
         "Duration before the server closes the microphone."
         text v)) ].

(** [secrets] is the content of the dotenv store when the schema is built.
    The field lists are built in the order of the source, the sections are
    listed in the order of its result. *)
Definition convert_out (E : Env) (secrets : dict) (settings : dict) : res SettingsOutput :=
  let? chat_model_fs := sequence (chat_model_fields E settings) in
  let? util_model_fs := sequence (util_model_fields E settings) in
  let? embed_model_fs := sequence (embed_model_fields E settings) in
  let? browser_model_fs := sequence (browser_model_fields E settings) in
  let? auth_fs := sequence (auth_fields E secrets settings) in
  let? api_keys_fs := sequence (api_keys_fields E settings) in
  let? agent_fs := sequence (agent_fields E settings) in
  let? dev_fs := sequence (dev_fields E secrets settings) in
  let? stt_fs := sequence (stt_fields E settings) in
  Ok {| sections :=
      [ section "agent"
          "Agent Config"
          "Agent parameters."
          agent_fs;
        section "chat_model"
          "Chat Model"
          "Selection and settings for main chat model used by Agent Zero"
          chat_model_fs;
        section "util_model"
          "Utility model"
          "Smaller, cheaper, faster model for handling utility tasks like organizing memory, preparing prompts, summarizing."
          util_model_fs;
        section "embed_model"
          "Embedding Model"
          "Settings for the embedding model used by Agent Zero."
          embed_model_fs;
        section "browser_model"
          "Web Browser Model"
          "Settings for the web browser model. Agent Zero uses <a href='https://github.com/browser-use/browser-use' target='_blank'>browser-use</a> agentic framework to handle web interactions."
          browser_model_fs;
        section "stt"
          "Speech to Text"
          "Voice transcription preferences and server turn detection settings."
          stt_fs;
        section "api_keys"
          "API Keys"
          "API keys for model providers and services used by Agent Zero."
          api_keys_fs;
        section "auth"
          "Authentication"
          "Settings for authentication to use Agent Zero Web UI."
          auth_fs;
        section "dev"
          "Development"
          "Parameters for A0 framework development. RFCs (remote function calls) are used to call functions on another A0 instance. You can develop and debug A0 natively on your local system while redirecting some functions to A0 instance in docker. This is crucial for development as A0 needs to run in standardized environment to support all features."
          dev_fs ] |}.

(** [_env_to_dict(data)] on a value: only a [str] has [splitlines]. *)
Definition env_to_dict_of (data : value) : res dict :=
  match data with
  | VStr s => Ok (_env_to_dict s)
  | _ => Raise AttributeError
  end.

(** The body of the inner loop of [convert_in] on the content of [current].
    [current["api_keys"]] is a dict of its own (made by [normalize_settings]),
    so the item assignment into it is an update of that entry. *)
Definition apply_field (current : dict) (f : SettingsField) : res dict :=
  match f_value f with
  | None => Raise (KeyError "value")
  | Some v =>
      if negb (eq_str v PASSWORD_PLACEHOLDER) then
        match f_id f with
        | None => Raise (KeyError "id")
        | Some id =>
            if endswith id "_kwargs" then
              let? kwargs := env_to_dict_of v in
              Ok (dict_set current id (VDict kwargs))
            else if startswith id "api_key_" then
              let? api_keys := getitem current "api_keys" in
              match api_keys with
              | VDict keys => Ok (dict_set current "api_keys" (VDict (dict_set keys id v)))
              | _ => Raise TypeError
              end
            else Ok (dict_set current id v)
        end
      else Ok current
  end.

Fixpoint apply_fields (current : dict) (fields : list SettingsField) : res dict :=
  match fields with
  | [] => Ok current
  | f :: rest => let? current' := apply_field current f in apply_fields current' rest
  end.

Fixpoint apply_sections (current : dict) (secs : list SettingsSection) : res dict :=
  match secs with
  | [] => Ok current
  | s :: rest =>
      let? current' :=
        match s_fields s with
        | Some fields => apply_fields current fields
        | None => Ok current
        end in
      apply_sections current' rest
  end.

(** [current] is the new object [get_settings()] returns; it is reachable
    from nowhere else, so its content is written back once. *)
Definition convert_in (E : Env) (settings : SettingsOutput) : M nat :=
  current <- get_settings E ;;
  d <- load current ;;
  d' <- lift (apply_sections d (sections settings)) ;;
  put current d' ;;
  ret current.

(** ** Reading a schema and a record *)

(** Every field of a schema, in the order [convert_in] visits them. *)
Definition schema_fields (secs : list SettingsSection) : list SettingsField :=
  flat_map (fun s => match s_fields s with Some fields => fields | None => [] end) secs.

(** The settings entry a field id addresses in [convert_in]: a key of the
    record, or a key of the mapping under ["api_keys"]. *)
Definition is_api_key_id (id : string) : bool :=
  negb (endswith id "_kwargs") && startswith id "api_key_".

Definition entry (d : dict) (id : string) : option value :=
  if is_api_key_id id then
    match dict_get d "api_keys" with
    | Some (VDict keys) => dict_get keys id
    | _ => None
    end
  else dict_get d id.

(** Whether a field with id [gid] that is not skipped writes the entry of
    [id]: it has the same id, or one of the two is the whole ["api_keys"]
    mapping and the other an entry of it. *)
Definition writes_entry (gid id : string) : bool :=
  String.eqb gid id
  || (is_api_key_id id && String.eqb gid "api_keys")
  || (is_api_key_id gid && String.eqb id "api_keys").

(** The first field of a schema with a given id, and its value. *)
Definition has_id (id : string) (f : SettingsField) : bool :=
  match f_id f with
  | Some i => String.eqb i id
  | None => false
  end.

Definition field_value_of (out : res SettingsOutput) (id : string) : option value :=
  match out with
  | Ok o =>
      match find (has_id id) (schema_fields (sections o)) with
      | Some f => f_value f
      | None => None
      end
  | Raise _ => None
  end.

(** The secret-bearing keys of a record. *)
Definition secret_keys : list string :=
  ["api_keys"; "auth_login"; "auth_password"; "rfc_password"; "root_password"].

Definition kwargs_keys : list string :=
  ["chat_model_kwargs"; "util_model_kwargs"; "embed_model_kwargs"; "browser_model_kwargs"].

(** What [_remove_sensitive_settings] leaves in a record. *)
Definition sanitized (d : dict) : Prop :=
  dict_get d "api_keys" = Some (VDict []) /\
  dict_get d "auth_login" = Some (VStr "") /\
  dict_get d "auth_password" = Some (VStr "") /\
  dict_get d "rfc_password" = Some (VStr "") /\
  dict_get d "root_password" = Some (VStr "").

(** A record is in normal form when it has every key of the defaults with a
    value its coercion leaves alone. *)
Definition normal (E : Env) (d : dict) : Prop :=
  forall key dflt, In (key, dflt) get_default_settings ->
    exists v, dict_get d key = Some v /\ coerce E dflt v = Ok v.

(** [n] calls of [get_settings()] in a row; the result of the last one. *)
Fixpoint get_settings_times (E : Env) (n : nat) : M nat :=
  match n with
  | O => get_settings E
  | S m => bind (get_settings E) (fun _ => get_settings_times E m)
  end.

(** Two values of the same Python type. *)
Definition same_type (a b : value) : bool :=
  match a, b with
  | VNone, VNone | VBool _, VBool _ | VInt _, VInt _
  | VFloat _, VFloat _ | VStr _, VStr _ | VDict _, VDict _ => true
  | _, _ => false
  end.

(** [convert_in(convert_out(s))] while [s] is the content of the cached
    record: the content of the record it returns. *)
Definition round_trip (E : Env) (st : State) (s : dict) : res dict :=
  let? out := convert_out E (dotenv st) s in
  match convert_in E out st with
  | (Ok r, st') => Ok (deref st' r)
  | (Raise e, _) => Raise e
  end.

(** A field of the schema of [s] that [convert_in] can apply without
    changing a key of [s] outside the secret-bearing ones. *)
Definition restores (s : dict) (f : SettingsField) : Prop :=
  exists id v,
    f_id f = Some id /\ f_value f = Some v /\ id <> "api_keys"
    /\ if endswith id "_kwargs" then
         exists t, v = VStr t /\ dict_get s id = Some (VDict (_env_to_dict t))
       else if startswith id "api_key_" then True
       else In id secret_keys \/ dict_get s id = Some v.

(** [current] agrees with [s] outside the secret-bearing keys and holds a
    mapping under ["api_keys"]. *)
Definition agrees (s current : dict) : Prop :=
  (forall k, ~ In k secret_keys -> dict_get current k = dict_get s k)
  /\ exists keys, dict_get current "api_keys" = Some (VDict keys).

(** ** Sample collaborators and records *)

(** Collaborators for the examples: a JSON reader that accepts the empty
    object only, a writer and a [repr] that produce a fixed text, number
    parsers that accept nothing, two providers, no key known to the provider
    module, and a shell that always succeeds. *)
Definition sample_env (dockerized development : bool) : Env :=
  {| repr := fun _ => "<repr>";
     float_of_string := fun _ => None;
     int_of_string := fun _ => None;
     json_loads := fun s => if String.eqb s "{}" then Some (VDict []) else None;
     json_dumps := fun _ => "<json>";
     is_dockerized := dockerized;
     is_development := development;
     ModelProvider := [("OPENAI", "OpenAI"); ("ANTHROPIC", "Anthropic")];
     get_api_key := fun _ => VStr "None";
     get_subdirectories := fun _ _ => ["default"];
     KEY_AUTH_LOGIN := "AUTH_LOGIN";
     KEY_AUTH_PASSWORD := "AUTH_PASSWORD";
     KEY_RFC_PASSWORD := "RFC_PASSWORD";
     KEY_ROOT_PASSWORD := "ROOT_PASSWORD";
     shell_succeeds := fun _ => true |}.

(** A process that has just started: no cached record, no file, nothing
    stored, and the given objects on the heap. *)
Definition fresh_state (objects : list dict) : State :=
  mkState objects None [] None [].

Definition two_lines : string := "line1" ++ String LF "line2".

(** A full record with an API key and a login. *)
Definition sample_record : dict :=
  dict_set (dict_set get_default_settings "api_keys" (VDict [("openai", VStr "sk-123")]))
           "auth_login" (VStr "admin").

(** A cached record, and two submissions: one leaves the password at the
    placeholder and changes the login; the other leaves an API key at the
    placeholder and replaces the whole mapping of API keys. *)
Definition cached_state (s : dict) : State := mkState [s] (Some 0%nat) [] None [].

Definition login_submission : SettingsOutput :=
  mkOutput
    [ section "auth" "Authentication" ""
        [ field "auth_password" "UI Password" "" password (VStr PASSWORD_PLACEHOLDER);
          field "auth_login" "UI Login" "" text (VStr "bob") ] ].

Definition reset_submission : SettingsOutput :=
  mkOutput
    [ section "api_keys" "API Keys" ""
        [ field "api_key_openai" "OpenAI API Key" "" password (VStr PASSWORD_PLACEHOLDER);
          field "api_keys" "API Keys" "" text (VDict []) ] ].

Definition record_with_key : dict :=
  dict_set get_default_settings "api_keys" (VDict [("api_key_openai", VStr "sk-old")]).

(** ** The runtime configuration *)

(** [sub in s] for two strings. *)
Fixpoint contains (sub s : string) : bool :=
  String.prefix sub s ||
  match s with
  | EmptyString => false
  | String _ r => contains sub r
  end.

(** [s.split(sep)] for a non-empty separator: the occurrences are found from
    the left and do not overlap.  [skip] counts the characters of the
    occurrence just found that are still to be passed over. *)
Fixpoint split_skip (sep : string) (skip : nat) (s : string) : list string :=
  match s with
  | EmptyString => [EmptyString]
  | String c r =>
      match skip with
      | S k => split_skip sep k r
      | O =>
          if String.prefix sep s then
            EmptyString :: split_skip sep (String.length sep - 1) r
          else
            match split_skip sep 0 r with
            | [] => [String c EmptyString]
            | part :: parts => String c part :: parts
            end
      end
  end.

Definition split (sep s : string) : list string := split_skip sep 0 s.

(** [s[:-1]]. *)
Fixpoint drop_last (s : string) : string :=
  match s with
  | EmptyString => EmptyString
  | String c EmptyString => EmptyString
  | String c r => String c (drop_last r)
  end.

(** The host of [get_runtime_config]: what follows the first double slash,
    up to the next one; then the part before the colon, the unpacking into
    two names wanting exactly two parts; then without one final slash.  A
    dict passes the membership tests and has neither [split] nor
    [endswith]; the other values are no containers.  The index 1 exists
    whenever the double slash occurs; the interpreter would raise
    [IndexError] otherwise. *)
Definition runtime_host (host : value) : res string :=
  match host with
  | VStr s =>
      let? s1 :=
        if contains "//" s then
          match split "//" s with
          | _ :: second :: _ => Ok second
          | _ => Raise (PyException "IndexError")
          end
        else Ok s in
      let? s2 :=
        if contains ":" s1 then
          match split ":" s1 with
          | [h; _] => Ok h
          | _ => Raise ValueError
          end
        else Ok s1 in
      Ok (if endswith s2 "/" then drop_last s2 else s2)
  | VDict d =>
      if dict_has d "//" then Raise AttributeError
      else if dict_has d ":" then Raise AttributeError
      else Raise AttributeError
  | VNone | VBool _ | VInt _ | VFloat _ => Raise TypeError
  end.

Definition get_runtime_config (E : Env) (set : dict) : res dict :=
  if is_dockerized E then
    Ok [ ("code_exec_ssh_addr", VStr "localhost");
         ("code_exec_ssh_port", VInt 22);
         ("code_exec_http_port", VInt 80);
         ("code_exec_ssh_user", VStr "root") ]
  else
    let? host := getitem set "rfc_url" in
    let? host := runtime_host host in
    let? ssh_port := getitem set "rfc_port_ssh" in
    let? http_port := getitem set "rfc_port_http" in
    Ok [ ("code_exec_ssh_addr", VStr host);
         ("code_exec_ssh_port", ssh_port);
         ("code_exec_http_port", http_port);
         ("code_exec_ssh_user", VStr "root") ].

(** ** Shapes of strings and mappings *)

(** Whether the first, or the last, character of a string satisfies [p]. *)
Definition starts (p : ascii -> bool) (s : string) : bool :=
  match s with
  | EmptyString => false
  | String c _ => p c
  end.

Fixpoint ends (p : ascii -> bool) (s : string) : bool :=
  match s with
  | EmptyString => false
  | String c EmptyString => p c
  | String _ r => ends p r
  end.

Fixpoint no_linebreak (s : string) : bool :=
  match s with
  | EmptyString => true
  | String c r => negb (is_linebreak c) && no_linebreak r
  end.

Fixpoint count_char (c : ascii) (s : string) : nat :=
  match s with
  | EmptyString => O
  | String d r => ((if Ascii.eqb c d then 1 else 0) + count_char c r)%nat
  end.

(** A key the codec reads back: not empty, on one line, without an equals
    sign, not a comment, no white space around it. *)
Definition plain_key (k : string) : bool :=
  negb (is_empty k) && no_linebreak k && negb (contains_char "="%char k)
  && negb (starts (Ascii.eqb "#"%char) k)
  && negb (starts is_space k) && negb (ends is_space k).

(** A value the codec reads back: on one line, and neither white space nor
    a quote character at either end. *)
Definition plain_value (v : string) : bool :=
  no_linebreak v
  && negb (starts is_space v) && negb (ends is_space v)
  && negb (starts (Ascii.eqb dquote) v) && negb (ends (Ascii.eqb dquote) v)
  && negb (starts (Ascii.eqb squote) v) && negb (ends (Ascii.eqb squote) v).

(** A mapping from [str] to [str] as a dict. *)
Definition str_items (m : list (string * string)) : dict :=
  map (fun kv => (fst kv, VStr (snd kv))) m.


(** The text [_dict_to_env] writes after the equals sign for a [str] without
    a line feed: in double quotes when it holds a space or a quote character
    or is empty. *)
Definition quoted_text (v : string) : string :=
  if contains_char " "%char v || String.eqb v "" || contains_char dquote v
     || contains_char squote v
  then String dquote (v ++ String dquote "") else v.

(** One turn of the loop of [_env_to_dict]. *)
Definition decode_step (env_dict : dict) (line : string) : dict :=
  match line_pattern_match line with
  | Some (key, value) =>
      dict_set env_dict (strip key)
        (VStr (strip_char squote (strip_char dquote (strip value))))
  | None => env_dict
  end.

(** What every turn of that loop keeps: distinct keys without white space around them,
    and strings without a single quote at either end as values. *)
Definition decoded_shape (d : dict) : Prop :=
  NoDup (map fst d)
  /\ forall k v, In (k, v) d ->
       starts is_space k = false /\ ends is_space k = false
       /\ exists s, v = VStr s /\ starts (Ascii.eqb squote) s = false
                    /\ ends (Ascii.eqb squote) s = false.

(** Whether a record holds the placeholder token under a key. *)
Definition holds_placeholder (d : dict) (k : string) : bool :=
  match dict_get d k with
  | Some v => eq_str v PASSWORD_PLACEHOLDER
  | None => false
  end.

(** The message of the exception [set_root_password] raises outside a
    container. *)
Definition root_password_refused : exn :=
  PyException "root password can only be set in dockerized environments".

(** Pairwise distinct strings. *)
Fixpoint distinct (l : list string) : bool :=
  match l with
  | [] => true
  | x :: r => negb (existsb (String.eqb x) r) && distinct r
  end.

(** A field of the schema of the record [s] that shows what [s] holds: a
    kwargs field the text of the mapping, a field outside the secret-bearing
    ones the value under its id. *)
Definition shows (E : Env) (s : dict) (f : SettingsField) : Prop :=
  exists id v,
    f_id f = Some id /\ f_value f = Some v
    /\ if endswith id "_kwargs" then
         exists m t, dict_get s id = Some m /\ _dict_to_env E m = Ok t /\ v = VStr t
       else if startswith id "api_key_" then True
       else In id secret_keys \/ dict_get s id = Some v.

(** The four ways in which [convert_out] makes a field: written out, from
    the value under a key of the record, from the text of the mapping under
    a key, and for the API key of a provider. *)
Inductive builder : Type :=
| Fixed (f : SettingsField)
| FromKey (key : string) (mk : value -> SettingsField)
| FromKwargs (key : string) (mk : string -> SettingsField)
| ApiKey (provider title : string).

Definition build (E : Env) (settings : dict) (b : builder) : res SettingsField :=
  match b with
  | Fixed f => Ok f
  | FromKey key mk => let? v := getitem settings key in Ok (mk v)
  | FromKwargs key mk =>
      let? kwargs := getitem settings key in
      let? encoded := _dict_to_env E kwargs in
      Ok (mk encoded)
  | ApiKey provider title => _get_api_key_field E settings provider title
  end.

(** The id of every field a builder can make. *)
Definition builds_id (b : builder) (id : string) : Prop :=
  match b with
  | Fixed f => f_id f = Some id
  | FromKey _ mk => forall v, f_id (mk v) = Some id
  | FromKwargs _ mk => forall t, f_id (mk t) = Some id
  | ApiKey provider _ => id = "api_key_" ++ provider
  end.

Definition builds_shown (E : Env) (s : dict) (b : builder) : Prop :=
  match b with
  | Fixed f => shows E s f
  | FromKey key mk => forall v, dict_get s key = Some v -> shows E s (mk v)
  | FromKwargs key mk =>
      forall m t, dict_get s key = Some m -> _dict_to_env E m = Ok t -> shows E s (mk t)
  | ApiKey provider title =>
      forall f, _get_api_key_field E s provider title = Ok f -> shows E s f
  end.

(** ** More sample records *)

(** A mapping for the examples. *)
Definition sample_kwargs : list (string * string) :=
  [("temperature", "0.7"); ("stop", "end of text"); ("seed", "")].

(** A process that has just started beside a settings file. *)
Definition state_with_file (content : string) : State :=
  mkState [] None [] (Some content) [].

(** A cached record without secrets, as [set_settings] leaves it. *)
Definition saved_state : State :=
  mkState [get_default_settings] (Some 0%nat) [("AUTH_LOGIN", VStr "admin")] None [].

(** A record with a root password. *)
Definition record_with_root_password : dict :=
  dict_set get_default_settings "root_password" (VStr "s3cret").

(** A record whose remote address is a full URL. *)
Definition record_with_url (url : string) : dict :=
  dict_set get_default_settings "rfc_url" (VStr url).

(** ** Proof automation *)

(** Unfolds the primitives of the state monad. *)
Ltac unfold_effects :=
  repeat (progress unfold set_root_password, run_shell, when, bind, load, lift,
            getitem, emit, save_dotenv_value, write_file, setitem, set_global,
            new_dict, ret, raise).

(** Case analysis on the lookups and tests of [_write_sensitive_settings]. *)
Ltac split_lookups :=
  repeat match goal with
    | |- context [match dict_get ?d ?k with _ => _ end] =>
        let H := fresh "Hget" in destruct (dict_get d k) eqn:H
    | |- context [if truthy ?v then _ else _] =>
        let H := fresh "Htruthy" in destruct (truthy v) eqn:H
    | |- context [if negb (is_dockerized ?E) then _ else _] =>
        let H := fresh "Hdocker" in destruct (is_dockerized E) eqn:H
    | |- context [if shell_succeeds ?E ?c then _ else _] =>
        let H := fresh "Hshell" in destruct (shell_succeeds E c) eqn:H
    | _ => progress cbn [fst snd negb heap _settings dotenv settings_file trace]
    end.

(** A log made of dotenv and shell events holds no file write. *)
Ltac no_write_event H :=
  lazymatch type of H with
  | In _ (map _ _) =>
      let kv := fresh "kv" in
      apply in_map_iff in H; destruct H as [kv [H _]]; discriminate H
  | In _ (_ ++ _) =>
      apply in_app_or in H; destruct H as [H|H]; no_write_event H
  | _ => simpl in H; repeat (destruct H as [H|H]; [discriminate H|]); exact H
  end.

(** The nine field lists of [convert_out]. *)
Ltac unfold_field_lists H :=
  unfold agent_fields, chat_model_fields, util_model_fields, embed_model_fields,
    browser_model_fields, stt_fields, api_keys_fields, auth_fields, dev_fields in H.

(** One element of a field list that returned the field [f]. *)
Ltac invert_builder H :=
  unfold _get_api_key_field in H;
  repeat match type of H with
         | rbind ?r _ = Ok _ =>
             let v := fresh "v" in let Hv := fresh "Hv" in
             destruct r as [v|] eqn:Hv; [cbn [rbind] in H | discriminate H]
         end;
  try match type of H with
      | match ?x with _ => _ end = _ => destruct x eqn:?; try discriminate H
      end;
  inversion H; subst; clear H.

(** Membership in the defaults, by search. *)
Ltac in_defaults := simpl; repeat (first [left; reflexivity | right]).

(** Reads a field list of [convert_out] as a list of builders. *)
Ltac reify_builder b :=
  lazymatch b with
  | Ok ?f => constr:(Fixed f)
  | rbind (getitem _ ?k) (fun kw => rbind (_dict_to_env _ kw) (fun enc => Ok (@?mk enc))) =>
      constr:(FromKwargs k mk)
  | rbind (getitem _ ?k) (fun v => Ok (@?mk v)) => constr:(FromKey k mk)
  | _get_api_key_field _ _ ?p ?t => constr:(ApiKey p t)
  end.

Ltac reify_builders l :=
  lazymatch l with
  | nil => constr:(@nil builder)
  | cons ?b ?r =>
      let sb := reify_builder b in
      let sr := reify_builders r in
      constr:(cons sb sr)
  end.

Ltac reify_sequence E s H :=
  lazymatch type of H with
  | sequence ?l = _ =>
      let sh := reify_builders l in
      change l with (map (build E s) sh) in H
  end.

(** Decides the two tests of [shows] on an id that is written out. *)
Ltac decide_id_tests :=
  match goal with
  | |- context [endswith ?id "_kwargs"] =>
      let b := eval vm_compute in (endswith id "_kwargs") in
      change (endswith id "_kwargs") with b;
      let c := eval vm_compute in (startswith id "api_key_") in
      change (startswith id "api_key_") with c
  end;
  cbv iota.

(** A builder of [convert_out] makes fields that show the record. *)
Ltac builder_shown :=
  cbn [builds_shown];
  first
    [ (* from a key *)
      let v := fresh "v" in let Hv := fresh "Hv" in
      intros v Hv; unfold shows;
      cbn [f_id f_value field range_field select_field];
      do 2 eexists; split; [reflexivity|]; split; [reflexivity|];
      decide_id_tests; right; exact Hv
    | (* from a mapping *)
      let m := fresh "m" in let t := fresh "t" in
      let Hm := fresh "Hm" in let Ht := fresh "Ht" in
      intros m t Hm Ht; unfold shows;
      cbn [f_id f_value field range_field select_field];
      do 2 eexists; split; [reflexivity|]; split; [reflexivity|];
      decide_id_tests; exists m, t; split; [exact Hm|]; split; [exact Ht | reflexivity]
    | (* an API key *)
      let f := fresh "f" in let Hf := fresh "Hf" in
      intros f Hf; invert_builder Hf; unfold shows; cbn [f_id f_value];
      do 2 eexists; split; [reflexivity|]; split; [reflexivity|];
      decide_id_tests; exact I
    | (* written out *)
      unfold shows; cbn [f_id f_value field range_field select_field];
      do 2 eexists; split; [reflexivity|]; split; [reflexivity|];
      decide_id_tests; left; simpl; tauto ].

(** ** Results and dictionaries *)

Lemma rbind_ok {A B : Type} (r : res A) (k : A -> res B) (b : B) :
  rbind r k = Ok b -> exists a, r = Ok a /\ k a = Ok b.
Proof.
  destruct r as [a|e]; simpl; intros H.
  - exists a. split; [reflexivity | exact H].
  - discriminate H.
Qed.

Lemma sequence_ok_in {A : Type} (l : list (res A)) (xs : list A) :
  sequence l = Ok xs -> forall x, In x xs -> In (Ok x) l.
Proof.
  revert xs. induction l as [|r rs IH]; simpl; intros xs H x Hx.
  - inversion H; subst. destruct Hx.
  - apply rbind_ok in H. destruct H as [a [Ha H]].
    apply rbind_ok in H. destruct H as [tl [Htl H]].
    inversion H; subst. destruct Hx as [Hx|Hx].
    + left. congruence.
    + right. eapply IH; eauto.
Qed.

Lemma dict_get_set_same (d : dict) (k : string) (v : value) :
  dict_get (dict_set d k v) k = Some v.
Proof.
  induction d as [|[k' v'] r IH]; simpl.
  - rewrite String.eqb_refl. reflexivity.
  - destruct (String.eqb k' k) eqn:Hk; simpl; rewrite Hk; auto.
Qed.

Lemma dict_get_set_other (d : dict) (k k' : string) (v : value) :
  k <> k' -> dict_get (dict_set d k v) k' = dict_get d k'.
Proof.
  intros Hne. induction d as [|[k0 v0] r IH]; simpl.
  - destruct (String.eqb k k') eqn:Hk; [apply String.eqb_eq in Hk; contradiction | reflexivity].
  - destruct (String.eqb k0 k) eqn:Hk; simpl.
    + apply String.eqb_eq in Hk. subst k0.
      destruct (String.eqb k k') eqn:Hk'; [apply String.eqb_eq in Hk'; contradiction | reflexivity].
    + rewrite IH. reflexivity.
Qed.

Lemma dict_set_unchanged (d : dict) (k : string) (v : value) :
  dict_get d k = Some v -> dict_set d k v = d.
Proof.
  induction d as [|[k' v'] r IH]; simpl; intros H.
  - discriminate H.
  - destruct (String.eqb k' k) eqn:Hk.
    + congruence.
    + rewrite IH by exact H. reflexivity.
Qed.

(** ** The codec on a value with a line feed *)

(** The mapping FOO -> bar, BAZ -> a b c is read back as it was. *)
Example codec_round_trip_plain (E : Env) :
  _dict_to_env E (VDict [("FOO", VStr "bar"); ("BAZ", VStr "a b c")])
    = Ok ("FOO=bar" ++ String LF ("BAZ=" ++ String dquote ("a b c" ++ String dquote "")))
  /\ _env_to_dict ("FOO=bar" ++ String LF ("BAZ=" ++ String dquote ("a b c" ++ String dquote "")))
     = [("FOO", VStr "bar"); ("BAZ", VStr "a b c")].
Proof. split; reflexivity. Qed.

(** A comment line and a line without an equals sign are skipped; a hash
    sign after white space is read as part of a key. *)
Example codec_skips_lines :
  _env_to_dict ("# note=1" ++ String LF ("plain" ++ String LF (" k = v " ++ String LF " #c=2")))
  = [("k", VStr "v"); ("#c", VStr "2")].
Proof. reflexivity. Qed.

(** C5: the mapping with the one entry KEY -> line1, line feed, line2 is
    encoded as the key, the equals sign and the value between single quotes;
    decoding that text reads the first line only and yields KEY -> line1, so
    the second line of the value is lost. *)
Theorem codec_newline_value_truncated (E : Env) :
  _dict_to_env E (VDict [("KEY", VStr two_lines)])
    = Ok ("KEY='line1" ++ String LF "line2'")
  /\ _env_to_dict ("KEY='line1" ++ String LF "line2'") = [("KEY", VStr "line1")]
  /\ [("KEY", VStr "line1")] <> [("KEY", VStr two_lines)].
Proof.
  split; [reflexivity | split; [reflexivity | ]].
  intros H. discriminate H.
Qed.

(** ** Normalisation *)

Lemma coerce_idempotent (E : Env) (dflt v w : value) :
  coerce E dflt v = Ok w -> coerce E dflt w = Ok w.
Proof.
  destruct dflt; simpl; intros H; try discriminate H;
    try (inversion H; subst; reflexivity);
    destruct v; simpl in H; try discriminate H;
    try (inversion H; subst; reflexivity);
    try (apply rbind_ok in H; destruct H as [x [_ H]]; inversion H; subst; reflexivity);
    match type of H with
    | context [match ?x with _ => _ end] =>
        destruct x; inversion H; subst; reflexivity
    end.
Qed.

Lemma coerce_default_fixed (E : Env) (key : string) (dflt : value) :
  In (key, dflt) get_default_settings -> coerce E dflt dflt = Ok dflt.
Proof.
  intros H. destruct dflt; try reflexivity.
  exfalso. simpl in H.
    repeat (destruct H as [H|H]; [discriminate H|]). exact H.
Qed.

Lemma normalize_key_result (E : Env) (copy copy' : dict) (key : string) (dflt : value) :
  In (key, dflt) get_default_settings ->
  normalize_key E copy (key, dflt) = Ok copy' ->
  exists w, copy' = dict_set copy key w /\ coerce E dflt w = Ok w
            /\ match dict_get copy key with
               | None => w = dflt
               | Some v => match coerce E dflt v with
                           | Ok c => w = c
                           | Raise _ => w = dflt
                           end
               end.
Proof.
  intros Hin H. unfold normalize_key in H.
  destruct (dict_get copy key) as [v|].
  - destruct (coerce E dflt v) as [c|e] eqn:Hc.
    + inversion H; subst. exists c. eauto using coerce_idempotent.
    + exists dflt. destruct e; inversion H; subst; eauto using coerce_default_fixed.
  - inversion H; subst. exists dflt. eauto using coerce_default_fixed.
Qed.

Lemma normalize_loop_result (E : Env) (items : dict) :
  NoDup (map fst items) ->
  (forall kv, In kv items -> In kv get_default_settings) ->
  forall copy copy', normalize_loop E items copy = Ok copy' ->
    (forall key, ~ In key (map fst items) -> dict_get copy' key = dict_get copy key)
    /\ (forall key dflt, In (key, dflt) items ->
          exists w, dict_get copy' key = Some w /\ coerce E dflt w = Ok w
            /\ match dict_get copy key with
               | None => w = dflt
               | Some v => match coerce E dflt v with
                           | Ok c => w = c
                           | Raise _ => w = dflt
                           end
               end).
Proof.
  induction items as [|[k dv] rest IH]; simpl; intros Hnd Hsub copy copy' H.
  - inversion H; subst. split; [reflexivity | intros ? ? []].
  - apply rbind_ok in H. destruct H as [c1 [H1 H2]].
    inversion Hnd as [|? ? Hnotin Hnd']; subst.
    apply normalize_key_result in H1; [|apply Hsub; left; reflexivity].
    destruct H1 as [w [Hc1 [Hw Hsrc]]].
    destruct (IH Hnd' (fun kv H => Hsub kv (or_intror H)) _ _ H2) as [Hframe Hkeys].
    split.
    + intros key Hk. rewrite Hframe by tauto. subst c1.
      apply dict_get_set_other. intros ->. apply Hk. left. reflexivity.
    + intros key dflt [Heq|Hin].
      * inversion Heq; subst. exists w. rewrite Hframe by exact Hnotin.
        rewrite dict_get_set_same. auto.
      * destruct (Hkeys key dflt Hin) as [w' [Hg [Hw' Hsrc']]].
        exists w'. split; [exact Hg|]. split; [exact Hw'|].
        subst c1. rewrite dict_get_set_other in Hsrc'; [exact Hsrc'|].
        intros ->. apply Hnotin. change key with (fst (key, dflt)). apply in_map. exact Hin.
Qed.

Lemma default_keys_nodup : NoDup (map fst get_default_settings).
Proof.
  simpl. repeat (constructor; [simpl; intros H; repeat (destruct H as [H|H]; [discriminate H|]); exact H|]).
  constructor.
Qed.

Lemma normalize_loop_normal (E : Env) (copy copy' : dict) :
  normalize_loop E get_default_settings copy = Ok copy' -> normal E copy'.
Proof.
  intros H key dflt Hin.
  destruct (normalize_loop_result E _ default_keys_nodup (fun _ H => H) _ _ H) as [_ Hk].
  destruct (Hk key dflt Hin) as [w [Hg [Hw _]]]. eauto.
Qed.

Lemma normalize_loop_fixed (E : Env) (items : dict) (d : dict) :
  (forall key dflt, In (key, dflt) items ->
     exists v, dict_get d key = Some v /\ coerce E dflt v = Ok v) ->
  normalize_loop E items d = Ok d.
Proof.
  induction items as [|[k dv] rest IH]; simpl; intros H.
  - reflexivity.
  - destruct (H k dv (or_introl eq_refl)) as [v [Hg Hc]].
    rewrite Hg, Hc. rewrite (dict_set_unchanged _ _ _ Hg). simpl.
    apply IH. intros key dflt Hin. apply H. right. exact Hin.
Qed.

Lemma normalize_normal_fixed (E : Env) (d : dict) :
  normal E d -> normalize_settings E (VDict d) = Ok d.
Proof. intros H. apply normalize_loop_fixed. exact H. Qed.

(** C6: normalising a second time changes nothing; when the first
    normalisation raises, so does the composition, with the same
    exception. *)
Theorem normalize_settings_idempotent (E : Env) (x : value) :
  rbind (normalize_settings E x) (fun y => normalize_settings E (VDict y))
  = normalize_settings E x.
Proof.
  destruct (normalize_settings E x) as [y|e] eqn:H; simpl; [|reflexivity].
  apply normalize_normal_fixed.
  destruct x; unfold normalize_settings in H; try discriminate H.
  eapply normalize_loop_normal; eauto.
Qed.

Lemma coerce_raises (E : Env) (dflt v : value) (e : exn) :
  coerce E dflt v = Raise e -> e = ValueError \/ e = TypeError \/ e = OverflowError.
Proof.
  destruct dflt; simpl; intros H; try discriminate H;
    try (inversion H; subst; tauto);
    destruct v; simpl in H; try discriminate H;
    try (inversion H; subst; tauto);
    unfold trunc_float, float_of_Z in H;
    match type of H with
    | context [match ?x with _ => _ end] =>
        destruct x; simpl in H; inversion H; subst; tauto
    end.
Qed.

Lemma coerce_same_type (E : Env) (dflt v w : value) :
  coerce E dflt v = Ok w -> same_type dflt w = true.
Proof.
  destruct dflt; simpl; intros H; try discriminate H;
    try (inversion H; subst; reflexivity);
    destruct v; simpl in H; try discriminate H;
    try (inversion H; subst; reflexivity);
    try (apply rbind_ok in H; destruct H as [x [_ H]]; inversion H; subst; reflexivity);
    match type of H with
    | context [match ?x with _ => _ end] =>
        destruct x; inversion H; subst; reflexivity
    end.
Qed.

Lemma normalize_loop_returns (E : Env) (items : dict) :
  NoDup (map fst items) ->
  (forall kv, In kv items -> In kv get_default_settings) ->
  forall copy,
    (forall key dflt v, In (key, dflt) items -> dict_get copy key = Some v ->
       coerce E dflt v <> Raise OverflowError) ->
    exists copy', normalize_loop E items copy = Ok copy'.
Proof.
  induction items as [|[k dv] rest IH]; intros Hnd Hsub copy Hno.
  - simpl. eauto.
  - simpl in Hnd. cbn [normalize_loop].
    inversion Hnd as [|? ? Hnotin Hnd']; subst.
    assert (Hstep : exists c1 w, normalize_key E copy (k, dv) = Ok c1 /\ c1 = dict_set copy k w).
    { unfold normalize_key. destruct (dict_get copy k) as [v|] eqn:Hg; [|eauto].
      destruct (coerce E dv v) as [c|e] eqn:Hc; [eauto|].
      destruct (coerce_raises _ _ _ _ Hc) as [He | [He | He]]; subst e; eauto.
      exfalso. exact (Hno k dv v (or_introl eq_refl) Hg Hc). }
    destruct Hstep as [c1 [w [Hc1 Heq]]]. rewrite Hc1. cbn [rbind].
    apply IH; auto.
    { intros kv Hkv. apply Hsub. right. exact Hkv. }
    intros key dflt v Hin Hg. subst c1.
    rewrite dict_get_set_other in Hg; [exact (Hno key dflt v (or_intror Hin) Hg)|].
    intros ->. apply Hnotin. change key with (fst (key, dflt)). apply in_map. exact Hin.
Qed.

Lemma mapping_defaults_empty (key : string) (m : dict) :
  In (key, VDict m) get_default_settings -> m = [].
Proof.
  simpl. intros H.
  repeat (destruct H as [H|H]; [inversion H; reflexivity || discriminate H|]).
  destruct H.
Qed.

(** C7, as the code has it: when no coercion overflows, normalisation
    returns a record in which every key of the defaults holds a value of the
    default's type: the default when the key is absent, the coerced input
    when the coercion succeeds, the default when it fails.  A key whose
    default is a mapping is coerced like the others: an input mapping is
    copied with its content, any other input is replaced by the empty
    mapping. *)
Theorem normalize_settings_by_key (E : Env) (x : dict) :
  (forall key dflt v, In (key, dflt) get_default_settings ->
     dict_get x key = Some v -> coerce E dflt v <> Raise OverflowError) ->
  exists y, normalize_settings E (VDict x) = Ok y
    /\ (forall key dflt, In (key, dflt) get_default_settings ->
          exists w, dict_get y key = Some w /\ same_type dflt w = true
            /\ match dict_get x key with
               | None => w = dflt
               | Some v => match coerce E dflt v with
                           | Ok c => w = c
                           | Raise _ => w = dflt
                           end
               end)
    /\ (forall key m v, In (key, VDict m) get_default_settings ->
          dict_get x key = Some v ->
          dict_get y key = Some (match v with VDict d => VDict d | _ => VDict [] end)).
Proof.
  intros Hno.
  destruct (normalize_loop_returns E _ default_keys_nodup (fun _ H => H) x Hno) as [y Hy].
  exists y. split; [exact Hy|].
  destruct (normalize_loop_result E _ default_keys_nodup (fun _ H => H) _ _ Hy) as [_ Hk].
  split.
  - intros key dflt Hin. destruct (Hk key dflt Hin) as [w [Hg [Hw Hsrc]]].
    exists w. split; [exact Hg|]. split; [eapply coerce_same_type; eauto | exact Hsrc].
  - intros key m v Hin Hx. destruct (Hk key _ Hin) as [w [Hg [_ Hsrc]]].
    rewrite Hx in Hsrc. rewrite Hg. f_equal.
    rewrite (mapping_defaults_empty _ _ Hin) in Hsrc.
    destruct v; simpl in Hsrc; try exact Hsrc.
    destruct (is_empty s); exact Hsrc.
Qed.

Lemma sample_partial_no_overflow :
  forall key dflt v, In (key, dflt) get_default_settings ->
    dict_get [("chat_model_kwargs", VStr "a=b"); ("rfc_port_http", VStr "80")] key = Some v ->
    coerce (sample_env false false) dflt v <> Raise OverflowError.
Proof.
  intros key dflt v Hin Hg. simpl in Hin.
  repeat (destruct Hin as [Hin|Hin];
          [inversion Hin; subst; simpl in Hg; try discriminate Hg;
           inversion Hg; subst; discriminate|]).
  destruct Hin.
Qed.

Lemma normalize_settings_by_key_witness :
  exists y,
    normalize_settings (sample_env false false)
      (VDict [("chat_model_kwargs", VStr "a=b"); ("rfc_port_http", VStr "80")]) = Ok y
    /\ dict_get y "chat_model_kwargs" = Some (VDict []).
Proof.
  destruct (normalize_settings_by_key (sample_env false false) _ sample_partial_no_overflow)
    as [y [Hy [_ Hm]]].
  exists y. split; [exact Hy|].
  apply (Hm "chat_model_kwargs" [] (VStr "a=b")); [|reflexivity].
  simpl. tauto.
Defined.

(** C7 as stated fails: the text a=b under the mapping-typed key
    chat_model_kwargs is not copied into the result; the result holds the
    empty mapping. *)
Lemma normalize_mapping_not_copied :
  exists y,
    normalize_settings (sample_env false false) (VDict [("chat_model_kwargs", VStr "a=b")]) = Ok y
    /\ dict_get y "chat_model_kwargs" = Some (VDict [])
    /\ VDict [] <> VStr "a=b".
Proof.
  eexists. split; [vm_compute; reflexivity|]. split; [reflexivity|discriminate].
Qed.

(** An infinite float under an integer-typed key escapes the handler of
    [normalize_settings]. *)
Lemma normalize_settings_overflow (E : Env) :
  normalize_settings E (VDict [("chat_model_ctx_length", VFloat infinity)])
  = Raise OverflowError.
Proof. reflexivity. Qed.

(** ** Effects of the persistence layer *)

Lemma nth_list_update_same {A : Type} (l : list A) (i : nat) (a dflt : A) :
  (i < List.length l)%nat -> nth i (list_update l i a) dflt = a.
Proof.
  revert i. induction l as [|h t IH]; intros [|i] Hi; simpl in *; try lia.
  - reflexivity.
  - apply IH. lia.
Qed.

Lemma nth_list_update_other {A : Type} (l : list A) (i j : nat) (a dflt : A) :
  i <> j -> nth j (list_update l i a) dflt = nth j l dflt.
Proof.
  revert i j. induction l as [|h t IH]; intros [|i] [|j] Hne; simpl; try reflexivity.
  - contradiction.
  - apply IH. congruence.
Qed.

Lemma length_list_update {A : Type} (l : list A) (i : nat) (a : A) :
  List.length (list_update l i a) = List.length l.
Proof.
  revert i. induction l as [|h t IH]; intros [|i]; simpl; auto.
Qed.

(** [save_api_keys] only writes to the dotenv store and logs it. *)
Lemma save_api_keys_effect (items : dict) (st : State) :
  exists secrets,
    save_api_keys items st
    = (Ok tt, mkState (heap st) (_settings st) secrets (settings_file st)
                      (trace st ++ map (fun kv => SaveDotenv (upper (fst kv)) (snd kv)) items)).
Proof.
  revert st. induction items as [|[k v] rest IH]; intros st; simpl.
  - exists (dotenv st). unfold ret. rewrite app_nil_r. destruct st; reflexivity.
  - unfold bind, save_dotenv_value. simpl.
    destruct (IH (mkState (heap st) (_settings st) (dict_set (dotenv st) (upper k) v)
                          (settings_file st) (trace st ++ [SaveDotenv (upper k) v])))
      as [secrets Hs].
    simpl in Hs. exists secrets.
    rewrite <- app_assoc in Hs. simpl in Hs. exact Hs.
Qed.

(** [_write_sensitive_settings] touches the dotenv store and the log only;
    it logs no file write, it starts with the API keys, and it returns when
    the four credentials are present and the root password is empty or can
    be set. *)
Lemma write_sensitive_effect (E : Env) (r : nat) (st : State) :
  exists res secrets evs,
    _write_sensitive_settings E r st
    = (res, mkState (heap st) (_settings st) secrets (settings_file st) (trace st ++ evs))
    /\ (forall c, ~ In (WriteFile c) evs)
    /\ (forall items, dict_get (deref st r) "api_keys" = Some (VDict items) ->
          exists evs', evs = (map (fun kv => SaveDotenv (upper (fst kv)) (snd kv)) items ++ evs')%list)
    /\ (forall items login pw rfc root,
          dict_get (deref st r) "api_keys" = Some (VDict items) ->
          dict_get (deref st r) "auth_login" = Some login ->
          dict_get (deref st r) "auth_password" = Some pw ->
          dict_get (deref st r) "rfc_password" = Some rfc ->
          dict_get (deref st r) "root_password" = Some root ->
          truthy root = false
          \/ (is_dockerized E = true
              /\ shell_succeeds E ("echo 'root:" ++ py_str E root ++ "' | chpasswd") = true) ->
          res = Ok tt).
Proof.
  unfold _write_sensitive_settings. unfold_effects.
  destruct (dict_get (deref st r) "api_keys") as [api|] eqn:Hapi.
  2:{ exists (Raise (KeyError "api_keys")), (dotenv st), []. rewrite app_nil_r.
      split; [destruct st; reflexivity|]. split; [intros c []|].
      split; intros; discriminate. }
  destruct api as [| | | | |items];
    try (exists (Raise AttributeError), (dotenv st), []; rewrite app_nil_r;
         split; [destruct st; reflexivity|]; split; [intros c []|];
         split; intros; discriminate).
  destruct (save_api_keys_effect items st) as [secrets Hs]. rewrite Hs.
  split_lookups;
    repeat rewrite <- app_assoc;
    (do 3 eexists; split; [reflexivity|]; split;
     [ intros c Hc; no_write_event Hc
     | split;
       [ intros items' Hi; inversion Hi; subst;
         first [ eexists; reflexivity | exists []; rewrite app_nil_r; reflexivity ]
       | intros items' login pw rfc root Hi Hl Hp Hr Ho Hgate;
         try discriminate;
         inversion Hl; inversion Hp; inversion Hr; inversion Ho; subst;
         try reflexivity;
         destruct Hgate as [Hgate|[Hg1 Hg2]]; congruence ] ]).
Qed.

Lemma deref_valid (st : State) (r : nat) (k : string) (v : value) :
  dict_get (deref st r) k = Some v -> (r < List.length (heap st))%nat.
Proof.
  intros H. destruct (Nat.lt_ge_cases r (List.length (heap st))) as [Hlt|Hge]; [exact Hlt|].
  unfold deref in H. rewrite nth_overflow in H by exact Hge. discriminate H.
Qed.

(** [_remove_sensitive_settings] rewrites the five secret-bearing keys of its
    argument, in place, and nothing else. *)
Lemma remove_sensitive_effect (r : nat) (st : State) :
  (r < List.length (heap st))%nat ->
  exists h,
    _remove_sensitive_settings r st
    = (Ok tt, mkState h (_settings st) (dotenv st) (settings_file st) (trace st))
    /\ List.length h = List.length (heap st)
    /\ sanitized (nth r h [])
    /\ (forall k, ~ In k secret_keys -> dict_get (nth r h []) k = dict_get (deref st r) k)
    /\ (forall r', r' <> r -> nth r' h [] = deref st r').
Proof.
  intros Hr. unfold _remove_sensitive_settings. unfold_effects. unfold deref.
  cbn [heap _settings dotenv settings_file trace].
  eexists. split; [reflexivity|].
  repeat rewrite length_list_update.
  split; [reflexivity|].
  repeat (rewrite nth_list_update_same by (repeat rewrite length_list_update; exact Hr)).
  split; [|split].
  - unfold sanitized.
    repeat split;
      repeat first [ rewrite dict_get_set_same; reflexivity
                   | rewrite dict_get_set_other by discriminate ];
      rewrite dict_get_set_same; reflexivity.
  - intros k Hk. unfold secret_keys in Hk. simpl in Hk.
    repeat rewrite dict_get_set_other by (intros Heq; apply Hk; rewrite <- Heq; tauto).
    reflexivity.
  - intros r' Hne.
    repeat rewrite nth_list_update_other by congruence. reflexivity.
Qed.

(** What a call of [_write_settings_file] does to the state. *)
Lemma write_settings_file_effect (E : Env) (r : nat) (st : State) :
  (r < List.length (heap st))%nat ->
  exists res h secrets file evs,
    _write_settings_file E r st
    = (res, mkState h (_settings st) secrets file (trace st ++ evs))
    /\ List.length h = List.length (heap st)
    /\ (forall r', r' <> r -> nth r' h [] = deref st r')
    /\ (forall items, dict_get (deref st r) "api_keys" = Some (VDict items) ->
          exists evs',
            evs = (map (fun kv => SaveDotenv (upper (fst kv)) (snd kv)) items ++ evs')%list
            /\ forall c, In (WriteFile c) evs' ->
                 exists d, c = json_dumps E d /\ sanitized d)
    /\ (res = Ok tt ->
          sanitized (nth r h [])
          /\ (forall k, ~ In k secret_keys ->
                dict_get (nth r h []) k = dict_get (deref st r) k)
          /\ file = Some (json_dumps E (nth r h []))
          /\ exists evs0, evs = (evs0 ++ [WriteFile (json_dumps E (nth r h []))])%list
                          /\ forall c, ~ In (WriteFile c) evs0)
    /\ (forall items login pw rfc root,
          dict_get (deref st r) "api_keys" = Some (VDict items) ->
          dict_get (deref st r) "auth_login" = Some login ->
          dict_get (deref st r) "auth_password" = Some pw ->
          dict_get (deref st r) "rfc_password" = Some rfc ->
          dict_get (deref st r) "root_password" = Some root ->
          truthy root = false
          \/ (is_dockerized E = true
              /\ shell_succeeds E ("echo 'root:" ++ py_str E root ++ "' | chpasswd") = true) ->
          res = Ok tt).
Proof.
  intros Hr.
  destruct (write_sensitive_effect E r st) as [res1 [secrets [evs1 [H1 [Hnw [Hfirst Hok]]]]]].
  unfold _write_settings_file. unfold bind at 1. rewrite H1.
  destruct res1 as [[]|e].
  - set (st1 := mkState (heap st) (_settings st) secrets (settings_file st) (trace st ++ evs1)).
    destruct (remove_sensitive_effect r st1 Hr) as [h [H2 [Hlen [Hsan [Hkeep Hother]]]]].
    unfold bind at 1. rewrite H2. unfold_effects. unfold deref.
    cbn [heap _settings dotenv settings_file trace st1].
    rewrite <- app_assoc.
    exists (Ok tt), h, secrets, (Some (json_dumps E (nth r h []))),
      (evs1 ++ [WriteFile (json_dumps E (nth r h []))])%list.
    split; [reflexivity|]. split; [exact Hlen|]. split; [exact Hother|].
    split; [|split].
    + intros items Hi. destruct (Hfirst items Hi) as [evs' Hevs]. subst evs1.
      exists (evs' ++ [WriteFile (json_dumps E (nth r h []))])%list.
      rewrite <- app_assoc. split; [reflexivity|].
      intros c Hc. apply in_app_or in Hc. destruct Hc as [Hc|Hc].
      * exfalso. apply (Hnw c). apply in_or_app. right. exact Hc.
      * destruct Hc as [Hc|[]]. inversion Hc; subst. eauto.
    + intros _. split; [exact Hsan|]. split; [exact Hkeep|]. split; [reflexivity|].
      exists evs1. split; [reflexivity | exact Hnw].
    + reflexivity.
  - exists (Raise e), (heap st), secrets, (settings_file st), evs1.
    split; [reflexivity|]. split; [reflexivity|]. split; [reflexivity|].
    split; [|split].
    + intros items Hi. destruct (Hfirst items Hi) as [evs' Hevs]. subst evs1.
      exists evs'. split; [reflexivity|].
      intros c Hc. exfalso. apply (Hnw c). apply in_or_app. right. exact Hc.
    + discriminate.
    + exact Hok.
Qed.

(** ** Saving *)

(** C2: for a record whose API keys are the one entry openai -> sk-123,
    [_write_settings_file] first stores sk-123 under OPENAI in the dotenv
    store; every JSON text it writes comes after that and is the dump of a
    record whose API keys are the empty mapping and whose login and three
    passwords are the empty string.  When the call returns, the dump of the
    sanitised record is the last effect and the content of the file; it
    returns whenever the record has its credentials and the root password is
    empty or can be set. *)
Theorem save_stores_api_key_before_json (E : Env) (st : State) (r : nat) :
  dict_get (deref st r) "api_keys" = Some (VDict [("openai", VStr "sk-123")]) ->
  exists evs,
    trace (snd (_write_settings_file E r st))
    = (trace st ++ SaveDotenv "OPENAI" (VStr "sk-123") :: evs)%list
    /\ (forall content, In (WriteFile content) evs ->
          exists d, content = json_dumps E d /\ sanitized d)
    /\ (fst (_write_settings_file E r st) = Ok tt ->
          exists evs0 d,
            evs = (evs0 ++ [WriteFile (json_dumps E d)])%list
            /\ sanitized d
            /\ d = deref (snd (_write_settings_file E r st)) r
            /\ settings_file (snd (_write_settings_file E r st)) = Some (json_dumps E d))
    /\ (forall login pw rfc root,
          dict_get (deref st r) "auth_login" = Some login ->
          dict_get (deref st r) "auth_password" = Some pw ->
          dict_get (deref st r) "rfc_password" = Some rfc ->
          dict_get (deref st r) "root_password" = Some root ->
          truthy root = false
          \/ (is_dockerized E = true
              /\ shell_succeeds E ("echo 'root:" ++ py_str E root ++ "' | chpasswd") = true) ->
          fst (_write_settings_file E r st) = Ok tt).
Proof.
  intros Hapi.
  destruct (write_settings_file_effect E r st (deref_valid _ _ _ _ Hapi))
    as [res [h [secrets [file [evs [Hrun [_ [_ [Hfirst [Hok Hgate]]]]]]]]]].
  rewrite Hrun. cbn [fst snd trace settings_file].
  destruct (Hfirst _ Hapi) as [evs' [Hevs Hwrites]]. simpl in Hevs.
  exists evs'. subst evs. split; [reflexivity|]. split; [exact Hwrites|]. split.
  - intros Hres. destruct (Hok Hres) as [Hsan [_ [Hfile [evs0 [Hlast Hnw]]]]].
    destruct evs0 as [|e0 evs0]; simpl in Hlast; inversion Hlast; subst.
    exists evs0, (nth r h []). unfold deref. cbn [heap]. auto.
  - intros login pw rfc root Hl Hp Hr Ho Hg. eapply Hgate; eauto.
Qed.

Lemma save_stores_api_key_before_json_witness :
  dict_get (deref (fresh_state [sample_record]) 0) "api_keys"
    = Some (VDict [("openai", VStr "sk-123")])
  /\ exists evs,
       trace (snd (_write_settings_file (sample_env false false) 0 (fresh_state [sample_record])))
       = SaveDotenv "OPENAI" (VStr "sk-123") :: evs.
Proof.
  split; [reflexivity|].
  destruct (save_stores_api_key_before_json (sample_env false false)
              (fresh_state [sample_record]) 0 eq_refl) as [evs [H _]].
  exists evs. exact H.
Defined.

(** ** Loading *)

(** C8: when the settings file exists and its content is no JSON,
    [_read_settings_file] raises the parse error and leaves the state alone;
    [get_settings], called while no record is cached, raises it as well: it
    neither catches it nor falls back to the defaults. *)
Theorem malformed_settings_file_propagates (E : Env) (st : State) (content : string) :
  settings_file st = Some content ->
  json_loads E content = None ->
  _read_settings_file E st = (Raise JSONDecodeError, st)
  /\ (global_truthy st = false -> get_settings E st = (Raise JSONDecodeError, st)).
Proof.
  intros Hfile Hjson.
  assert (Hread : _read_settings_file E st = (Raise JSONDecodeError, st)).
  { unfold _read_settings_file. rewrite Hfile, Hjson. reflexivity. }
  split; [exact Hread|].
  intros Hcache. unfold get_settings. unfold bind at 1. rewrite Hcache. cbn [negb when].
  unfold bind at 1. rewrite Hread. reflexivity.
Qed.

Lemma malformed_settings_file_propagates_witness :
  get_settings (sample_env false false) (mkState [] None [] (Some "{oops") [])
  = (Raise JSONDecodeError, mkState [] None [] (Some "{oops") []).
Proof.
  apply (proj2 (malformed_settings_file_propagates (sample_env false false)
                  (mkState [] None [] (Some "{oops") []) "{oops" eq_refl eq_refl)).
  reflexivity.
Defined.

(** ** The root password *)

(** C9: outside a container [set_root_password] raises and has no effect at
    all; a shell command appears in the log of a call only in a container,
    where the call starts with it. *)
Theorem set_root_password_gated (E : Env) (password : value) (st : State) :
  (is_dockerized E = false ->
     set_root_password E password st
     = (Raise (PyException "root password can only be set in dockerized environments"), st))
  /\ (forall cmd, In (RunShell cmd) (trace (snd (set_root_password E password st))) ->
        In (RunShell cmd) (trace st) \/ is_dockerized E = true)
  /\ (is_dockerized E = true ->
        exists evs,
          trace (snd (set_root_password E password st))
          = (trace st
             ++ RunShell ("echo 'root:" ++ py_str E password ++ "' | chpasswd") :: evs)%list).
Proof.
  unfold set_root_password. destruct (is_dockerized E); cbn [negb].
  - split; [discriminate|]. split; [auto|]. intros _.
    unfold_effects. cbn [heap _settings dotenv settings_file trace].
    destruct (shell_succeeds E _); cbn [snd trace].
    + rewrite <- app_assoc. eexists. reflexivity.
    + eexists. reflexivity.
  - split; [reflexivity|]. split; [|discriminate].
    intros cmd H. left. exact H.
Qed.

Lemma set_root_password_gated_witness :
  set_root_password (sample_env false false) (VStr "hunter2") (fresh_state [])
  = (Raise (PyException "root password can only be set in dockerized environments"),
     fresh_state []).
Proof.
  apply (proj1 (set_root_password_gated (sample_env false false) (VStr "hunter2")
                  (fresh_state []))).
  reflexivity.
Defined.

(** ** The cached record *)

Lemma apply_settings_effect (st : State) :
  exists res evs,
    _apply_settings st
    = (res, mkState (heap st) (_settings st) (dotenv st) (settings_file st)
                    (trace st ++ evs)).
Proof.
  unfold _apply_settings. destruct (global_truthy st); cbn [when].
  - destruct (_settings st) as [c|] eqn:Hc.
    + unfold_effects. cbn [heap _settings dotenv settings_file trace].
      destruct (dict_get _ "stt_model_size").
      * do 2 eexists. rewrite <- app_assoc. rewrite Hc. reflexivity.
      * do 2 eexists. rewrite Hc. reflexivity.
    + exists (Ok tt), []. rewrite app_nil_r. unfold ret. rewrite <- Hc.
      destruct st; reflexivity.
  - exists (Ok tt), []. rewrite app_nil_r. unfold ret. destruct st; reflexivity.
Qed.

Lemma secret_default_fixed (E : Env) (d : dict) (key : string) (dflt : value) :
  sanitized d -> In key secret_keys -> In (key, dflt) get_default_settings ->
  exists v, dict_get d key = Some v /\ coerce E dflt v = Ok v.
Proof.
  intros [H1 [H2 [H3 [H4 H5]]]] Hk Hin.
  simpl in Hk.
  destruct Hk as [<-|[<-|[<-|[<-|[<-|[]]]]]];
    simpl in Hin;
    repeat (destruct Hin as [Hin|Hin]; [inversion Hin; subst; eauto|]);
    destruct Hin.
Qed.

Lemma sanitized_normal (E : Env) (norm d : dict) :
  normal E norm -> sanitized d ->
  (forall k, ~ In k secret_keys -> dict_get d k = dict_get norm k) ->
  normal E d.
Proof.
  intros Hn Hs Hkeep key dflt Hin.
  destruct (in_dec string_dec key secret_keys) as [Hk|Hk].
  - eapply secret_default_fixed; eauto.
  - rewrite (Hkeep key Hk). apply Hn. exact Hin.
Qed.

(** With a cached record in normal form, [get_settings] returns a new object
    with the content of the cached one and changes nothing else. *)
Lemma get_settings_cached (E : Env) (st : State) (c : nat) :
  _settings st = Some c -> normal E (deref st c) ->
  get_settings E st
  = (Ok (List.length (heap st)),
     mkState (heap st ++ [deref st c]) (_settings st) (dotenv st) (settings_file st)
             (trace st)).
Proof.
  intros Hc Hn.
  assert (Htruthy : global_truthy st = true).
  { unfold global_truthy. rewrite Hc.
    destruct (Hn "chat_model_provider" (VStr "OPENAI")) as [v [Hv _]]; [simpl; tauto|].
    destruct (deref st c); [discriminate Hv | reflexivity]. }
  unfold get_settings. unfold bind. rewrite Htruthy. cbn [negb when ret].
  rewrite Htruthy. cbn [negb when ret]. rewrite Hc.
  unfold load, lift. rewrite (normalize_normal_fixed E _ Hn).
  unfold new_dict. rewrite Hc. reflexivity.
Qed.

Lemma get_settings_times_cached (E : Env) (n : nat) :
  forall (st : State) (c : nat),
    _settings st = Some c -> (c < List.length (heap st))%nat -> normal E (deref st c) ->
    exists r st', get_settings_times E n st = (Ok r, st') /\ deref st' r = deref st c.
Proof.
  induction n as [|n IH]; intros st c Hc Hlt Hn; simpl.
  - rewrite (get_settings_cached E st c Hc Hn).
    do 2 eexists. split; [reflexivity|].
    unfold deref. cbn [heap]. rewrite nth_middle. reflexivity.
  - unfold bind. rewrite (get_settings_cached E st c Hc Hn).
    set (st1 := mkState _ _ _ _ _).
    assert (Hd : deref st1 c = deref st c).
    { unfold deref, st1. cbn [heap]. rewrite app_nth1 by exact Hlt. reflexivity. }
    destruct (IH st1 c) as [r [st' [Hrun Hr]]].
    + exact Hc.
    + unfold st1. cbn [heap]. rewrite length_app. simpl. lia.
    + rewrite Hd. exact Hn.
    + exists r, st'. split; [exact Hrun|]. rewrite Hr. exact Hd.
Qed.

(** C10, as the code has it: [set_settings] hands [_write_settings_file] the
    normalised copy, which is also the cached record.  When it returns, the
    caller's record is what it was, the cached record is another object whose
    secret-bearing fields are blank, and every later [get_settings()]
    returns a record with these fields blank. *)
Theorem set_settings_blanks_cached_copy (E : Env) (s : nat) (st st' : State) :
  (s < List.length (heap st))%nat ->
  set_settings E s st = (Ok tt, st') ->
  deref st' s = deref st s
  /\ (exists c, _settings st' = Some c /\ c <> s /\ sanitized (deref st' c))
  /\ (forall n, exists r st'',
        get_settings_times E n st' = (Ok r, st'') /\ sanitized (deref st'' r)).
Proof.
  intros Hs Hrun. unfold set_settings in Hrun.
  unfold bind at 1 in Hrun. unfold load at 1 in Hrun.
  unfold bind at 1 in Hrun. unfold lift at 1 in Hrun.
  destruct (normalize_settings E (VDict (deref st s))) as [norm|e] eqn:Hnorm;
    [|discriminate Hrun].
  unfold bind at 1 in Hrun. unfold new_dict at 1 in Hrun.
  unfold bind at 1 in Hrun. unfold set_global at 1 in Hrun.
  cbn [heap _settings dotenv settings_file trace] in Hrun.
  set (c := List.length (heap st)) in *.
  set (st1 := mkState (heap st ++ [norm]) (Some c) (dotenv st) (settings_file st) (trace st)) in *.
  assert (Hc : (c < List.length (heap st1))%nat).
  { unfold st1, c. cbn [heap]. rewrite length_app. simpl. lia. }
  destruct (write_settings_file_effect E c st1 Hc)
    as [res [h [secrets [file [evs [Hw [Hlen [Hother [_ [Hok _]]]]]]]]]].
  unfold bind at 1 in Hrun. rewrite Hw in Hrun.
  destruct res as [[]|e]; [|discriminate Hrun].
  destruct (Hok eq_refl) as [Hsan [Hkeep _]].
  match type of Hrun with _apply_settings ?st2 = _ =>
    destruct (apply_settings_effect st2) as [res3 [evs3 Ha]] end.
  rewrite Ha in Hrun. inversion Hrun; subst res3 st'. clear Hrun.
  cbn [heap _settings dotenv settings_file trace].
  assert (Hne : s <> c) by (unfold c; lia).
  assert (Hnormal : normal E (nth c h [])).
  { apply (sanitized_normal E norm); [|exact Hsan|].
    - unfold normalize_settings in Hnorm. eapply normalize_loop_normal; eauto.
    - intros k Hk. rewrite (Hkeep k Hk). unfold deref, st1. cbn [heap].
      unfold c. rewrite nth_middle. reflexivity. }
  split; [|split].
  - unfold deref at 1. cbn [heap]. rewrite (Hother s Hne).
    unfold deref, st1. cbn [heap]. rewrite app_nth1 by exact Hs. reflexivity.
  - exists c. unfold deref. cbn [heap _settings]. auto.
  - intros n.
    match goal with |- context [get_settings_times E n ?st2] =>
      destruct (get_settings_times_cached E n st2 c) as [r [st'' [Hg Hr]]] end.
    + reflexivity.
    + cbn [heap]. rewrite Hlen. exact Hc.
    + exact Hnormal.
    + exists r, st''. split; [exact Hg|]. rewrite Hr. exact Hsan.
Qed.

Lemma set_settings_blanks_cached_copy_witness :
  (0 < List.length (heap (fresh_state [sample_record])))%nat
  /\ fst (set_settings (sample_env false false) 0 (fresh_state [sample_record])) = Ok tt
  /\ exists c,
       _settings (snd (set_settings (sample_env false false) 0 (fresh_state [sample_record])))
       = Some c /\ c <> 0%nat.
Proof.
  split; [simpl; lia|]. split; [vm_compute; reflexivity|].
  destruct (set_settings_blanks_cached_copy (sample_env false false) 0
              (fresh_state [sample_record])
              (snd (set_settings (sample_env false false) 0 (fresh_state [sample_record]))))
    as [_ [[c [Hc [Hne _]]] _]].
  - simpl; lia.
  - vm_compute. reflexivity.
  - exists c. split; [exact Hc | exact Hne].
Defined.

(** C10 as stated fails: after [set_settings] on the sample record, which
    holds an API key and a login, the caller's record still holds both. *)
Lemma set_settings_keeps_callers_record :
  fst (set_settings (sample_env false false) 0 (fresh_state [sample_record])) = Ok tt
  /\ dict_get (deref (snd (set_settings (sample_env false false) 0 (fresh_state [sample_record]))) 0)
              "api_keys" = Some (VDict [("openai", VStr "sk-123")])
  /\ dict_get (deref (snd (set_settings (sample_env false false) 0 (fresh_state [sample_record]))) 0)
              "auth_login" = Some (VStr "admin")
  /\ VDict [("openai", VStr "sk-123")] <> VDict []
  /\ VStr "admin" <> VStr "".
Proof.
  split; [vm_compute; reflexivity|].
  split; [vm_compute; reflexivity|].
  split; [vm_compute; reflexivity|].
  split; discriminate.
Qed.

(** ** The schema of a record *)

Lemma sequence_ok_of_in {A : Type} (l : list (res A)) (xs : list A) :
  sequence l = Ok xs -> forall x, In (Ok x) l -> In x xs.
Proof.
  revert xs. induction l as [|r rs IH]; simpl; intros xs H x Hx.
  - destruct Hx.
  - apply rbind_ok in H. destruct H as [a [Ha H]].
    apply rbind_ok in H. destruct H as [tl [Htl H]].
    inversion H; subst. destruct Hx as [Hx|Hx].
    + left. congruence.
    + right. eapply IH; eauto.
Qed.

(** The fields of the schema are the results of the nine field lists. *)
Lemma convert_out_fields (E : Env) (secrets settings : dict) (out : SettingsOutput) :
  convert_out E secrets settings = Ok out ->
  forall f, In f (schema_fields (sections out)) <->
    In (Ok f) (agent_fields E settings ++ chat_model_fields E settings
               ++ util_model_fields E settings ++ embed_model_fields E settings
               ++ browser_model_fields E settings ++ stt_fields E settings
               ++ api_keys_fields E settings ++ auth_fields E secrets settings
               ++ dev_fields E secrets settings)%list.
Proof.
  intros H f. unfold convert_out in H.
  repeat (apply rbind_ok in H; let fs := fresh "fs" in let Hs := fresh "Hs" in
          destruct H as [fs [Hs H]]).
  inversion H; subst out. clear H.
  unfold schema_fields. cbn [sections flat_map section s_fields].
  rewrite app_nil_r.
  repeat rewrite in_app_iff.
  repeat match goal with
         | Hs : sequence ?l = Ok ?fs |- _ =>
             assert (In f fs <-> In (Ok f) l)
               by (split; [apply (sequence_ok_in _ _ Hs) | apply (sequence_ok_of_in _ _ Hs)]);
             clear Hs
         end.
  tauto.
Qed.

(** C4, as the code has it: in the schema [convert_out] returns, the fields
    auth_password and rfc_password are there, of password type, and hold the
    placeholder when the dotenv store has a non-empty value for them and the
    empty string otherwise; root_password, there in a container and only
    there, is of password type and always empty; the field of an API key is of password
    type and holds the placeholder when the key looked up for the provider
    is non-empty and not the text None, the empty string otherwise. *)
Theorem convert_out_masks_secrets (E : Env) (secrets settings : dict) (out : SettingsOutput) :
  convert_out E secrets settings = Ok out ->
  (exists f, In f (schema_fields (sections out)) /\ f_id f = Some "auth_password")
  /\ (exists f, In f (schema_fields (sections out)) /\ f_id f = Some "rfc_password")
  /\ (is_dockerized E = true ->
        exists f, In f (schema_fields (sections out)) /\ f_id f = Some "root_password")
  /\ (forall f, In f (schema_fields (sections out)) ->
        (f_id f = Some "auth_password" ->
           f_type f = Some password
           /\ f_value f = Some (VStr (if truthy (get_dotenv_value secrets (KEY_AUTH_PASSWORD E))
                                     then PASSWORD_PLACEHOLDER else "")))
        /\ (f_id f = Some "rfc_password" ->
              f_type f = Some password
              /\ f_value f = Some (VStr (if truthy (get_dotenv_value secrets (KEY_RFC_PASSWORD E))
                                        then PASSWORD_PLACEHOLDER else "")))
        /\ (f_id f = Some "root_password" ->
              f_type f = Some password /\ f_value f = Some (VStr "")
              /\ is_dockerized E = true)
        /\ (forall provider, f_id f = Some ("api_key_" ++ provider) ->
              f_type f = Some password
              /\ exists keys, dict_get settings "api_keys" = Some (VDict keys)
                   /\ f_value f
                      = Some (VStr (if truthy (dict_get_default keys provider (get_api_key E provider))
                                       && negb (eq_str (dict_get_default keys provider
                                                          (get_api_key E provider)) "None")
                                    then PASSWORD_PLACEHOLDER else "")))).
Proof.
  intros Hout. pose proof (convert_out_fields E secrets settings out Hout) as Hf.
  split; [|split; [|split]].
  - eexists. split; [apply Hf|].
    + repeat rewrite in_app_iff. do 7 right. left. unfold auth_fields.
      apply in_or_app. left. right. left. reflexivity.
    + reflexivity.
  - eexists. split; [apply Hf|].
    + repeat rewrite in_app_iff. do 8 right. unfold dev_fields.
      apply in_or_app. right. apply in_or_app. left. left. reflexivity.
    + reflexivity.
  - intros Hd. eexists. split; [apply Hf|].
    + repeat rewrite in_app_iff. do 7 right. left. unfold auth_fields.
      apply in_or_app. right. rewrite Hd. left. reflexivity.
    + reflexivity.
  - intros f Hin. apply Hf in Hin. unfold_field_lists Hin.
    destruct (is_dockerized E), (is_development E); cbn [In app] in Hin;
      repeat (destruct Hin as [Hin|Hin];
              [ invert_builder Hin;
                cbn [f_id f_type f_value field range_field select_field];
                (split; [|split; [|split]]);
                [ intros Hid; try discriminate Hid; auto
                | intros Hid; try discriminate Hid; auto
                | intros Hid; try discriminate Hid; auto
                | intros provider Hid; simpl in Hid;
                  first [ discriminate Hid
                        | inversion Hid; subst; split; [reflexivity|];
                          unfold getitem in *;
                          destruct (dict_get settings "api_keys") as [api|];
                          [|discriminate];
                          match goal with
                          | Hk : Ok api = Ok _ |- _ => inversion Hk; subst
                          end; eauto ] ]
              | ]);
      destruct Hin.
Qed.

Lemma convert_out_masks_secrets_witness :
  exists out f,
    convert_out (sample_env true false) [("AUTH_PASSWORD", VStr "pw")] get_default_settings
    = Ok out
    /\ In f (schema_fields (sections out))
    /\ f_id f = Some "auth_password"
    /\ f_value f = Some (VStr PASSWORD_PLACEHOLDER).
Proof.
  destruct (convert_out (sample_env true false) [("AUTH_PASSWORD", VStr "pw")]
              get_default_settings) as [out|e] eqn:H;
    [|vm_compute in H; discriminate H].
  destruct (convert_out_masks_secrets _ _ _ _ H) as [[f [Hin Hid]] [_ [_ Hall]]].
  exists out, f. split; [reflexivity|]. split; [exact Hin|]. split; [exact Hid|].
  destruct (Hall f Hin) as [Hauth _]. destruct (Hauth Hid) as [_ Hv]. exact Hv.
Defined.

(** C4 as stated fails: in a container, with a root password in the dotenv
    store and in the record, the root_password field holds the empty string,
    not the placeholder. *)
Lemma root_password_field_empty_despite_secret :
  field_value_of
    (convert_out (sample_env true false) [("ROOT_PASSWORD", VStr "hunter2")]
       (dict_set get_default_settings "root_password" (VStr "hunter2")))
    "root_password" = Some (VStr "")
  /\ get_dotenv_value [("ROOT_PASSWORD", VStr "hunter2")]
       (KEY_ROOT_PASSWORD (sample_env true false)) = VStr "hunter2"
  /\ VStr "" <> VStr PASSWORD_PLACEHOLDER.
Proof.
  split; [vm_compute; reflexivity|]. split; [reflexivity|]. discriminate.
Qed.

(** ** Applying a schema *)

Lemma apply_sections_fields (secs : list SettingsSection) (current : dict) :
  apply_sections current secs = apply_fields current (schema_fields secs).
Proof.
  assert (Happ : forall fs gs cur,
             apply_fields cur (fs ++ gs)
             = rbind (apply_fields cur fs) (fun cur' => apply_fields cur' gs)).
  { induction fs as [|f fs IH]; intros gs cur; simpl; [reflexivity|].
    destruct (apply_field cur f); simpl; auto. }
  revert current. induction secs as [|s secs IH]; intros current; simpl; [reflexivity|].
  rewrite Happ. destruct (s_fields s) as [fields|]; simpl.
  - destruct (apply_fields current fields); simpl; auto.
  - apply IH.
Qed.

Lemma writes_entry_false (gid id : string) :
  writes_entry gid id = false ->
  gid <> id
  /\ (is_api_key_id id = true -> gid <> "api_keys")
  /\ (is_api_key_id gid = true -> id <> "api_keys").
Proof.
  unfold writes_entry. intros H.
  apply orb_false_elim in H. destruct H as [H H3].
  apply orb_false_elim in H. destruct H as [H1 H2].
  split; [|split].
  - intros Heq. apply String.eqb_eq in Heq. congruence.
  - intros Hk Heq. rewrite Hk in H2. apply String.eqb_eq in Heq. simpl in H2. congruence.
  - intros Hk Heq. rewrite Hk in H3. apply String.eqb_eq in Heq. simpl in H3. congruence.
Qed.

(** A field that is applied and does not write the entry of [id] leaves
    that entry as it was. *)
Lemma apply_field_frame (current current' : dict) (g : SettingsField) (id : string) :
  apply_field current g = Ok current' ->
  (forall gid, f_id g = Some gid -> writes_entry gid id = true ->
     f_value g = Some (VStr PASSWORD_PLACEHOLDER)) ->
  entry current' id = entry current id.
Proof.
  unfold apply_field. intros H Hskip.
  destruct (f_value g) as [v|] eqn:Hv; [|discriminate H].
  destruct (eq_str v PASSWORD_PLACEHOLDER) eqn:Hp; cbn [negb] in H;
    [inversion H; reflexivity|].
  destruct (f_id g) as [gid|] eqn:Hid; [|discriminate H].
  assert (Hw : writes_entry gid id = false).
  { destruct (writes_entry gid id) eqn:Hw; [|reflexivity].
    specialize (Hskip gid eq_refl Hw). inversion Hskip; subst v.
    simpl in Hp. discriminate Hp. }
  apply writes_entry_false in Hw. destruct Hw as [Hne [Hapi1 Hapi2]].
  unfold entry.
  destruct (endswith gid "_kwargs") eqn:Hkw.
  - apply rbind_ok in H. destruct H as [kwargs [_ H]]. inversion H; subst current'.
    assert (Hgk : gid <> "api_keys") by (intros ->; discriminate Hkw).
    destruct (is_api_key_id id).
    + rewrite dict_get_set_other by exact Hgk. reflexivity.
    + apply dict_get_set_other. exact Hne.
  - destruct (startswith gid "api_key_") eqn:Hsw.
    + assert (Hga : is_api_key_id gid = true) by (unfold is_api_key_id; rewrite Hkw, Hsw; reflexivity).
      apply rbind_ok in H. destruct H as [api [Hapi H]].
      unfold getitem in Hapi.
      destruct (dict_get current "api_keys") as [a|] eqn:Hcur; [|discriminate Hapi].
      inversion Hapi; subst a.
      destruct api as [| | | | |keys]; try discriminate H.
      inversion H; subst current'.
      destruct (is_api_key_id id) eqn:Hia.
      * rewrite dict_get_set_same. apply dict_get_set_other. exact Hne.
      * apply dict_get_set_other. intros Heq. apply (Hapi2 Hga). symmetry. exact Heq.
    + inversion H; subst current'.
      destruct (is_api_key_id id) eqn:Hia.
      * rewrite dict_get_set_other by (apply Hapi1; reflexivity). reflexivity.
      * apply dict_get_set_other. exact Hne.
Qed.

Lemma apply_fields_frame (fields : list SettingsField) (id : string) :
  forall current current',
    apply_fields current fields = Ok current' ->
    (forall g gid, In g fields -> f_id g = Some gid -> writes_entry gid id = true ->
       f_value g = Some (VStr PASSWORD_PLACEHOLDER)) ->
    entry current' id = entry current id.
Proof.
  induction fields as [|g rest IH]; simpl; intros current current' H Hskip.
  - inversion H. reflexivity.
  - apply rbind_ok in H. destruct H as [c1 [H1 H2]].
    rewrite (IH _ _ H2) by (intros g' gid Hin; apply Hskip; right; exact Hin).
    eapply apply_field_frame; [exact H1|].
    intros gid. apply Hskip. left. reflexivity.
Qed.

(** [get_settings] returns a reference to the object it has just made. *)
Lemma get_settings_fresh (E : Env) (st st' : State) (r : nat) :
  get_settings E st = (Ok r, st') -> (r < List.length (heap st'))%nat.
Proof.
  unfold get_settings. unfold bind at 1.
  match goal with |- context [when ?b ?m st] => destruct (when b m st) as [[[]|e1] st1] end;
    [|discriminate].
  unfold bind at 1.
  match goal with |- context [when ?b ?m st1] => destruct (when b m st1) as [[[]|e2] st2] end;
    [|discriminate].
  destruct (_settings st2) as [c|]; [|discriminate].
  unfold bind, load, lift.
  destruct (normalize_settings E (VDict (deref st2 c))) as [norm|e]; [|discriminate].
  unfold new_dict. intros H. inversion H; subst. cbn [heap].
  rewrite length_app. simpl. lia.
Qed.

(** C1, as the code has it: a field that holds the placeholder is skipped,
    and the entry it addresses (a key of the record, or a key of the mapping
    under api_keys) is after [convert_in] what it was in the current record,
    provided every other field of the schema that writes this entry holds
    the placeholder as well. *)
Theorem convert_in_skips_placeholder (E : Env) (schema : SettingsOutput)
    (st st0 st' : State) (r0 r : nat) (f : SettingsField) (id : string) :
  get_settings E st = (Ok r0, st0) ->
  convert_in E schema st = (Ok r, st') ->
  In f (schema_fields (sections schema)) ->
  f_id f = Some id ->
  f_value f = Some (VStr PASSWORD_PLACEHOLDER) ->
  (forall g gid, In g (schema_fields (sections schema)) -> f_id g = Some gid ->
     writes_entry gid id = true ->
     g = f \/ f_value g = Some (VStr PASSWORD_PLACEHOLDER)) ->
  r = r0 /\ entry (deref st' r) id = entry (deref st0 r0) id.
Proof.
  intros Hget Hrun _ _ Hf Hother.
  assert (Hskip : forall g gid, In g (schema_fields (sections schema)) ->
                    f_id g = Some gid -> writes_entry gid id = true ->
                    f_value g = Some (VStr PASSWORD_PLACEHOLDER)).
  { intros g gid Hin Hid Hw. destruct (Hother g gid Hin Hid Hw) as [->|Hg]; assumption. }
  pose proof (get_settings_fresh E st st0 r0 Hget) as Hr0.
  unfold convert_in in Hrun. unfold bind at 1 in Hrun. rewrite Hget in Hrun.
  unfold bind at 1 in Hrun. unfold load at 1 in Hrun.
  unfold bind at 1 in Hrun. unfold lift at 1 in Hrun.
  destruct (apply_sections (deref st0 r0) (sections schema)) as [d'|e] eqn:Happ;
    [|discriminate Hrun].
  unfold bind, put, ret in Hrun. inversion Hrun; subst r st'. clear Hrun.
  split; [reflexivity|].
  unfold deref at 1. cbn [heap]. rewrite nth_list_update_same by exact Hr0.
  rewrite apply_sections_fields in Happ.
  eapply apply_fields_frame; eauto.
Qed.

Lemma login_submission_other_fields :
  forall g gid, In g (schema_fields (sections login_submission)) -> f_id g = Some gid ->
    writes_entry gid "auth_password" = true ->
    g = field "auth_password" "UI Password" "" password (VStr PASSWORD_PLACEHOLDER)
    \/ f_value g = Some (VStr PASSWORD_PLACEHOLDER).
Proof.
  intros g gid Hin Hid Hw. simpl in Hin.
  destruct Hin as [<-|[<-|[]]]; [left; reflexivity|].
  simpl in Hid. inversion Hid; subst gid. vm_compute in Hw. discriminate Hw.
Qed.

Lemma convert_in_skips_placeholder_witness :
  entry (deref (snd (convert_in (sample_env false false) login_submission
                       (cached_state sample_record))) 1) "auth_password"
  = entry (deref (snd (get_settings (sample_env false false) (cached_state sample_record))) 1)
          "auth_password"
  /\ entry (deref (snd (convert_in (sample_env false false) login_submission
                          (cached_state sample_record))) 1) "auth_login"
     = Some (VStr "bob").
Proof.
  split; [|vm_compute; reflexivity].
  apply (convert_in_skips_placeholder (sample_env false false) login_submission
           (cached_state sample_record)
           (snd (get_settings (sample_env false false) (cached_state sample_record)))
           (snd (convert_in (sample_env false false) login_submission
                   (cached_state sample_record)))
           1 1
           (field "auth_password" "UI Password" "" password (VStr PASSWORD_PLACEHOLDER))
           "auth_password").
  - vm_compute. reflexivity.
  - vm_compute. reflexivity.
  - simpl. left. reflexivity.
  - reflexivity.
  - reflexivity.
  - exact login_submission_other_fields.
Defined.

(** C1 as stated fails: the submission leaves the field api_key_openai at
    the placeholder and has one more field, api_keys, with an empty mapping;
    all ids differ.  The current record holds the key sk-old under
    api_key_openai; after [convert_in] the entry is gone. *)
Lemma placeholder_entry_lost_to_other_field :
  In (field "api_key_openai" "OpenAI API Key" "" password (VStr PASSWORD_PLACEHOLDER))
     (schema_fields (sections reset_submission))
  /\ fst (get_settings (sample_env false false) (cached_state record_with_key)) = Ok 1%nat
  /\ entry (deref (snd (get_settings (sample_env false false) (cached_state record_with_key))) 1)
            "api_key_openai" = Some (VStr "sk-old")
  /\ fst (convert_in (sample_env false false) reset_submission (cached_state record_with_key))
     = Ok 1%nat
  /\ entry (deref (snd (convert_in (sample_env false false) reset_submission
                          (cached_state record_with_key))) 1)
            "api_key_openai" = None.
Proof.
  split; [simpl; left; reflexivity|].
  repeat split; vm_compute; reflexivity.
Qed.

(** ** The round trip through the schema *)

Lemma sequence_all_ok {A : Type} (l : list (res A)) :
  (forall b, In b l -> exists x, b = Ok x) -> exists xs, sequence l = Ok xs.
Proof.
  induction l as [|r rs IH]; simpl; intros H.
  - eauto.
  - destruct (H r (or_introl eq_refl)) as [x ->].
    destruct IH as [xs Hxs]; [intros b Hb; apply H; right; exact Hb|].
    rewrite Hxs. simpl. eauto.
Qed.

Lemma normal_mapping (E : Env) (s : dict) (key : string) (m : dict) :
  normal E s -> In (key, VDict m) get_default_settings ->
  exists keys, dict_get s key = Some (VDict keys).
Proof.
  intros Hn Hin. destruct (Hn key _ Hin) as [v [Hv Hc]].
  destruct v; simpl in Hc; try discriminate Hc; eauto.
  destruct (is_empty s0); discriminate Hc.
Qed.

(** On a record in normal form whose kwargs can be encoded, every field list
    of [convert_out] returns. *)
Lemma field_lists_return (E : Env) (secrets s : dict) :
  normal E s ->
  (forall k, In k kwargs_keys ->
     exists m t, dict_get s k = Some (VDict m) /\ _dict_to_env E (VDict m) = Ok t
                 /\ _env_to_dict t = m) ->
  forall b,
    In b (agent_fields E s ++ chat_model_fields E s ++ util_model_fields E s
          ++ embed_model_fields E s ++ browser_model_fields E s ++ stt_fields E s
          ++ api_keys_fields E s ++ auth_fields E secrets s ++ dev_fields E secrets s)%list ->
    exists f, b = Ok f.
Proof.
  intros Hn Hkw b Hb.
  destruct (normal_mapping E s "api_keys" [] Hn ltac:(in_defaults)) as [keys Hkeys].
  unfold_field_lists Hb. unfold _get_api_key_field, getitem in Hb. rewrite Hkeys in Hb.
  repeat match type of Hb with
         | context [dict_get s ?k] =>
             first
               [ let m := fresh "m" in let t := fresh "t" in
                 let H1 := fresh "Hm" in let H2 := fresh "Ht" in
                 destruct (Hkw k ltac:(simpl; tauto)) as [m [t [H1 [H2 _]]]];
                 rewrite H1 in Hb; cbn [rbind] in Hb; rewrite H2 in Hb
               | let v := fresh "v" in let H1 := fresh "Hv" in
                 destruct (Hn k _ ltac:(in_defaults)) as [v [H1 _]];
                 rewrite H1 in Hb ]
         end.
  cbn [rbind] in Hb.
  destruct (is_dockerized E), (is_development E); cbn [In app] in Hb;
    repeat (destruct Hb as [Hb|Hb]; [subst b; eauto|]); destruct Hb.
Qed.

(** Every field of the schema of a normal record can be applied back. *)
Lemma schema_fields_restore (E : Env) (secrets s : dict) (out : SettingsOutput) :
  (forall k, In k kwargs_keys ->
     exists m t, dict_get s k = Some (VDict m) /\ _dict_to_env E (VDict m) = Ok t
                 /\ _env_to_dict t = m) ->
  convert_out E secrets s = Ok out ->
  forall f, In f (schema_fields (sections out)) -> restores s f.
Proof.
  intros Hkw Hout f Hin.
  apply (convert_out_fields E secrets s out Hout) in Hin.
  unfold_field_lists Hin.
  destruct (is_dockerized E), (is_development E); cbn [In app] in Hin;
    repeat (destruct Hin as [Hin|Hin];
            [ invert_builder Hin; unfold restores;
              cbn [f_id f_value field range_field select_field];
              do 2 eexists; split; [reflexivity|]; split; [reflexivity|];
              split; [discriminate|];
              match goal with
              | |- context [endswith ?id "_kwargs"] =>
                  let b := eval vm_compute in (endswith id "_kwargs") in
                  change (endswith id "_kwargs") with b;
                  let c := eval vm_compute in (startswith id "api_key_") in
                  change (startswith id "api_key_") with c
              end;
              cbv iota;
              first
                [ exact I
                | left; simpl; tauto
                | right; unfold getitem in *;
                  match goal with
                  | Hv : match dict_get s ?k with _ => _ end = Ok _ |- _ =>
                      destruct (dict_get s k); [inversion Hv; reflexivity | discriminate Hv]
                  end
                | match goal with
                  | Hv : getitem s ?k = Ok _ |- _ =>
                      let m := fresh "m" in let t := fresh "t" in
                      destruct (Hkw k ltac:(simpl; tauto)) as [m [t [Hm [Ht Hrt]]]];
                      unfold getitem in Hv; rewrite Hm in Hv; inversion Hv; subst;
                      eexists; split; [reflexivity|]; congruence
                  end ]
            | ]);
    destruct Hin.
Qed.

Lemma apply_field_restores (s current : dict) (f : SettingsField) :
  agrees s current -> restores s f ->
  exists current', apply_field current f = Ok current' /\ agrees s current'.
Proof.
  intros [Hag [keys Hkeys]] [id [v [Hid [Hv [Hne Hcase]]]]].
  unfold apply_field. rewrite Hv.
  destruct (eq_str v PASSWORD_PLACEHOLDER); cbn [negb].
  { exists current. split; [reflexivity|]. split; eauto. }
  rewrite Hid.
  destruct (endswith id "_kwargs") eqn:Hkw.
  - destruct Hcase as [t [-> Hs]]. simpl.
    eexists. split; [reflexivity|]. split.
    + intros k Hk. destruct (string_dec id k) as [<-|Hd].
      * rewrite dict_get_set_same. symmetry. exact Hs.
      * rewrite dict_get_set_other by exact Hd. apply Hag. exact Hk.
    + exists keys. rewrite dict_get_set_other by exact Hne. exact Hkeys.
  - destruct (startswith id "api_key_") eqn:Hsw.
    + unfold getitem. rewrite Hkeys. simpl.
      eexists. split; [reflexivity|]. split.
      * intros k Hk. rewrite dict_get_set_other; [apply Hag; exact Hk|].
        intros <-. apply Hk. simpl. tauto.
      * eexists. apply dict_get_set_same.
    + eexists. split; [reflexivity|]. split.
      * intros k Hk. destruct (string_dec id k) as [<-|Hd].
        -- rewrite dict_get_set_same. destruct Hcase as [Hsec|Hs]; [contradiction|].
           symmetry. exact Hs.
        -- rewrite dict_get_set_other by exact Hd. apply Hag. exact Hk.
      * exists keys. rewrite dict_get_set_other by exact Hne. exact Hkeys.
Qed.

Lemma apply_fields_restores (s : dict) (fields : list SettingsField) :
  (forall f, In f fields -> restores s f) ->
  forall current, agrees s current ->
    exists current', apply_fields current fields = Ok current' /\ agrees s current'.
Proof.
  induction fields as [|f rest IH]; simpl; intros Hall current Hag.
  - eauto.
  - destruct (apply_field_restores s current f Hag (Hall f (or_introl eq_refl)))
      as [c1 [H1 Hag1]].
    rewrite H1. simpl. apply IH; [|exact Hag1].
    intros g Hg. apply Hall. right. exact Hg.
Qed.

(** C3, as the code has it: for a cached record in normal form whose four
    kwargs mappings are read back unchanged by the codec, the schema of the
    record applied back to it gives a record that agrees with it on every key
    outside the secret-bearing ones. *)
Theorem convert_round_trip_non_secret (E : Env) (st : State) (c : nat) (s : dict) :
  _settings st = Some c ->
  deref st c = s ->
  normalize_settings E (VDict s) = Ok s ->
  (forall k, In k kwargs_keys ->
     exists m t, dict_get s k = Some (VDict m) /\ _dict_to_env E (VDict m) = Ok t
                 /\ _env_to_dict t = m) ->
  exists s', round_trip E st s = Ok s'
    /\ forall k, ~ In k secret_keys -> dict_get s' k = dict_get s k.
Proof.
  intros Hc Hs Hnorm Hkw.
  assert (Hn : normal E s).
  { unfold normalize_settings in Hnorm. eapply normalize_loop_normal; eauto. }
  assert (Hout : exists out, convert_out E (dotenv st) s = Ok out).
  { pose proof (field_lists_return E (dotenv st) s Hn Hkw) as Hall.
    unfold convert_out.
    repeat match goal with
           | |- context [sequence ?l] =>
               let fs := fresh "fs" in let Hfs := fresh "Hfs" in
               destruct (sequence_all_ok l) as [fs Hfs];
               [ intros b Hb; apply Hall; repeat rewrite in_app_iff; tauto
               | rewrite Hfs; cbn [rbind] ]
           end.
    eauto. }
  destruct Hout as [out Hout].
  unfold round_trip. rewrite Hout. cbn [rbind].
  unfold convert_in. unfold bind at 1.
  rewrite (get_settings_cached E st c Hc) by (rewrite Hs; exact Hn).
  unfold bind at 1. unfold load at 1. unfold bind at 1. unfold lift at 1.
  assert (Hd : deref (mkState (heap st ++ [deref st c]) (_settings st) (dotenv st)
                        (settings_file st) (trace st)) (List.length (heap st)) = s).
  { unfold deref at 1. cbn [heap]. rewrite nth_middle. exact Hs. }
  rewrite Hd. rewrite apply_sections_fields.
  destruct (apply_fields_restores s (schema_fields (sections out))
              (schema_fields_restore E (dotenv st) s out Hkw Hout) s) as [s' [Happ Hag]].
  { split; [reflexivity|]. eapply normal_mapping; [exact Hn|]. in_defaults. }
  rewrite Happ. unfold bind, put, ret. cbn [heap].
  exists s'. split.
  - f_equal. unfold deref. cbn [heap].
    apply nth_list_update_same. rewrite length_app. simpl. lia.
  - exact (proj1 Hag).
Qed.

Lemma default_kwargs_round_trip (E : Env) :
  forall k, In k kwargs_keys ->
    exists m t, dict_get get_default_settings k = Some (VDict m)
                /\ _dict_to_env E (VDict m) = Ok t /\ _env_to_dict t = m.
Proof.
  intros k Hk. simpl in Hk.
  destruct Hk as [<-|[<-|[<-|[<-|[]]]]]; exists [], ""; repeat split; reflexivity.
Qed.

Lemma convert_round_trip_non_secret_witness :
  normalize_settings (sample_env false false) (VDict get_default_settings)
  = Ok get_default_settings
  /\ exists s',
       round_trip (sample_env false false) (cached_state get_default_settings)
         get_default_settings = Ok s'
       /\ dict_get s' "chat_model_name" = Some (VStr "gpt-4o").
Proof.
  split; [vm_compute; reflexivity|].
  destruct (convert_round_trip_non_secret (sample_env false false)
              (cached_state get_default_settings) 0 get_default_settings)
    as [s' [Hrun Hkeep]].
  - reflexivity.
  - reflexivity.
  - vm_compute. reflexivity.
  - apply default_kwargs_round_trip.
  - exists s'. split; [exact Hrun|].
    rewrite Hkeep; [reflexivity|].
    simpl. intros H. repeat (destruct H as [H|H]; [discriminate H|]). exact H.
Defined.

(** C3 as stated fails: the default record is in normal form, and the
    schema of it applied back, unchanged, gives a record whose api_keys
    mapping has an empty entry for each of the nine provider fields, where
    the default record has the empty mapping. *)
Lemma round_trip_adds_api_key_entries :
  normalize_settings (sample_env false false) (VDict get_default_settings)
  = Ok get_default_settings
  /\ dict_get get_default_settings "api_keys" = Some (VDict [])
  /\ exists s',
       round_trip (sample_env false false) (cached_state get_default_settings)
         get_default_settings = Ok s'
       /\ dict_get s' "api_keys"
          = Some (VDict [("api_key_openai", VStr ""); ("api_key_anthropic", VStr "");
                         ("api_key_groq", VStr ""); ("api_key_google", VStr "");
                         ("api_key_deepseek", VStr ""); ("api_key_openrouter", VStr "");
                         ("api_key_sambanova", VStr ""); ("api_key_mistralai", VStr "");
                         ("api_key_huggingface", VStr "")]).
Proof.
  split; [vm_compute; reflexivity|]. split; [reflexivity|].
  eexists. split; vm_compute; reflexivity.
Qed.

(** A kwargs value with a line feed does not survive the round trip either:
    the codec cuts it at the first line. *)
Lemma round_trip_cuts_multiline_kwargs :
  exists s',
    round_trip (sample_env false false)
      (cached_state (dict_set get_default_settings "chat_model_kwargs"
                       (VDict [("stop", VStr two_lines)])))
      (dict_set get_default_settings "chat_model_kwargs" (VDict [("stop", VStr two_lines)]))
    = Ok s'
    /\ dict_get s' "chat_model_kwargs" = Some (VDict [("stop", VStr "line1")]).
Proof.
  eexists. split; vm_compute; reflexivity.
Qed.

(** ** The codec on plain mappings *)

Lemma lstrip_by_id (p : ascii -> bool) (s : string) :
  starts p s = false -> lstrip_by p s = s.
Proof. destruct s as [|c r]; simpl; intros H; [reflexivity | rewrite H; reflexivity]. Qed.

Lemma rstrip_by_id (p : ascii -> bool) (s : string) :
  ends p s = false -> rstrip_by p s = s.
Proof.
  induction s as [|c r IH]; simpl; intros H; [reflexivity|].
  destruct r as [|d r'].
  - simpl. rewrite H. reflexivity.
  - rewrite (IH H). destruct (p c); reflexivity.
Qed.

Lemma rstrip_by_snoc (p : ascii -> bool) (s : string) (c : ascii) :
  p c = true -> ends p s = false ->
  rstrip_by p (s ++ String c EmptyString) = s.
Proof.
  intros Hc. induction s as [|d r IH]; intros H.
  - simpl. rewrite Hc. reflexivity.
  - cbn [append rstrip_by]. destruct r as [|e r'].
    + simpl in H. simpl. rewrite Hc, H. reflexivity.
    + rewrite (IH H). destruct (p d); reflexivity.
Qed.

Lemma dot_star_id (s : string) : no_linebreak s = true -> dot_star s = s.
Proof.
  induction s as [|c r IH]; simpl; intros H; [reflexivity|].
  apply andb_true_iff in H. destruct H as [Hc Hr].
  destruct (Ascii.eqb c LF) eqn:Heq.
  - apply Ascii.eqb_eq in Heq. subst c. discriminate Hc.
  - rewrite (IH Hr). reflexivity.
Qed.

Lemma no_linebreak_app (a b : string) :
  no_linebreak (a ++ b) = no_linebreak a && no_linebreak b.
Proof.
  induction a as [|c r IH]; simpl; [reflexivity|].
  rewrite IH. rewrite andb_assoc. reflexivity.
Qed.

Lemma split_at_eq_app (k rest : string) :
  contains_char "="%char k = false ->
  split_at_eq (k ++ String "="%char rest) = Some (k, rest).
Proof.
  induction k as [|c r IH]; intros H; [reflexivity|].
  cbn [contains_char] in H. apply orb_false_iff in H. destruct H as [Hc Hr].
  cbn [append split_at_eq]. rewrite Ascii.eqb_sym, Hc. rewrite (IH Hr). reflexivity.
Qed.

Lemma splitlines_cons (l rest : string) :
  no_linebreak l = true ->
  splitlines (l ++ String LF rest) = l :: splitlines rest.
Proof.
  induction l as [|c r IH]; intros H.
  - simpl. destruct rest; reflexivity.
  - simpl in H. apply andb_true_iff in H. destruct H as [Hc Hr].
    cbn [append splitlines].
    destruct (is_linebreak c); [discriminate Hc|].
    rewrite (IH Hr). reflexivity.
Qed.

Lemma splitlines_single (l : string) :
  no_linebreak l = true -> l <> EmptyString -> splitlines l = [l].
Proof.
  induction l as [|c r IH]; intros H Hne; [congruence|].
  simpl in H. apply andb_true_iff in H. destruct H as [Hc Hr].
  cbn [splitlines]. destruct (is_linebreak c); [discriminate Hc|].
  destruct r as [|d r']; [reflexivity|].
  rewrite (IH Hr) by discriminate. reflexivity.
Qed.

Lemma splitlines_concat (lines : list string) :
  Forall (fun l => no_linebreak l = true /\ l <> EmptyString) lines ->
  splitlines (String.concat (String LF EmptyString) lines) = lines.
Proof.
  induction lines as [|l ls IH]; intros H; [reflexivity|].
  inversion H as [|? ? [Hl Hne] Hls]; subst.
  destruct ls as [|l2 ls'].
  - simpl. apply splitlines_single; assumption.
  - change (String.concat (String LF "") (l :: l2 :: ls'))
      with (l ++ String LF (String.concat (String LF "") (l2 :: ls'))).
    rewrite splitlines_cons by exact Hl. rewrite (IH Hls). reflexivity.
Qed.

Lemma contains_char_linebreak (v : string) :
  no_linebreak v = true -> contains_char LF v = false.
Proof.
  induction v as [|c r IH]; intros H; [reflexivity|].
  cbn [no_linebreak] in H. apply andb_true_iff in H. destruct H as [Hc Hr].
  cbn [contains_char]. rewrite (IH Hr). rewrite orb_false_r.
  destruct (Ascii.eqb LF c) eqn:Heq; [|reflexivity].
  apply Ascii.eqb_eq in Heq. subst c. discriminate Hc.
Qed.

Lemma env_line_plain (E : Env) (k v : string) :
  no_linebreak v = true ->
  env_line E k (VStr v) = Ok (k ++ "=" ++ quoted_text v).
Proof.
  intros H. unfold env_line, quoted_text. cbn [py_contains rbind eq_str py_str].
  rewrite (contains_char_linebreak v H).
  destruct (contains_char " " v); cbn [orb rbind]; [reflexivity|].
  destruct (String.eqb v ""); cbn [orb rbind]; [reflexivity|].
  destruct (contains_char dquote v); cbn [orb rbind]; [reflexivity|].
  destruct (contains_char squote v); reflexivity.
Qed.

Lemma ends_snoc (p : ascii -> bool) (s : string) (c : ascii) :
  ends p (s ++ String c EmptyString) = p c.
Proof.
  induction s as [|d r IH]; [reflexivity|].
  cbn [append ends]. destruct (r ++ String c "") eqn:Hr.
  - destruct r; discriminate Hr.
  - exact IH.
Qed.

Lemma plain_value_parts (v : string) :
  plain_value v = true ->
  no_linebreak v = true /\ starts is_space v = false /\ ends is_space v = false
  /\ starts (Ascii.eqb dquote) v = false /\ ends (Ascii.eqb dquote) v = false
  /\ starts (Ascii.eqb squote) v = false /\ ends (Ascii.eqb squote) v = false.
Proof.
  unfold plain_value. intros H.
  repeat (apply andb_true_iff in H; destruct H as [H ?]).
  repeat match goal with Hn : negb _ = true |- _ => apply negb_true_iff in Hn end.
  tauto.
Qed.

Lemma plain_key_parts (k : string) :
  plain_key k = true ->
  k <> EmptyString /\ no_linebreak k = true /\ contains_char "="%char k = false
  /\ starts (Ascii.eqb "#"%char) k = false
  /\ starts is_space k = false /\ ends is_space k = false.
Proof.
  unfold plain_key. intros H.
  repeat (apply andb_true_iff in H; destruct H as [H ?]).
  repeat match goal with Hn : negb _ = true |- _ => apply negb_true_iff in Hn end.
  repeat split; try assumption. intros ->. discriminate H.
Qed.

(** What the decoder makes of the text of a plain value. *)
Lemma decode_quoted_text (v : string) :
  plain_value v = true ->
  strip_char squote
    (strip_char dquote (strip (dot_star (lstrip_by is_space (quoted_text v))))) = v
  /\ no_linebreak (quoted_text v) = true.
Proof.
  intros H. destruct (plain_value_parts v H) as [Hnl [Hs1 [Hs2 [Hd1 [Hd2 [Hq1 Hq2]]]]]].
  assert (Hplain : strip_char squote (strip_char dquote v) = v).
  { unfold strip_char.
    rewrite (lstrip_by_id _ v Hd1), (rstrip_by_id _ v Hd2).
    rewrite (lstrip_by_id _ v Hq1), (rstrip_by_id _ v Hq2). reflexivity. }
  unfold quoted_text.
  destruct (contains_char " " v || String.eqb v "" || contains_char dquote v
            || contains_char squote v).
  - assert (Hnl' : no_linebreak (String dquote (v ++ String dquote "")) = true).
    { cbn [no_linebreak]. rewrite no_linebreak_app, Hnl. reflexivity. }
    split; [|exact Hnl'].
    rewrite lstrip_by_id by reflexivity.
    rewrite dot_star_id by exact Hnl'.
    unfold strip. rewrite lstrip_by_id by reflexivity.
    rewrite rstrip_by_id.
    2:{ change (String dquote (v ++ String dquote ""))
          with ((String dquote v) ++ String dquote "").
        rewrite ends_snoc. reflexivity. }
    replace (strip_char dquote (String dquote (v ++ String dquote ""))) with v;
      [rewrite <- Hplain at 2; unfold strip_char;
       rewrite (lstrip_by_id _ v Hd1), (rstrip_by_id _ v Hd2); reflexivity|].
    unfold strip_char. cbn [lstrip_by]. rewrite Ascii.eqb_refl.
    destruct v as [|c r].
    + reflexivity.
    + cbn [append lstrip_by]. cbn [starts] in Hd1. rewrite Hd1.
      change (String c (r ++ String dquote "")) with (String c r ++ String dquote "").
      rewrite rstrip_by_snoc; [reflexivity | apply Ascii.eqb_refl | exact Hd2].
  - split; [|exact Hnl].
    rewrite lstrip_by_id by exact Hs1. rewrite dot_star_id by exact Hnl.
    unfold strip. rewrite lstrip_by_id by exact Hs1. rewrite rstrip_by_id by exact Hs2.
    exact Hplain.
Qed.

Lemma line_pattern_match_plain (k text : string) :
  plain_key k = true ->
  line_pattern_match (k ++ "=" ++ text)
  = Some (k, dot_star (lstrip_by is_space text)).
Proof.
  intros H. destruct (plain_key_parts k H) as [Hne [_ [Heq [Hhash [Hsp _]]]]].
  destruct k as [|c r]; [congruence|].
  cbn [starts contains_char] in Hhash, Hsp, Heq.
  apply orb_false_iff in Heq. destruct Heq as [_ Heq].
  cbn [append line_pattern_match]. rewrite Hsp.
  unfold match_key_value. rewrite Ascii.eqb_sym in Hhash. rewrite Hhash.
  change (r ++ String "=" text) with (r ++ String "="%char text).
  rewrite (split_at_eq_app r text Heq). reflexivity.
Qed.

Lemma dict_set_fresh (d : dict) (k : string) (v : value) :
  ~ In k (map fst d) -> dict_set d k v = (d ++ [(k, v)])%list.
Proof.
  induction d as [|[k' v'] r IH]; simpl; intros H; [reflexivity|].
  destruct (String.eqb k' k) eqn:Heq.
  - apply String.eqb_eq in Heq. tauto.
  - rewrite IH by tauto. reflexivity.
Qed.

Lemma decode_plain_lines (m : list (string * string)) :
  Forall (fun kv => plain_key (fst kv) = true /\ plain_value (snd kv) = true) m ->
  NoDup (map fst m) ->
  forall acc : dict,
    (forall k, In k (map fst m) -> ~ In k (map fst acc)) ->
    fold_left decode_step (map (fun kv => fst kv ++ "=" ++ quoted_text (snd kv)) m) acc
    = (acc ++ str_items m)%list.
Proof.
  induction m as [|[k v] rest IH]; intros Hall Hnd acc Hacc.
  - simpl. rewrite app_nil_r. reflexivity.
  - inversion Hall as [|? ? [Hk Hv] Hrest]; subst. simpl in Hk, Hv.
    inversion Hnd as [|? ? Hnotin Hnd']; subst.
    cbn [map fold_left fst snd].
    unfold decode_step at 2. rewrite (line_pattern_match_plain k _ Hk).
    destruct (decode_quoted_text v Hv) as [Hdec _]. rewrite Hdec.
    destruct (plain_key_parts k Hk) as [_ [_ [_ [_ [Hs1 Hs2]]]]].
    unfold strip. rewrite (lstrip_by_id _ k Hs1), (rstrip_by_id _ k Hs2).
    rewrite dict_set_fresh by (apply Hacc; left; reflexivity).
    rewrite (IH Hrest Hnd').
    + rewrite <- app_assoc. reflexivity.
    + intros k' Hin. rewrite map_app, in_app_iff. simpl.
      intros [Hin'|[Heq|[]]].
      * exact (Hacc k' (or_intror Hin) Hin').
      * subst k'. exact (Hnotin Hin).
Qed.

Lemma sequence_map_ok {A B : Type} (f : A -> res B) (g : A -> B) (l : list A) :
  (forall a, In a l -> f a = Ok (g a)) -> sequence (map f l) = Ok (map g l).
Proof.
  induction l as [|a r IH]; intros H; [reflexivity|].
  cbn [map sequence]. rewrite (H a (or_introl eq_refl)). cbn [rbind].
  rewrite IH by (intros b Hb; apply H; right; exact Hb). reflexivity.
Qed.

(** X1: a mapping from plain keys to plain values is read back as written. *)
Theorem codec_round_trip_plain_mappings (E : Env) (m : list (string * string)) :
  NoDup (map fst m) ->
  Forall (fun kv => plain_key (fst kv) = true /\ plain_value (snd kv) = true) m ->
  exists encoded,
    _dict_to_env E (VDict (str_items m)) = Ok encoded
    /\ _env_to_dict encoded = str_items m.
Proof.
  intros Hnd Hall.
  exists (String.concat (String LF "") (map (fun kv => fst kv ++ "=" ++ quoted_text (snd kv)) m)).
  split.
  - unfold _dict_to_env, str_items. rewrite map_map. cbn [fst snd].
    rewrite (sequence_map_ok _ (fun kv => fst kv ++ "=" ++ quoted_text (snd kv))).
    + reflexivity.
    + intros [k v] Hin. cbn [fst snd]. apply env_line_plain.
      rewrite Forall_forall in Hall. destruct (Hall _ Hin) as [_ Hv].
      apply plain_value_parts in Hv. tauto.
  - unfold _env_to_dict. rewrite splitlines_concat.
    + change (fold_left decode_step
                (map (fun kv => fst kv ++ "=" ++ quoted_text (snd kv)) m) []
              = str_items m).
      rewrite (decode_plain_lines m Hall Hnd []); [reflexivity|].
      intros k _ [].
    + rewrite Forall_forall. intros l Hl. apply in_map_iff in Hl.
      destruct Hl as [[k v] [Heq Hin]]. subst l. cbn [fst snd].
      rewrite Forall_forall in Hall. destruct (Hall _ Hin) as [Hk Hv].
      cbn [fst snd] in Hk, Hv.
      destruct (plain_key_parts k Hk) as [Hne [Hnl _]].
      destruct (decode_quoted_text v Hv) as [_ Hq].
      split.
      * rewrite no_linebreak_app, Hnl. cbn [append no_linebreak]. exact Hq.
      * destruct k; [congruence | discriminate].
Qed.

Lemma codec_round_trip_plain_mappings_witness :
  exists encoded,
    _dict_to_env (sample_env false false) (VDict (str_items sample_kwargs)) = Ok encoded
    /\ _env_to_dict encoded = str_items sample_kwargs.
Proof.
  apply (codec_round_trip_plain_mappings (sample_env false false) sample_kwargs).
  - repeat constructor; simpl; intuition discriminate.
  - repeat constructor.
Defined.

(** ** What the codec returns and raises *)

Lemma dict_set_keys (d : dict) (k : string) (v : value) :
  map fst (dict_set d k v)
  = if dict_has d k then map fst d else (map fst d ++ [k])%list.
Proof.
  unfold dict_has. induction d as [|[k' v'] r IH]; [reflexivity|].
  cbn [dict_set dict_get]. destruct (String.eqb k' k) eqn:Heq.
  - reflexivity.
  - cbn [map fst]. rewrite IH. destruct (dict_get r k); reflexivity.
Qed.

Lemma dict_has_in (d : dict) (k : string) :
  dict_has d k = false -> ~ In k (map fst d).
Proof.
  unfold dict_has. induction d as [|[k' v'] r IH]; simpl; intros H; [tauto|].
  destruct (String.eqb k' k) eqn:Heq; [discriminate H|].
  apply String.eqb_neq in Heq. intros [Hk|Hk]; [congruence | exact (IH H Hk)].
Qed.

Lemma dict_set_nodup (d : dict) (k : string) (v : value) :
  NoDup (map fst d) -> NoDup (map fst (dict_set d k v)).
Proof.
  intros H. rewrite dict_set_keys. destruct (dict_has d k) eqn:Hh; [exact H|].
  apply NoDup_app; [exact H | repeat constructor; intros [] |].
  intros a Ha [Hb|[]]. subst a. exact (dict_has_in d k Hh Ha).
Qed.

Lemma dict_set_in (d : dict) (k : string) (v : value) (kv : string * value) :
  In kv (dict_set d k v) -> In kv d \/ kv = (k, v).
Proof.
  induction d as [|[k' v'] r IH]; simpl; intros H.
  - destruct H as [H|[]]. right. congruence.
  - destruct (String.eqb k' k) eqn:Heq.
    + apply String.eqb_eq in Heq. subst k'. destruct H as [H|H]; [right; congruence | tauto].
    + destruct H as [H|H]; [tauto|]. destruct (IH H); tauto.
Qed.

Lemma lstrip_by_starts (p : ascii -> bool) (s : string) :
  starts p (lstrip_by p s) = false.
Proof.
  induction s as [|c r IH]; [reflexivity|].
  cbn [lstrip_by]. destruct (p c) eqn:Hc; [exact IH | cbn [starts]; exact Hc].
Qed.

Lemma rstrip_by_ends (p : ascii -> bool) (s : string) :
  ends p (rstrip_by p s) = false.
Proof.
  induction s as [|c r IH]; [reflexivity|].
  cbn [rstrip_by]. destruct (rstrip_by p r) as [|d r'] eqn:Hr.
  - cbn [is_empty]. rewrite andb_true_r. destruct (p c) eqn:Hc; [reflexivity|].
    cbn [ends]. exact Hc.
  - cbn [is_empty]. rewrite andb_false_r. exact IH.
Qed.

Lemma rstrip_by_keeps_start (p : ascii -> bool) (s : string) :
  starts p s = false -> starts p (rstrip_by p s) = false.
Proof.
  destruct s as [|c r]; [reflexivity|]. cbn [starts rstrip_by]. intros Hc.
  rewrite Hc. cbn [andb starts]. exact Hc.
Qed.

Lemma decode_step_shape (d : dict) (line : string) :
  decoded_shape d -> decoded_shape (decode_step d line).
Proof.
  intros [Hnd Hall]. unfold decode_step.
  destruct (line_pattern_match line) as [[key value]|]; [|split; assumption].
  split; [apply dict_set_nodup; exact Hnd|].
  intros k v Hin. apply dict_set_in in Hin. destruct Hin as [Hin|Heq]; [eauto|].
  inversion Heq; subst. unfold strip, strip_char.
  split; [apply rstrip_by_keeps_start; apply lstrip_by_starts|].
  split; [apply rstrip_by_ends|].
  eexists. split; [reflexivity|].
  split; [apply rstrip_by_keeps_start; apply lstrip_by_starts | apply rstrip_by_ends].
Qed.

Lemma fold_decode_shape (lines : list string) (d : dict) :
  decoded_shape d -> decoded_shape (fold_left decode_step lines d).
Proof.
  revert d. induction lines as [|l ls IH]; intros d H; [exact H|].
  simpl. apply IH. apply decode_step_shape. exact H.
Qed.

(** X2: whatever the text, [_env_to_dict] returns a mapping with distinct
    keys that carry no white space at either end, and whose values are
    strings with no single quote at either end. *)
Theorem env_to_dict_shape (data : string) :
  NoDup (map fst (_env_to_dict data))
  /\ forall k v, In (k, v) (_env_to_dict data) ->
       starts is_space k = false /\ ends is_space k = false
       /\ exists s, v = VStr s /\ starts (Ascii.eqb squote) s = false
                    /\ ends (Ascii.eqb squote) s = false.
Proof.
  change (decoded_shape (fold_left decode_step (splitlines data) [])).
  apply fold_decode_shape. split; [constructor | intros k v []].
Qed.



(** ** Normalisation: foreign keys and overflow *)

Lemma normalize_key_raise (E : Env) (copy : dict) (key : string) (dflt : value) (e : exn) :
  normalize_key E copy (key, dflt) = Raise e ->
  e = OverflowError
  /\ exists v, dict_get copy key = Some v /\ coerce E dflt v = Raise OverflowError.
Proof.
  unfold normalize_key. destruct (dict_get copy key) as [v|]; [|discriminate].
  destruct (coerce E dflt v) as [c|e'] eqn:Hc; [discriminate|].
  destruct (coerce_raises _ _ _ _ Hc) as [He|[He|He]]; subst e'; try discriminate.
  intros H. inversion H; subst. eauto.
Qed.

Lemma normalize_key_ok (E : Env) (copy copy' : dict) (key : string) (dflt : value) :
  normalize_key E copy (key, dflt) = Ok copy' ->
  (exists w, copy' = dict_set copy key w)
  /\ forall v, dict_get copy key = Some v -> coerce E dflt v <> Raise OverflowError.
Proof.
  unfold normalize_key. destruct (dict_get copy key) as [v|].
  - destruct (coerce E dflt v) as [c|e] eqn:Hc.
    + intros H. inversion H; subst. split; [eauto|].
      intros v' Hv. inversion Hv; subst. congruence.
    + destruct e; intros H; inversion H; subst; (split; [eauto|]);
        intros v' Hv; inversion Hv; subst; congruence.
  - intros H. inversion H; subst. split; [eauto | discriminate].
Qed.

Lemma normalize_loop_raise (E : Env) (items : dict) :
  NoDup (map fst items) ->
  forall copy e, normalize_loop E items copy = Raise e ->
    e = OverflowError
    /\ exists key dflt v, In (key, dflt) items /\ dict_get copy key = Some v
                          /\ coerce E dflt v = Raise OverflowError.
Proof.
  induction items as [|[k dv] rest IH]; intros Hnd copy e H; [discriminate H|].
  inversion Hnd as [|? ? Hnotin Hnd']; subst.
  cbn [normalize_loop] in H.
  destruct (normalize_key E copy (k, dv)) as [c1|e1] eqn:H1; cbn [rbind] in H.
  - destruct (normalize_key_ok _ _ _ _ _ H1) as [[w Hc1] _]. subst c1.
    destruct (IH Hnd' _ _ H) as [He [key [dflt [v [Hin [Hg Hc]]]]]].
    split; [exact He|]. exists key, dflt, v.
    split; [right; exact Hin|]. split; [|exact Hc].
    rewrite dict_get_set_other in Hg; [exact Hg|].
    intros ->. apply Hnotin. change key with (fst (key, dflt)). apply in_map. exact Hin.
  - inversion H; subst e1.
    destruct (normalize_key_raise _ _ _ _ _ H1) as [He [v [Hg Hc]]].
    split; [exact He|]. exists k, dv, v. split; [left; reflexivity | split; assumption].
Qed.

Lemma normalize_loop_overflow (E : Env) (items : dict) :
  NoDup (map fst items) ->
  forall copy key dflt v,
    In (key, dflt) items -> dict_get copy key = Some v ->
    coerce E dflt v = Raise OverflowError ->
    normalize_loop E items copy = Raise OverflowError.
Proof.
  induction items as [|[k dv] rest IH]; intros Hnd copy key dflt v Hin Hg Hc; [destruct Hin|].
  inversion Hnd as [|? ? Hnotin Hnd']; subst.
  cbn [normalize_loop].
  destruct (normalize_key E copy (k, dv)) as [c1|e1] eqn:H1; cbn [rbind].
  - destruct (normalize_key_ok _ _ _ _ _ H1) as [[w Hc1] Hno]. subst c1.
    destruct Hin as [Heq|Hin].
    + inversion Heq; subst. exfalso. exact (Hno v Hg Hc).
    + apply (IH Hnd' _ key dflt v Hin); [|exact Hc].
      rewrite dict_get_set_other; [exact Hg|].
      intros ->. apply Hnotin. change key with (fst (key, dflt)). apply in_map. exact Hin.
  - destruct (normalize_key_raise _ _ _ _ _ H1) as [He _]. subst e1. reflexivity.
Qed.

(** X4: [normalize_settings] keeps every key that the defaults do not have,
    with its value. *)
Theorem normalize_settings_keeps_foreign_keys (E : Env) (x y : dict) (k : string) :
  normalize_settings E (VDict x) = Ok y ->
  ~ In k (map fst get_default_settings) ->
  dict_get y k = dict_get x k.
Proof.
  intros H Hk. unfold normalize_settings in H.
  destruct (normalize_loop_result E _ default_keys_nodup (fun _ H => H) _ _ H) as [Hframe _].
  apply Hframe. exact Hk.
Qed.

Lemma normalize_settings_keeps_foreign_keys_witness :
  exists y,
    normalize_settings (sample_env false false) (VDict [("custom", VInt 7)]) = Ok y
    /\ dict_get y "custom" = Some (VInt 7).
Proof.
  eexists. split; [vm_compute; reflexivity|].
  apply (normalize_settings_keeps_foreign_keys (sample_env false false)
           [("custom", VInt 7)] _ "custom").
  - vm_compute. reflexivity.
  - simpl. intuition discriminate.
Defined.

(** X5: on a dict, [normalize_settings] raises nothing but [OverflowError],
    and raises it exactly when the value present under some key of the
    defaults overflows the conversion to the default's type. *)
Theorem normalize_settings_raises_iff_overflow (E : Env) (x : dict) :
  (forall e, normalize_settings E (VDict x) = Raise e -> e = OverflowError)
  /\ (normalize_settings E (VDict x) = Raise OverflowError
      <-> exists key dflt v, In (key, dflt) get_default_settings
            /\ dict_get x key = Some v /\ coerce E dflt v = Raise OverflowError).
Proof.
  unfold normalize_settings. split; [|split].
  - intros e H. apply (normalize_loop_raise E _ default_keys_nodup _ _ H).
  - intros H. apply (normalize_loop_raise E _ default_keys_nodup _ _ H).
  - intros [key [dflt [v [Hin [Hg Hc]]]]].
    exact (normalize_loop_overflow E _ default_keys_nodup _ _ _ _ Hin Hg Hc).
Qed.

(** X6: [set_settings] on a record with an overflowing value raises
    [OverflowError] before anything is cached, stored or written: the state
    is what it was. *)
Theorem set_settings_overflow_changes_nothing (E : Env) (s : nat) (st : State)
    (key : string) (dflt v : value) :
  In (key, dflt) get_default_settings ->
  dict_get (deref st s) key = Some v ->
  coerce E dflt v = Raise OverflowError ->
  set_settings E s st = (Raise OverflowError, st).
Proof.
  intros Hin Hg Hc. unfold set_settings. unfold bind at 1. unfold load at 1.
  unfold bind at 1. unfold lift at 1. unfold normalize_settings.
  rewrite (normalize_loop_overflow E _ default_keys_nodup _ _ _ _ Hin Hg Hc).
  reflexivity.
Qed.

Lemma set_settings_overflow_changes_nothing_witness :
  set_settings (sample_env false false) 0
    (fresh_state [[("chat_model_ctx_length", VFloat infinity)]])
  = (Raise OverflowError, fresh_state [[("chat_model_ctx_length", VFloat infinity)]]).
Proof.
  apply (set_settings_overflow_changes_nothing (sample_env false false) 0
           (fresh_state [[("chat_model_ctx_length", VFloat infinity)]])
           "chat_model_ctx_length" (VInt 120000) (VFloat infinity)).
  - in_defaults.
  - reflexivity.
  - reflexivity.
Defined.

(** ** Reading the settings *)

Lemma normal_truthy (E : Env) (d : dict) : normal E d -> truthy (VDict d) = true.
Proof.
  intros Hn. destruct (Hn "chat_model_provider" (VStr "OPENAI")) as [v [Hv _]]; [simpl; tauto|].
  destruct d; [discriminate Hv | reflexivity].
Qed.

Lemma normalize_settings_normal (E : Env) (x : value) (n : dict) :
  normalize_settings E x = Ok n -> normal E n.
Proof.
  destruct x; unfold normalize_settings; intros H; try discriminate H.
  eapply normalize_loop_normal; eauto.
Qed.

Lemma dict_get_in (d : dict) (k : string) (v : value) :
  NoDup (map fst d) -> In (k, v) d -> dict_get d k = Some v.
Proof.
  induction d as [|[k' v'] r IH]; simpl; intros Hnd Hin; [destruct Hin|].
  inversion Hnd as [|? ? Hnotin Hnd']; subst.
  destruct Hin as [Heq|Hin].
  - inversion Heq; subst. rewrite String.eqb_refl. reflexivity.
  - destruct (String.eqb k' k) eqn:He; [|exact (IH Hnd' Hin)].
    apply String.eqb_eq in He. subst k'. exfalso. apply Hnotin.
    change k with (fst (k, v)). apply in_map. exact Hin.
Qed.

Lemma defaults_normal (E : Env) : normal E get_default_settings.
Proof.
  intros key dflt Hin. exists dflt.
  split; [exact (dict_get_in _ _ _ default_keys_nodup Hin) | eapply coerce_default_fixed; eauto].
Qed.

(** The last step of [get_settings]: a copy of the cached record. *)
Lemma get_settings_copy (E : Env) (st : State) :
  global_truthy st = true ->
  get_settings E st
  = match _settings st with
    | Some c =>
        match normalize_settings E (VDict (deref st c)) with
        | Ok norm =>
            (Ok (List.length (heap st)),
             mkState (heap st ++ [norm]) (_settings st) (dotenv st) (settings_file st)
                     (trace st))
        | Raise e => (Raise e, st)
        end
    | None => (Raise AttributeError, st)
    end.
Proof.
  intros Ht. unfold get_settings. unfold bind. rewrite Ht. cbn [negb when ret].
  rewrite Ht. cbn [negb when ret].
  destruct (_settings st) as [c|] eqn:Hc; [|reflexivity].
  unfold load, lift.
  destruct (normalize_settings E (VDict (deref st c))); [|reflexivity].
  unfold new_dict. rewrite Hc. reflexivity.
Qed.

(** With nothing cached, [get_settings] caches a new object: the normalised
    content of the file when there is one, the defaults otherwise. *)
Lemma get_settings_uncached (E : Env) (st : State) :
  global_truthy st = false ->
  get_settings E st
  = match settings_file st with
    | Some content =>
        match json_loads E content with
        | Some parsed =>
            match normalize_settings E parsed with
            | Ok n =>
                (Ok (S (List.length (heap st))),
                 mkState (heap st ++ [n; n]) (Some (List.length (heap st))) (dotenv st)
                         (settings_file st) (trace st))
            | Raise e => (Raise e, st)
            end
        | None => (Raise JSONDecodeError, st)
        end
    | None =>
        (Ok (S (List.length (heap st))),
         mkState (heap st ++ [get_default_settings; get_default_settings])
                 (Some (List.length (heap st))) (dotenv st) (settings_file st) (trace st))
    end.
Proof.
  intros Ht.
  pose proof (defaults_normal E) as Hd.
  assert (Htail : forall n, normal E n ->
            global_truthy (mkState (heap st ++ [n]) (Some (List.length (heap st)))
                             (dotenv st) (settings_file st) (trace st)) = true
            /\ deref (mkState (heap st ++ [n]) (Some (List.length (heap st)))
                        (dotenv st) (settings_file st) (trace st))
                     (List.length (heap st)) = n).
  { intros n Hn. unfold global_truthy, deref. cbn [_settings heap].
    rewrite nth_middle. split; [exact (normal_truthy E n Hn) | reflexivity]. }
  assert (Hlen : forall n : dict,
            (List.length (heap st ++ [n]) = S (List.length (heap st))
             /\ (heap st ++ [n]) ++ [n] = heap st ++ [n; n])%list).
  { intros n. rewrite length_app, <- app_assoc. simpl. split; [lia | reflexivity]. }
  unfold get_settings. unfold bind at 1. rewrite Ht. cbn [negb when].
  unfold bind at 1. unfold _read_settings_file.
  destruct (settings_file st) as [content|] eqn:Hfile.
  - destruct (json_loads E content) as [parsed|]; [|reflexivity].
    unfold bind at 1. unfold lift at 1.
    destruct (normalize_settings E parsed) as [n|e] eqn:Hn; [|reflexivity].
    unfold bind at 1. unfold new_dict at 1. unfold ret at 1. unfold set_global at 1.
    cbn [heap _settings dotenv settings_file trace].
    pose proof (normalize_settings_normal E _ _ Hn) as Hnormal.
    destruct (Htail n Hnormal) as [Hb Hderef].
    unfold bind at 1. rewrite Hfile, Hb. cbn [negb when ret _settings].
    unfold bind at 1. unfold load at 1. rewrite Hderef.
    unfold bind at 1. unfold lift at 1. rewrite (normalize_normal_fixed E n Hnormal).
    unfold new_dict. cbn [heap _settings dotenv settings_file trace].
    destruct (Hlen n) as [Hl1 Hl2]. rewrite Hl1, Hl2. reflexivity.
  - unfold set_global at 1.
    assert (Ht' : global_truthy (mkState (heap st) None (dotenv st) None (trace st)) = false)
      by reflexivity.
    cbn [heap _settings dotenv settings_file trace].
    unfold bind at 1. rewrite Hfile, Ht'. cbn [negb when].
    unfold bind at 1. unfold new_dict at 1. unfold set_global at 1.
    cbn [heap _settings dotenv settings_file trace].
    destruct (Htail _ Hd) as [Hb Hderef].
    unfold bind at 1. unfold load at 1. cbn [_settings]. rewrite Hderef.
    unfold bind at 1. unfold lift at 1. rewrite (normalize_normal_fixed E _ Hd).
    unfold new_dict. cbn [heap _settings dotenv settings_file trace].
    destruct (Hlen get_default_settings) as [Hl1 Hl2]. rewrite Hl1, Hl2. reflexivity.
Qed.

Lemma state_eta (st : State) :
  mkState (heap st ++ []) (_settings st) (dotenv st) (settings_file st) (trace st) = st.
Proof. rewrite app_nil_r. destruct st; reflexivity. Qed.

(** [get_settings] only adds objects to the heap and may set the global; on
    return the global denotes an object other than the one returned, whose
    normalisation the returned object holds. *)
Lemma get_settings_effect (E : Env) (st : State) :
  exists res new c,
    get_settings E st
    = (res, mkState (heap st ++ new) c (dotenv st) (settings_file st) (trace st))
    /\ forall r, res = Ok r ->
         (List.length (heap st) <= r)%nat
         /\ exists c0, c = Some c0 /\ (c0 < r)%nat
              /\ normalize_settings E (VDict (nth c0 (heap st ++ new) []))
                 = Ok (nth r (heap st ++ new) []).
Proof.
  destruct (global_truthy st) eqn:Ht.
  - rewrite (get_settings_copy E st Ht).
    destruct (_settings st) as [c|] eqn:Hc.
    + assert (Hlt : (c < List.length (heap st))%nat).
      { unfold global_truthy in Ht. rewrite Hc in Ht. unfold deref in Ht.
        destruct (Nat.lt_ge_cases c (List.length (heap st))) as [Hlt|Hge]; [exact Hlt|].
        rewrite nth_overflow in Ht by exact Hge. discriminate Ht. }
      destruct (normalize_settings E (VDict (deref st c))) as [norm|e] eqn:Hn.
      * exists (Ok (List.length (heap st))), [norm], (Some c).
        split; [reflexivity|]. intros r Hr. inversion Hr; subst r.
        split; [lia|]. exists c. split; [reflexivity|]. split; [exact Hlt|].
        rewrite app_nth1 by exact Hlt. rewrite nth_middle. exact Hn.
      * exists (Raise e), [], (Some c). rewrite <- Hc. rewrite state_eta.
        split; [reflexivity | discriminate].
    + exists (Raise AttributeError), [], None. rewrite <- Hc. rewrite state_eta.
      split; [reflexivity | discriminate].
  - rewrite (get_settings_uncached E st Ht).
    assert (Hret : forall n, normal E n ->
              forall r, Ok (S (List.length (heap st))) = Ok r ->
                (List.length (heap st) <= r)%nat
                /\ exists c0, Some (List.length (heap st)) = Some c0 /\ (c0 < r)%nat
                     /\ normalize_settings E (VDict (nth c0 (heap st ++ [n; n]) []))
                        = Ok (nth r (heap st ++ [n; n]) [])).
    { intros n Hn r Hr. inversion Hr; subst r. split; [lia|].
      exists (List.length (heap st)). split; [reflexivity|]. split; [lia|].
      rewrite nth_middle.
      change (heap st ++ [n; n])%list with (heap st ++ [n] ++ [n])%list.
      rewrite app_assoc.
      replace (S (List.length (heap st))) with (List.length (heap st ++ [n]))
        by (rewrite length_app; simpl; lia).
      rewrite nth_middle. apply normalize_normal_fixed. exact Hn. }
    destruct (settings_file st) as [content|] eqn:Hfile.
    + destruct (json_loads E content) as [parsed|].
      * destruct (normalize_settings E parsed) as [n|e] eqn:Hn.
        -- do 3 eexists. split; [reflexivity|].
           apply Hret. exact (normalize_settings_normal E _ _ Hn).
        -- exists (Raise e), [], (_settings st). rewrite <- Hfile. rewrite state_eta.
           split; [reflexivity | discriminate].
      * exists (Raise JSONDecodeError), [], (_settings st). rewrite <- Hfile.
        rewrite state_eta. split; [reflexivity | discriminate].
    + do 3 eexists. split; [reflexivity|]. apply Hret. apply defaults_normal.
Qed.

(** X7: [get_settings] writes neither the secret store, the settings file
    nor the log, and leaves the objects that exist as they are.  The record
    it returns is a new object, not the cached one, and holds the
    normalisation of the cached record. *)
Theorem get_settings_returns_new_object (E : Env) (st : State) :
  dotenv (snd (get_settings E st)) = dotenv st
  /\ settings_file (snd (get_settings E st)) = settings_file st
  /\ trace (snd (get_settings E st)) = trace st
  /\ (forall q, (q < List.length (heap st))%nat ->
        deref (snd (get_settings E st)) q = deref st q)
  /\ forall r, fst (get_settings E st) = Ok r ->
       (List.length (heap st) <= r)%nat
       /\ exists c, _settings (snd (get_settings E st)) = Some c /\ c <> r
            /\ normalize_settings E (VDict (deref (snd (get_settings E st)) c))
               = Ok (deref (snd (get_settings E st)) r).
Proof.
  destruct (get_settings_effect E st) as [res [new [c [Hrun Hret]]]].
  rewrite Hrun. cbn [fst snd dotenv settings_file trace _settings].
  repeat (split; [reflexivity|]).
  split.
  - intros q Hq. unfold deref. cbn [heap]. apply app_nth1. exact Hq.
  - intros r Hr. destruct (Hret r Hr) as [Hle [c0 [Hc [Hlt Hn]]]].
    split; [exact Hle|]. exists c0. split; [exact Hc|]. split; [lia|].
    unfold deref. cbn [heap]. exact Hn.
Qed.

(** X8: with nothing cached and no settings file, [get_settings] makes the
    defaults the cached record and returns another object that holds the
    defaults; a missing file is no error. *)
Theorem get_settings_defaults_without_file (E : Env) (st : State) :
  global_truthy st = false ->
  settings_file st = None ->
  get_settings E st
  = (Ok (S (List.length (heap st))),
     mkState (heap st ++ [get_default_settings; get_default_settings])
             (Some (List.length (heap st))) (dotenv st) None (trace st)).
Proof.
  intros Ht Hfile. rewrite (get_settings_uncached E st Ht). rewrite Hfile. reflexivity.
Qed.

Lemma get_settings_defaults_without_file_witness :
  get_settings (sample_env false false) (fresh_state [])
  = (Ok 1%nat,
     mkState [get_default_settings; get_default_settings] (Some 0%nat) [] None []).
Proof.
  apply (get_settings_defaults_without_file (sample_env false false) (fresh_state []));
    reflexivity.
Defined.

(** X9: with nothing cached and a settings file that holds JSON,
    [get_settings] caches the normalisation of the parsed content and
    returns another object with the same content; when the normalisation
    raises, the exception is passed on and nothing is cached. *)
Theorem get_settings_loads_file (E : Env) (st : State) (content : string)
    (parsed : value) :
  global_truthy st = false ->
  settings_file st = Some content ->
  json_loads E content = Some parsed ->
  get_settings E st
  = match normalize_settings E parsed with
    | Ok n =>
        (Ok (S (List.length (heap st))),
         mkState (heap st ++ [n; n]) (Some (List.length (heap st))) (dotenv st)
                 (Some content) (trace st))
    | Raise e => (Raise e, st)
    end.
Proof.
  intros Ht Hfile Hjson. rewrite (get_settings_uncached E st Ht).
  rewrite Hfile, Hjson. reflexivity.
Qed.

Lemma get_settings_loads_file_witness :
  get_settings (sample_env false false) (state_with_file "{}")
  = (Ok 1%nat,
     mkState [get_default_settings; get_default_settings] (Some 0%nat) [] (Some "{}") []).
Proof.
  apply (get_settings_loads_file (sample_env false false) (state_with_file "{}") "{}"
           (VDict []));
    reflexivity.
Defined.

(** ** Applying a schema: what is left alone *)

(** X10: [convert_in] has the effects of the [get_settings] call it starts
    with and one more, on the object that call returns: the secret store,
    the settings file, the log and the objects that existed before are what
    they were, and the global and the cached record are the ones
    [get_settings] leaves. *)
Theorem convert_in_changes_only_its_copy (E : Env) (schema : SettingsOutput) (st : State) :
  dotenv (snd (convert_in E schema st)) = dotenv st
  /\ settings_file (snd (convert_in E schema st)) = settings_file st
  /\ trace (snd (convert_in E schema st)) = trace st
  /\ (forall q, (q < List.length (heap st))%nat ->
        deref (snd (convert_in E schema st)) q = deref st q)
  /\ _settings (snd (convert_in E schema st)) = _settings (snd (get_settings E st))
  /\ forall c, _settings (snd (get_settings E st)) = Some c ->
       fst (get_settings E st) <> Ok c
       /\ deref (snd (convert_in E schema st)) c = deref (snd (get_settings E st)) c.
Proof.
  destruct (get_settings_effect E st) as [res [new [c [Hrun Hret]]]].
  destruct (convert_in E schema st) as [res' st'] eqn:Hconv.
  unfold convert_in in Hconv. unfold bind at 1 in Hconv. rewrite Hrun in Hconv.
  rewrite Hrun. cbn [fst snd _settings].
  destruct res as [r|e].
  - destruct (Hret r eq_refl) as [Hle [c0 [Hc [Hlt _]]]].
    unfold bind at 1 in Hconv. unfold load at 1 in Hconv.
    unfold bind at 1 in Hconv. unfold lift at 1 in Hconv.
    match type of Hconv with context [apply_sections ?d ?s] =>
      destruct (apply_sections d s) as [d'|e] end.
    + unfold bind, put, ret in Hconv. inversion Hconv; subst res' st'. clear Hconv.
      cbn [heap _settings dotenv settings_file trace].
      repeat (split; [reflexivity|]).
      split; [|split; [reflexivity|]].
      * intros q Hq. unfold deref. cbn [heap].
        rewrite nth_list_update_other by lia. apply app_nth1. exact Hq.
      * intros c1 Hc1. rewrite Hc in Hc1. inversion Hc1; subst c1.
        split; [intros Heq; inversion Heq; lia|].
        unfold deref. cbn [heap]. apply nth_list_update_other. lia.
    + inversion Hconv; subst res' st'. clear Hconv.
      cbn [heap _settings dotenv settings_file trace].
      repeat (split; [reflexivity|]).
      split; [|split; [reflexivity|]].
      * intros q Hq. unfold deref. cbn [heap]. apply app_nth1. exact Hq.
      * intros c1 Hc1. rewrite Hc in Hc1. inversion Hc1; subst c1.
        split; [intros Heq; inversion Heq; lia | reflexivity].
  - inversion Hconv; subst res' st'. clear Hconv.
    cbn [heap _settings dotenv settings_file trace].
    repeat (split; [reflexivity|]).
    split; [|split; [reflexivity|]].
    + intros q Hq. unfold deref. cbn [heap]. apply app_nth1. exact Hq.
    + intros c1 Hc1. split; [discriminate | reflexivity].
Qed.

Lemma apply_field_no_placeholder (current current' : dict) (f : SettingsField) (k : string) :
  apply_field current f = Ok current' ->
  holds_placeholder current k = false ->
  holds_placeholder current' k = false.
Proof.
  unfold apply_field. intros H Hk.
  destruct (f_value f) as [v|]; [|discriminate H].
  destruct (eq_str v PASSWORD_PLACEHOLDER) eqn:Hp; cbn [negb] in H;
    [inversion H; subst; exact Hk|].
  destruct (f_id f) as [id|]; [|discriminate H].
  assert (Hset : forall w, eq_str w PASSWORD_PLACEHOLDER = false ->
                   holds_placeholder (dict_set current id w) k = false).
  { intros w Hw. unfold holds_placeholder.
    destruct (String.eqb id k) eqn:Heq.
    - apply String.eqb_eq in Heq. subst k. rewrite dict_get_set_same. exact Hw.
    - apply String.eqb_neq in Heq. rewrite dict_get_set_other by exact Heq. exact Hk. }
  destruct (endswith id "_kwargs").
  - apply rbind_ok in H. destruct H as [kwargs [_ H]]. inversion H; subst.
    apply Hset. reflexivity.
  - destruct (startswith id "api_key_").
    + apply rbind_ok in H. destruct H as [api [_ H]].
      destruct api; try discriminate H. inversion H; subst.
      unfold holds_placeholder.
      destruct (String.eqb "api_keys" k) eqn:Heq.
      * apply String.eqb_eq in Heq. subst k. rewrite dict_get_set_same. reflexivity.
      * apply String.eqb_neq in Heq. rewrite dict_get_set_other by exact Heq. exact Hk.
    + inversion H; subst. apply Hset. exact Hp.
Qed.

Lemma apply_fields_no_placeholder (fields : list SettingsField) (k : string) :
  forall current current',
    apply_fields current fields = Ok current' ->
    holds_placeholder current k = false ->
    holds_placeholder current' k = false.
Proof.
  induction fields as [|f rest IH]; simpl; intros current current' H Hk.
  - inversion H; subst. exact Hk.
  - apply rbind_ok in H. destruct H as [c1 [H1 H2]].
    apply (IH _ _ H2). exact (apply_field_no_placeholder _ _ _ _ H1 Hk).
Qed.

(** X11: [convert_in] never stores the placeholder token in a field of the
    record: a key that does not hold it in the record [get_settings]
    returns does not hold it in the record [convert_in] returns, whatever
    the schema. *)
Theorem convert_in_never_stores_placeholder (E : Env) (schema : SettingsOutput)
    (st st0 st' : State) (r0 r : nat) (k : string) :
  get_settings E st = (Ok r0, st0) ->
  convert_in E schema st = (Ok r, st') ->
  holds_placeholder (deref st0 r0) k = false ->
  holds_placeholder (deref st' r) k = false.
Proof.
  intros Hget Hrun Hk.
  pose proof (get_settings_fresh E st st0 r0 Hget) as Hr0.
  unfold convert_in in Hrun. unfold bind at 1 in Hrun. rewrite Hget in Hrun.
  unfold bind at 1 in Hrun. unfold load at 1 in Hrun.
  unfold bind at 1 in Hrun. unfold lift at 1 in Hrun.
  destruct (apply_sections (deref st0 r0) (sections schema)) as [d'|e] eqn:Happ;
    [|discriminate Hrun].
  unfold bind, put, ret in Hrun. inversion Hrun; subst r st'. clear Hrun.
  unfold deref at 1. cbn [heap]. rewrite nth_list_update_same by exact Hr0.
  rewrite apply_sections_fields in Happ.
  exact (apply_fields_no_placeholder _ _ _ _ Happ Hk).
Qed.

Lemma convert_in_never_stores_placeholder_witness :
  holds_placeholder
    (deref (snd (convert_in (sample_env false false) login_submission
                   (cached_state sample_record))) 1) "auth_password" = false.
Proof.
  apply (convert_in_never_stores_placeholder (sample_env false false) login_submission
           (cached_state sample_record)
           (snd (get_settings (sample_env false false) (cached_state sample_record)))
           (snd (convert_in (sample_env false false) login_submission
                   (cached_state sample_record)))
           1 1 "auth_password").
  - vm_compute. reflexivity.
  - vm_compute. reflexivity.
  - vm_compute. reflexivity.
Defined.

(** ** Saving: what reaches the file, the store and the cache *)

(** X12: whatever the record, a JSON text that [_write_settings_file] writes
    is the dump of the record with its five secret-bearing fields blanked
    and its other fields as they were, and it is written only when the call
    returns; when the call raises, neither the file nor the record has
    changed. *)
Theorem write_settings_file_writes_sanitized (E : Env) (r : nat) (st : State) :
  (r < List.length (heap st))%nat ->
  exists evs,
    trace (snd (_write_settings_file E r st)) = (trace st ++ evs)%list
    /\ (forall c, In (WriteFile c) evs ->
          fst (_write_settings_file E r st) = Ok tt
          /\ settings_file (snd (_write_settings_file E r st)) = Some c
          /\ c = json_dumps E (deref (snd (_write_settings_file E r st)) r)
          /\ sanitized (deref (snd (_write_settings_file E r st)) r)
          /\ forall k, ~ In k secret_keys ->
               dict_get (deref (snd (_write_settings_file E r st)) r) k
               = dict_get (deref st r) k)
    /\ (fst (_write_settings_file E r st) <> Ok tt ->
          settings_file (snd (_write_settings_file E r st)) = settings_file st
          /\ deref (snd (_write_settings_file E r st)) r = deref st r).
Proof.
  intros Hr.
  destruct (write_sensitive_effect E r st) as [res1 [secrets [evs1 [H1 [Hnw _]]]]].
  destruct (_write_settings_file E r st) as [res st'] eqn:Hrun.
  unfold _write_settings_file in Hrun. unfold bind at 1 in Hrun. rewrite H1 in Hrun.
  cbn [fst snd].
  destruct res1 as [[]|e].
  - set (st1 := mkState (heap st) (_settings st) secrets (settings_file st) (trace st ++ evs1))
      in *.
    destruct (remove_sensitive_effect r st1 Hr) as [h [H2 [Hlen [Hsan [Hkeep Hother]]]]].
    unfold bind at 1 in Hrun. rewrite H2 in Hrun. unfold_effects. unfold deref.
    unfold bind, load, write_file in Hrun.
    cbn [heap _settings dotenv settings_file trace st1] in Hrun.
    inversion Hrun; subst res st'. clear Hrun.
    cbn [heap _settings dotenv settings_file trace].
    exists (evs1 ++ [WriteFile (json_dumps E (nth r h []))])%list.
    rewrite <- app_assoc. split; [reflexivity|]. split.
    + intros c Hc. apply in_app_or in Hc. destruct Hc as [Hc|Hc].
      * exfalso. exact (Hnw c Hc).
      * destruct Hc as [Hc|[]]. inversion Hc; subst c.
        repeat (split; [reflexivity|]). split; [exact Hsan | exact Hkeep].
    + intros Hne. exfalso. apply Hne. reflexivity.
  - inversion Hrun; subst res st'. clear Hrun.
    cbn [heap _settings dotenv settings_file trace].
    exists evs1. split; [reflexivity|]. split.
    + intros c Hc. exfalso. exact (Hnw c Hc).
    + intros _. split; reflexivity.
Qed.

Lemma write_settings_file_writes_sanitized_witness :
  exists evs,
    trace (snd (_write_settings_file (sample_env false false) 0 (fresh_state [sample_record])))
    = ([] ++ evs)%list.
Proof.
  destruct (write_settings_file_writes_sanitized (sample_env false false) 0
              (fresh_state [sample_record])) as [evs [Hevs _]].
  - simpl. lia.
  - exists evs. exact Hevs.
Defined.

(** With no API key and the three passwords empty, the only write to the
    store is the login. *)
Lemma write_sensitive_login_only (E : Env) (r : nat) (st : State) (login pw rfc root : value) :
  dict_get (deref st r) "api_keys" = Some (VDict []) ->
  dict_get (deref st r) "auth_login" = Some login ->
  dict_get (deref st r) "auth_password" = Some pw ->
  dict_get (deref st r) "rfc_password" = Some rfc ->
  dict_get (deref st r) "root_password" = Some root ->
  truthy pw = false -> truthy rfc = false -> truthy root = false ->
  _write_sensitive_settings E r st
  = (Ok tt, mkState (heap st) (_settings st)
                    (dict_set (dotenv st) (KEY_AUTH_LOGIN E) login) (settings_file st)
                    (trace st ++ [SaveDotenv (KEY_AUTH_LOGIN E) login])).
Proof.
  intros Ha Hl Hp Hr Ho Tp Tr To.
  unfold _write_sensitive_settings. unfold_effects.
  rewrite Ha. cbn [save_api_keys]. unfold ret.
  cbn [heap _settings dotenv settings_file trace].
  unfold deref in *. cbn [heap]. rewrite Hl.
  cbn [heap _settings dotenv settings_file trace]. rewrite Hp, Tp.
  cbn [heap _settings dotenv settings_file trace]. rewrite Hr, Tr.
  cbn [heap _settings dotenv settings_file trace]. rewrite Ho, To. reflexivity.
Qed.

(** X13: saving the record that [get_settings] returns, while the cached
    record is one that a save has blanked, overwrites the stored login with
    the empty string and leaves every other entry of the secret store, the
    passwords and the API keys, as it was. *)
Theorem resaving_cached_record_clears_login (E : Env) (st : State) (c : nat) :
  _settings st = Some c ->
  normal E (deref st c) ->
  sanitized (deref st c) ->
  exists r st1 st2,
    get_settings E st = (Ok r, st1)
    /\ set_settings E r st1 = (Ok tt, st2)
    /\ dotenv st2 = dict_set (dotenv st) (KEY_AUTH_LOGIN E) (VStr "").
Proof.
  intros Hc Hn [Ha [Hl [Hp [Hr Ho]]]].
  rewrite (get_settings_cached E st c Hc Hn).
  set (d := deref st c) in *.
  cut (exists st2,
         set_settings E (List.length (heap st))
           (mkState (heap st ++ [d]) (_settings st) (dotenv st) (settings_file st) (trace st))
         = (Ok tt, st2)
         /\ dotenv st2 = dict_set (dotenv st) (KEY_AUTH_LOGIN E) (VStr "")).
  { intros [st2 [Hset Hdot]]. do 3 eexists. split; [reflexivity|]. split; eassumption. }
  unfold set_settings. unfold bind at 1. unfold load at 1.
  assert (Hd : deref (mkState (heap st ++ [d]) (_settings st) (dotenv st)
                        (settings_file st) (trace st)) (List.length (heap st)) = d).
  { unfold deref. cbn [heap]. apply nth_middle. }
  rewrite Hd. unfold bind at 1. unfold lift at 1.
  rewrite (normalize_normal_fixed E d Hn).
  unfold bind at 1. unfold new_dict at 1. unfold bind at 1. unfold set_global at 1.
  cbn [heap _settings dotenv settings_file trace].
  set (c2 := List.length (heap st ++ [d])).
  set (st2 := mkState ((heap st ++ [d]) ++ [d]) (Some c2) (dotenv st) (settings_file st)
                      (trace st)).
  assert (Hd2 : deref st2 c2 = d).
  { unfold deref, st2, c2. cbn [heap]. apply nth_middle. }
  assert (Hc2 : (c2 < List.length (heap st2))%nat).
  { unfold st2, c2. cbn [heap]. repeat rewrite length_app. simpl. lia. }
  unfold bind at 1. unfold _write_settings_file. unfold bind at 1.
  rewrite (write_sensitive_login_only E c2 st2 (VStr "") (VStr "") (VStr "") (VStr ""));
    try (rewrite Hd2; assumption); try reflexivity.
  cbv beta iota. unfold bind at 1.
  match goal with |- context [_remove_sensitive_settings c2 ?s] =>
    destruct (remove_sensitive_effect c2 s Hc2) as [h [H2 [Hlen [Hsan [Hkeep _]]]]] end.
  rewrite H2. clear H2.
  unfold deref in Hkeep. cbn [heap _settings dotenv settings_file trace] in *.
  unfold bind at 1. unfold load at 1. unfold write_file.
  unfold deref at 1. cbn [heap _settings dotenv settings_file trace].
  assert (Hsize : dict_get (nth c2 h []) "stt_model_size" = dict_get d "stt_model_size").
  { rewrite (Hkeep "stt_model_size") by (simpl; intuition discriminate).
    fold (deref st2 c2). rewrite Hd2. reflexivity. }
  destruct (Hn "stt_model_size" (VStr "base") ltac:(in_defaults)) as [v [Hv _]].
  rewrite Hv in Hsize.
  assert (Ht : truthy (VDict (nth c2 h [])) = true).
  { destruct (nth c2 h []); [discriminate Hsize | reflexivity]. }
  unfold _apply_settings, global_truthy. cbn [_settings]. unfold deref at 1. cbn [heap].
  change (_settings st2) with (Some c2). cbv iota.
  rewrite Ht. cbn [when]. unfold_effects. unfold deref.
  cbn [heap _settings dotenv settings_file trace].
  rewrite Hsize. eexists. split; reflexivity.
Qed.

Lemma resaving_cached_record_clears_login_witness :
  exists r st1 st2,
    get_settings (sample_env false false) saved_state = (Ok r, st1)
    /\ set_settings (sample_env false false) r st1 = (Ok tt, st2)
    /\ dotenv st2 = dict_set (dotenv saved_state) "AUTH_LOGIN" (VStr "").
Proof.
  apply (resaving_cached_record_clears_login (sample_env false false) saved_state 0).
  - reflexivity.
  - apply defaults_normal.
  - repeat split.
Defined.

(** Outside a container a non-empty root password is stored, then refused. *)
Lemma write_sensitive_root_refused (E : Env) (r : nat) (st : State)
    (items : dict) (login pw rfc root : value) :
  dict_get (deref st r) "api_keys" = Some (VDict items) ->
  dict_get (deref st r) "auth_login" = Some login ->
  dict_get (deref st r) "auth_password" = Some pw ->
  dict_get (deref st r) "rfc_password" = Some rfc ->
  dict_get (deref st r) "root_password" = Some root ->
  truthy root = true ->
  is_dockerized E = false ->
  exists secrets evs,
    _write_sensitive_settings E r st
    = (Raise root_password_refused,
       mkState (heap st) (_settings st) (dict_set secrets (KEY_ROOT_PASSWORD E) root)
               (settings_file st) (trace st ++ evs))
    /\ forall c, ~ In (WriteFile c) evs.
Proof.
  intros Ha Hl Hp Hr Ho To Hd.
  unfold _write_sensitive_settings. unfold_effects. rewrite Ha.
  destruct (save_api_keys_effect items st) as [secrets Hs]. rewrite Hs.
  unfold deref in *. cbn [heap _settings dotenv settings_file trace].
  rewrite Hl. cbn [heap _settings dotenv settings_file trace]. rewrite Hp.
  destruct (truthy pw); cbn [heap _settings dotenv settings_file trace];
    rewrite Hr; destruct (truthy rfc); cbn [heap _settings dotenv settings_file trace];
    rewrite Ho, To; cbn [heap _settings dotenv settings_file trace];
    rewrite Hd; cbn [negb];
    repeat rewrite <- app_assoc;
    (do 2 eexists; split; [reflexivity|]; intros c Hc; no_write_event Hc).
Qed.

(** X14: outside a container, [set_settings] on a record with a non-empty
    root password raises; by then the normalised record, secrets included,
    is the cached record and the root password is in the secret store,
    while the settings file has not been written. *)
Theorem set_settings_root_password_refused (E : Env) (s : nat) (st : State)
    (n : dict) (root : value) :
  normalize_settings E (VDict (deref st s)) = Ok n ->
  dict_get n "root_password" = Some root ->
  truthy root = true ->
  is_dockerized E = false ->
  exists st' evs,
    set_settings E s st = (Raise root_password_refused, st')
    /\ _settings st' = Some (List.length (heap st))
    /\ deref st' (List.length (heap st)) = n
    /\ dict_get (dotenv st') (KEY_ROOT_PASSWORD E) = Some root
    /\ settings_file st' = settings_file st
    /\ trace st' = (trace st ++ evs)%list
    /\ forall c, ~ In (WriteFile c) evs.
Proof.
  intros Hnorm Ho To Hd.
  pose proof (normalize_settings_normal E _ _ Hnorm) as Hn.
  destruct (normal_mapping E n "api_keys" [] Hn ltac:(in_defaults)) as [items Ha].
  destruct (Hn "auth_login" (VStr "") ltac:(in_defaults)) as [login [Hl _]].
  destruct (Hn "auth_password" (VStr "") ltac:(in_defaults)) as [pw [Hp _]].
  destruct (Hn "rfc_password" (VStr "") ltac:(in_defaults)) as [rfc [Hr _]].
  unfold set_settings. unfold bind at 1. unfold load at 1.
  unfold bind at 1. unfold lift at 1. rewrite Hnorm.
  unfold bind at 1. unfold new_dict at 1. unfold bind at 1. unfold set_global at 1.
  cbn [heap _settings dotenv settings_file trace].
  set (c := List.length (heap st)).
  set (st1 := mkState (heap st ++ [n]) (Some c) (dotenv st) (settings_file st) (trace st)).
  assert (Hd1 : deref st1 c = n).
  { unfold deref, st1, c. cbn [heap]. apply nth_middle. }
  destruct (write_sensitive_root_refused E c st1 items login pw rfc root)
    as [secrets [evs [Hw Hnw]]]; try (rewrite Hd1; assumption); try assumption.
  unfold bind at 1. unfold _write_settings_file. unfold bind at 1. rewrite Hw.
  exists (mkState (heap st1) (_settings st1) (dict_set secrets (KEY_ROOT_PASSWORD E) root)
            (settings_file st1) (trace st1 ++ evs)), evs.
  split; [reflexivity|].
  cbn [heap _settings dotenv settings_file trace st1].
  split; [reflexivity|]. split; [exact Hd1|].
  split; [apply dict_get_set_same|]. split; [reflexivity|]. split; [reflexivity|].
  exact Hnw.
Qed.

Lemma set_settings_root_password_refused_witness :
  exists st' evs,
    set_settings (sample_env false false) 0 (fresh_state [record_with_root_password])
    = (Raise root_password_refused, st')
    /\ _settings st' = Some 1%nat
    /\ deref st' 1 = record_with_root_password
    /\ dict_get (dotenv st') "ROOT_PASSWORD" = Some (VStr "s3cret")
    /\ settings_file st' = None
    /\ trace st' = ([] ++ evs)%list
    /\ forall c, ~ In (WriteFile c) evs.
Proof.
  apply (set_settings_root_password_refused (sample_env false false) 0
           (fresh_state [record_with_root_password]) record_with_root_password
           (VStr "s3cret")).
  - vm_compute. reflexivity.
  - vm_compute. reflexivity.
  - reflexivity.
  - reflexivity.
Defined.

(** ** The fields of the schema *)

Lemma distinct_nodup (l : list string) : distinct l = true -> NoDup l.
Proof.
  induction l as [|x r IH]; simpl; intros H; [constructor|].
  apply andb_true_iff in H. destruct H as [Hx Hr].
  constructor; [|exact (IH Hr)].
  intros Hin. apply negb_true_iff in Hx.
  assert (Hex : existsb (String.eqb x) r = true).
  { apply existsb_exists. exists x. split; [exact Hin | apply String.eqb_refl]. }
  congruence.
Qed.

Lemma build_id (E : Env) (s : dict) (b : builder) (id : string) (f : SettingsField) :
  builds_id b id -> build E s b = Ok f -> f_id f = Some id.
Proof.
  destruct b as [g|key mk|key mk|provider title]; simpl; intros Hid H.
  - inversion H; subst. exact Hid.
  - apply rbind_ok in H. destruct H as [v [_ H]]. inversion H; subst. apply Hid.
  - apply rbind_ok in H. destruct H as [kw [_ H]].
    apply rbind_ok in H. destruct H as [t [_ H]]. inversion H; subst. apply Hid.
  - unfold _get_api_key_field in H. apply rbind_ok in H. destruct H as [keys [_ H]].
    destruct keys; try discriminate H. inversion H; subst. reflexivity.
Qed.

Lemma sequence_build_ids (E : Env) (s : dict) (bs : list builder) (ids : list string) :
  Forall2 builds_id bs ids ->
  forall fs, sequence (map (build E s) bs) = Ok fs -> map f_id fs = map Some ids.
Proof.
  induction 1 as [|b id bs ids Hb Hbs IH]; simpl; intros fs H.
  - inversion H; subst. reflexivity.
  - apply rbind_ok in H. destruct H as [f [Hf H]].
    apply rbind_ok in H. destruct H as [tl [Htl H]]. inversion H; subst.
    simpl. rewrite (build_id E s b id f Hb Hf). rewrite (IH tl Htl). reflexivity.
Qed.

Lemma build_shown (E : Env) (s : dict) (b : builder) (f : SettingsField) :
  builds_shown E s b -> build E s b = Ok f -> shows E s f.
Proof.
  destruct b as [g|key mk|key mk|provider title]; simpl; intros Hb H.
  - inversion H; subst. exact Hb.
  - apply rbind_ok in H. destruct H as [v [Hv H]]. inversion H; subst. apply Hb.
    unfold getitem in Hv. destruct (dict_get s key); inversion Hv; reflexivity.
  - apply rbind_ok in H. destruct H as [kw [Hv H]].
    apply rbind_ok in H. destruct H as [t [Ht H]]. inversion H; subst.
    apply (Hb kw t); [|exact Ht].
    unfold getitem in Hv. destruct (dict_get s key); inversion Hv; reflexivity.
  - apply Hb. exact H.
Qed.

Lemma sequence_build_shown (E : Env) (s : dict) (bs : list builder) :
  Forall (builds_shown E s) bs ->
  forall fs, sequence (map (build E s) bs) = Ok fs -> Forall (shows E s) fs.
Proof.
  induction 1 as [|b bs Hb Hbs IH]; simpl; intros fs H.
  - inversion H; subst. constructor.
  - apply rbind_ok in H. destruct H as [f [Hf H]].
    apply rbind_ok in H. destruct H as [tl [Htl H]]. inversion H; subst.
    constructor; [exact (build_shown E s b f Hb Hf) | exact (IH tl Htl)].
Qed.

Lemma convert_out_ids (E : Env) (secrets s : dict) (out : SettingsOutput) :
  convert_out E secrets s = Ok out ->
  exists ids, map f_id (schema_fields (sections out)) = map Some ids
              /\ distinct ids = true /\ existsb (String.eqb "api_keys") ids = false.
Proof.
  intros H. unfold convert_out in H.
  repeat (apply rbind_ok in H; let fs := fresh "fs" in let Hs := fresh "Hs" in
          destruct H as [fs [Hs H]]).
  inversion H; subst out. clear H.
  unfold schema_fields. cbn [sections flat_map section s_fields]. rewrite app_nil_r.
  repeat match goal with Hs : sequence _ = Ok _ |- _ => revert Hs end.
  unfold agent_fields, chat_model_fields, util_model_fields, embed_model_fields,
    browser_model_fields, stt_fields, api_keys_fields, auth_fields, dev_fields.
  destruct (is_dockerized E), (is_development E); cbn [app]; intros;
    repeat match goal with
           | Hs : sequence _ = Ok _ |- _ =>
               reify_sequence E s Hs;
               eapply sequence_build_ids in Hs;
               [|repeat (constructor; [cbn [builds_id]; intros; reflexivity|]); constructor]
           end;
    repeat rewrite map_app;
    repeat match goal with Hs : map f_id _ = _ |- _ => rewrite Hs; clear Hs end;
    repeat rewrite <- map_app;
    (eexists; split; [reflexivity|]; split; vm_compute; reflexivity).
Qed.

Lemma convert_out_shown (E : Env) (secrets s : dict) (out : SettingsOutput) :
  convert_out E secrets s = Ok out ->
  Forall (shows E s) (schema_fields (sections out)).
Proof.
  intros H. unfold convert_out in H.
  repeat (apply rbind_ok in H; let fs := fresh "fs" in let Hs := fresh "Hs" in
          destruct H as [fs [Hs H]]).
  inversion H; subst out. clear H.
  unfold schema_fields. cbn [sections flat_map section s_fields]. rewrite app_nil_r.
  repeat match goal with Hs : sequence _ = Ok _ |- _ => revert Hs end.
  unfold agent_fields, chat_model_fields, util_model_fields, embed_model_fields,
    browser_model_fields, stt_fields, api_keys_fields, auth_fields, dev_fields.
  destruct (is_dockerized E), (is_development E); cbn [app]; intros;
    repeat match goal with
           | Hs : sequence _ = Ok _ |- _ =>
               reify_sequence E s Hs;
               eapply sequence_build_shown in Hs;
               [|repeat (constructor; [builder_shown|]); constructor]
           end;
    repeat (apply Forall_app; split); assumption.
Qed.

(** X15: in a schema that [convert_out] returns, every field has an id, the
    ids are pairwise distinct, and none is api_keys; so no field of such a
    schema writes the entry of another one when [convert_in] applies it. *)
Theorem convert_out_ids_distinct (E : Env) (secrets s : dict) (out : SettingsOutput) :
  convert_out E secrets s = Ok out ->
  NoDup (map f_id (schema_fields (sections out)))
  /\ forall f, In f (schema_fields (sections out)) ->
       exists id, f_id f = Some id /\ id <> "api_keys".
Proof.
  intros H. destruct (convert_out_ids E secrets s out H) as [ids [Hids [Hd Hk]]].
  split.
  - rewrite Hids. apply distinct_nodup in Hd. clear Hids Hk.
    induction Hd as [|x l Hx Hl IH]; simpl; constructor; [|exact IH].
    intros Hin. apply in_map_iff in Hin. destruct Hin as [y [Hy Hin]].
    inversion Hy; subst y. exact (Hx Hin).
  - intros f Hin. apply (in_map f_id) in Hin. rewrite Hids in Hin.
    apply in_map_iff in Hin. destruct Hin as [id [Hid Hin]].
    exists id. split; [symmetry; exact Hid|].
    intros ->. assert (Hex : existsb (String.eqb "api_keys") ids = true).
    { apply existsb_exists. exists "api_keys". split; [exact Hin | reflexivity]. }
    congruence.
Qed.

Lemma convert_out_ids_distinct_witness :
  exists out,
    convert_out (sample_env false false) [] get_default_settings = Ok out
    /\ NoDup (map f_id (schema_fields (sections out))).
Proof.
  eexists. split; [vm_compute; reflexivity|].
  apply (convert_out_ids_distinct (sample_env false false) [] get_default_settings).
  vm_compute. reflexivity.
Defined.

(** X16: every field of the schema outside the secret-bearing ones and the
    API keys holds the value the record has under the field's id, and a
    kwargs field holds the text [_dict_to_env] writes for the record's
    mapping. *)
Theorem convert_out_shows_record (E : Env) (secrets s : dict) (out : SettingsOutput)
    (f : SettingsField) (id : string) :
  convert_out E secrets s = Ok out ->
  In f (schema_fields (sections out)) ->
  f_id f = Some id ->
  exists v, f_value f = Some v
    /\ if endswith id "_kwargs" then
         exists m t, dict_get s id = Some m /\ _dict_to_env E m = Ok t /\ v = VStr t
       else if startswith id "api_key_" then True
       else In id secret_keys \/ dict_get s id = Some v.
Proof.
  intros H Hin Hid.
  pose proof (convert_out_shown E secrets s out H) as Hall.
  rewrite Forall_forall in Hall.
  destruct (Hall f Hin) as [id' [v [Hid' [Hv Hcase]]]].
  rewrite Hid in Hid'. inversion Hid'; subst id'.
  exists v. split; [exact Hv | exact Hcase].
Qed.

Lemma convert_out_shows_record_witness :
  exists out,
    convert_out (sample_env false false) [] get_default_settings = Ok out
    /\ exists v,
         f_value (field "chat_model_name" "Chat model name"
                    "Exact name of model from selected provider" text (VStr "gpt-4o"))
         = Some v
         /\ (In "chat_model_name" secret_keys
             \/ dict_get get_default_settings "chat_model_name" = Some v).
Proof.
  eexists. split; [vm_compute; reflexivity|].
  eapply (convert_out_shows_record (sample_env false false) [] get_default_settings _
            (field "chat_model_name" "Chat model name"
               "Exact name of model from selected provider" text (VStr "gpt-4o"))
            "chat_model_name").
  - vm_compute. reflexivity.
  - vm_compute. repeat (first [left; reflexivity | right]).
  - reflexivity.
Defined.

(** ** The runtime configuration: hosts and errors *)

Lemma prefix_head_ne (c0 c : ascii) (sep' r : string) :
  Ascii.eqb c0 c = false -> String.prefix (String c0 sep') (String c r) = false.
Proof.
  intros H. cbn [String.prefix]. destruct (ascii_dec c0 c) as [Heq|Hne]; [|reflexivity].
  subst c. rewrite Ascii.eqb_refl in H. discriminate H.
Qed.

Lemma prefix_app (sep b : string) : String.prefix sep (sep ++ b) = true.
Proof.
  induction sep as [|c r IH]; [destruct b; reflexivity|].
  cbn [append String.prefix]. destruct (ascii_dec c c); [exact IH | congruence].
Qed.

Lemma contains_skip (c0 : ascii) (sep' a b : string) :
  contains_char c0 a = false ->
  contains (String c0 sep') (a ++ b) = contains (String c0 sep') b.
Proof.
  induction a as [|c r IH]; intros H; [reflexivity|].
  cbn [contains_char] in H. apply orb_false_iff in H. destruct H as [Hc Hr].
  cbn [append contains]. rewrite (prefix_head_ne c0 c sep' _ Hc). cbn [orb].
  exact (IH Hr).
Qed.

Lemma append_empty (s : string) : s ++ "" = s.
Proof. induction s as [|c r IH]; [reflexivity | cbn [append]; rewrite IH; reflexivity]. Qed.

Lemma append_assoc (a b c : string) : (a ++ b) ++ c = a ++ b ++ c.
Proof. induction a as [|d r IH]; [reflexivity | cbn [append]; rewrite IH; reflexivity]. Qed.

Lemma contains_none (c0 : ascii) (sep' a : string) :
  contains_char c0 a = false -> contains (String c0 sep') a = false.
Proof.
  intros H. rewrite <- (append_empty a) at 1.
  rewrite (contains_skip c0 sep' a "" H). reflexivity.
Qed.

Lemma contains_here (c0 : ascii) (sep' a b : string) :
  contains (String c0 sep') (a ++ String c0 sep' ++ b) = true.
Proof.
  induction a as [|c r IH].
  - cbn [append]. destruct (String c0 (sep' ++ b)) eqn:Heq; [discriminate Heq|].
    rewrite <- Heq. cbn [contains].
    change (String c0 (sep' ++ b)) with (String c0 sep' ++ b).
    rewrite prefix_app. reflexivity.
  - change (String c r ++ String c0 sep' ++ b) with (String c (r ++ String c0 sep' ++ b)).
    cbn [contains]. rewrite IH. apply orb_true_r.
Qed.

Lemma split_skip_drop (sep x b : string) :
  split_skip sep (String.length x) (x ++ b) = split_skip sep 0 b.
Proof.
  induction x as [|c r IH]; [reflexivity|].
  cbn [String.length append split_skip]. exact IH.
Qed.

Lemma split_skip_nonempty (sep : string) (k : nat) (s : string) :
  split_skip sep k s <> [].
Proof.
  revert k. induction s as [|c r IH]; intros k; [discriminate|].
  cbn [split_skip]. destruct k as [|k]; [|apply IH].
  destruct (String.prefix sep (String c r)); [discriminate|].
  destruct (split_skip sep 0 r); discriminate.
Qed.

Lemma split_here (c0 : ascii) (sep' a b : string) :
  contains_char c0 a = false ->
  split (String c0 sep') (a ++ String c0 sep' ++ b) = a :: split (String c0 sep') b.
Proof.
  unfold split. induction a as [|c r IH]; intros H.
  - cbn [append]. cbn [split_skip]. 
    change (String c0 (sep' ++ b)) with (String c0 sep' ++ b).
    rewrite prefix_app. cbn [String.length]. rewrite Nat.sub_succ, Nat.sub_0_r.
    rewrite split_skip_drop. reflexivity.
  - cbn [contains_char] in H. apply orb_false_iff in H. destruct H as [Hc Hr].
    change (String c r ++ String c0 sep' ++ b) with (String c (r ++ String c0 sep' ++ b)).
    cbn [split_skip]. rewrite (prefix_head_ne c0 c sep' _ Hc).
    rewrite (IH Hr). reflexivity.
Qed.

Lemma split_none (sep s : string) :
  contains sep s = false -> split sep s = [s].
Proof.
  unfold split. induction s as [|c r IH]; intros H; [reflexivity|].
  cbn [contains] in H. apply orb_false_iff in H. destruct H as [Hp Hr].
  cbn [split_skip]. rewrite Hp. rewrite (IH Hr). reflexivity.
Qed.

Lemma contains_single (c : ascii) (s : string) :
  contains (String c "") s = contains_char c s.
Proof.
  induction s as [|d r IH]; [reflexivity|].
  cbn [contains contains_char String.prefix]. rewrite IH.
  destruct (ascii_dec c d) as [Heq|Hne].
  - subst d. rewrite Ascii.eqb_refl. destruct r; reflexivity.
  - destruct (Ascii.eqb c d) eqn:He; [apply Ascii.eqb_eq in He; contradiction | reflexivity].
Qed.

Lemma endswith_no_char (c : ascii) (s : string) :
  contains_char c s = false -> endswith s (String c "") = false.
Proof.
  unfold endswith. induction s as [|d r IH]; intros H; [reflexivity|].
  cbn [contains_char] in H. apply orb_false_iff in H. destruct H as [Hc Hr].
  cbn [endswith_aux]. rewrite (IH Hr). rewrite orb_false_r.
  cbn [String.eqb]. rewrite Ascii.eqb_sym, Hc. reflexivity.
Qed.

Lemma endswith_snoc (s suf : string) : endswith (s ++ suf) suf = true.
Proof.
  unfold endswith. induction s as [|d r IH].
  - cbn [append]. destruct suf; cbn [endswith_aux]; rewrite String.eqb_refl; reflexivity.
  - cbn [append endswith_aux]. rewrite IH. apply orb_true_r.
Qed.

Lemma drop_last_snoc (s : string) (c : ascii) : drop_last (s ++ String c "") = s.
Proof.
  induction s as [|d r IH]; [reflexivity|].
  destruct r as [|e r']; [reflexivity|].
  change (String d (String e r') ++ String c "")
    with (String d (String e (r' ++ String c ""))).
  change (drop_last (String d (String e (r' ++ String c ""))))
    with (String d (drop_last (String e (r' ++ String c "")))).
  change (String e (r' ++ String c "")) with (String e r' ++ String c "").
  rewrite IH. reflexivity.
Qed.

(** The host of the six shapes of address: with or without a scheme, and
    bare, with a final slash, or with a port. *)
Lemma runtime_host_shapes (pre h post : string) :
  contains_char "/" h = false -> contains_char ":" h = false ->
  (pre = "" \/ exists sc, pre = sc ++ "//" /\ contains_char "/" sc = false) ->
  (post = "" \/ post = "/"
   \/ exists p, post = ":" ++ p /\ contains_char ":" p = false /\ contains "//" p = false) ->
  runtime_host (VStr (pre ++ h ++ post)) = Ok h.
Proof.
  intros Hslash Hcolon Hpre Hpost.
  assert (Hnone : contains "//" (h ++ post) = false).
  { rewrite (contains_skip "/" "/" h post Hslash).
    destruct Hpost as [->|[->|[p [-> [_ Hp]]]]]; [reflexivity | reflexivity |].
    cbn [append contains String.prefix]. destruct (ascii_dec "/" ":"); [discriminate|].
    exact Hp. }
  assert (Hs1 : (if contains "//" (pre ++ h ++ post) then
                   match split "//" (pre ++ h ++ post) with
                   | _ :: second :: _ => Ok second
                   | _ => Raise (PyException "IndexError")
                   end
                 else Ok (pre ++ h ++ post)) = Ok (h ++ post)).
  { destruct Hpre as [->|[sc [-> Hsc]]].
    - cbn [append]. rewrite Hnone. reflexivity.
    - rewrite append_assoc. rewrite (contains_here "/" "/" sc (h ++ post)).
      rewrite (split_here "/" "/" sc (h ++ post) Hsc).
      rewrite (split_none _ _ Hnone). reflexivity. }
  unfold runtime_host. rewrite Hs1. cbn [rbind].
  destruct Hpost as [->|[->|[p [-> [Hp _]]]]].
  - rewrite append_empty. rewrite contains_single, Hcolon. cbn [rbind].
    rewrite (endswith_no_char "/" h Hslash). reflexivity.
  - rewrite contains_single.
    assert (Hc : contains_char ":" (h ++ "/") = false).
    { clear - Hcolon. induction h as [|c r IH]; [reflexivity|].
      cbn [contains_char] in Hcolon. apply orb_false_iff in Hcolon.
      destruct Hcolon as [Hc Hr]. cbn [append contains_char]. rewrite Hc. exact (IH Hr). }
    rewrite Hc. cbn [rbind]. rewrite endswith_snoc. rewrite drop_last_snoc. reflexivity.
  - rewrite (contains_here ":" "" h p).
    rewrite (split_here ":" "" h p Hcolon).
    rewrite split_none by (rewrite contains_single; exact Hp).
    cbn [rbind]. rewrite (endswith_no_char "/" h Hslash). reflexivity.
Qed.

Lemma split_single_length (c : ascii) (s : string) :
  List.length (split (String c "") s) = S (count_char c s).
Proof.
  unfold split. induction s as [|d r IH]; [reflexivity|].
  cbn [split_skip count_char String.prefix].
  destruct (ascii_dec c d) as [Heq|Hne].
  - subst d. rewrite Ascii.eqb_refl.
    replace (String.prefix "" r) with true by (destruct r; reflexivity).
    cbn [String.length Nat.sub List.length]. rewrite IH. reflexivity.
  - destruct (Ascii.eqb c d) eqn:He; [apply Ascii.eqb_eq in He; contradiction|].
    destruct (split_skip (String c "") 0 r) as [|part parts] eqn:Hs.
    + exfalso. exact (split_skip_nonempty _ _ _ Hs).
    + cbn [List.length] in *. rewrite IH. reflexivity.
Qed.

Lemma split_single_first (c : ascii) (s : string) :
  match split (String c "") s with
  | h :: _ => contains_char c h = false
  | [] => False
  end.
Proof.
  unfold split. induction s as [|d r IH]; [reflexivity|].
  cbn [split_skip String.prefix].
  destruct (ascii_dec c d) as [Heq|Hne].
  - replace (String.prefix "" r) with true by (destruct r; reflexivity). reflexivity.
  - destruct (split_skip (String c "") 0 r) as [|part parts]; [destruct IH|].
    cbn [contains_char]. rewrite IH.
    destruct (Ascii.eqb c d) eqn:He; [apply Ascii.eqb_eq in He; contradiction | reflexivity].
Qed.

Lemma count_char_contains (c : ascii) (s : string) :
  (1 <= count_char c s)%nat -> contains_char c s = true.
Proof.
  induction s as [|d r IH]; cbn [count_char contains_char]; intros H; [lia|].
  destruct (Ascii.eqb c d); [reflexivity|]. apply IH. exact H.
Qed.

Lemma split_contains_two (c0 : ascii) (sep' s : string) :
  contains (String c0 sep') s = true ->
  exists a b rest, split (String c0 sep') s = a :: b :: rest.
Proof.
  unfold split. induction s as [|c r IH]; intros H; [discriminate H|].
  cbn [contains] in H. cbn [split_skip].
  destruct (String.prefix (String c0 sep') (String c r)) eqn:Hp.
  - destruct (split_skip (String c0 sep') (String.length (String c0 sep') - 1) r)
      as [|b rest] eqn:Hs; [exfalso; exact (split_skip_nonempty _ _ _ Hs)|].
    eauto.
  - cbn [orb] in H. destruct (IH H) as [a [b [rest Hs]]]. rewrite Hs. eauto.
Qed.

Lemma drop_last_no_char (c : ascii) (s : string) :
  contains_char c s = false -> contains_char c (drop_last s) = false.
Proof.
  induction s as [|d r IH]; intros H; [reflexivity|].
  cbn [contains_char] in H. apply orb_false_iff in H. destruct H as [Hc Hr].
  destruct r as [|e r']; [reflexivity|].
  change (drop_last (String d (String e r'))) with (String d (drop_last (String e r'))).
  cbn [contains_char]. rewrite Hc. exact (IH Hr).
Qed.

(** X17: outside a container the address of the runtime configuration is
    the host of the record's URL: what stands between an optional scheme
    with its double slash and an optional final slash or colon with a
    port; the two ports are the record's. *)
Theorem get_runtime_config_host (E : Env) (set : dict) (pre h post : string)
    (ssh http : value) :
  is_dockerized E = false ->
  dict_get set "rfc_url" = Some (VStr (pre ++ h ++ post)) ->
  dict_get set "rfc_port_ssh" = Some ssh ->
  dict_get set "rfc_port_http" = Some http ->
  contains_char "/" h = false -> contains_char ":" h = false ->
  (pre = "" \/ exists sc, pre = sc ++ "//" /\ contains_char "/" sc = false) ->
  (post = "" \/ post = "/"
   \/ exists p, post = ":" ++ p /\ contains_char ":" p = false /\ contains "//" p = false) ->
  get_runtime_config E set
  = Ok [ ("code_exec_ssh_addr", VStr h); ("code_exec_ssh_port", ssh);
         ("code_exec_http_port", http); ("code_exec_ssh_user", VStr "root") ].
Proof.
  intros Hd Hurl Hssh Hhttp Hslash Hcolon Hpre Hpost.
  unfold get_runtime_config, getitem. rewrite Hd, Hurl. cbn [rbind].
  rewrite (runtime_host_shapes pre h post Hslash Hcolon Hpre Hpost). cbn [rbind].
  rewrite Hssh, Hhttp. reflexivity.
Qed.

Lemma get_runtime_config_host_witness :
  get_runtime_config (sample_env false false) (record_with_url "http://example.org:55080/")
  = Ok [ ("code_exec_ssh_addr", VStr "example.org"); ("code_exec_ssh_port", VInt 55022);
         ("code_exec_http_port", VInt 55080); ("code_exec_ssh_user", VStr "root") ].
Proof.
  apply (get_runtime_config_host (sample_env false false)
           (record_with_url "http://example.org:55080/") "http://" "example.org" ":55080/").
  - reflexivity.
  - reflexivity.
  - reflexivity.
  - reflexivity.
  - reflexivity.
  - reflexivity.
  - right. exists "http:". split; reflexivity.
  - right. right. exists "55080/". repeat split; reflexivity.
Defined.

(** X18: outside a container, a URL with two or more colons after its
    scheme makes [get_runtime_config] raise [ValueError]: the unpacking
    into host and port wants exactly two parts. *)
Theorem get_runtime_config_two_colons (E : Env) (set : dict) (pre tail : string) :
  is_dockerized E = false ->
  dict_get set "rfc_url" = Some (VStr (pre ++ tail)) ->
  (pre = "" \/ exists sc, pre = sc ++ "//" /\ contains_char "/" sc = false) ->
  contains "//" tail = false ->
  (2 <= count_char ":" tail)%nat ->
  get_runtime_config E set = Raise ValueError.
Proof.
  intros Hd Hurl Hpre Hnone Hcount.
  unfold get_runtime_config, getitem. rewrite Hd, Hurl. cbn [rbind].
  assert (Hs1 : (if contains "//" (pre ++ tail) then
                   match split "//" (pre ++ tail) with
                   | _ :: second :: _ => Ok second
                   | _ => Raise (PyException "IndexError")
                   end
                 else Ok (pre ++ tail)) = Ok tail).
  { destruct Hpre as [->|[sc [-> Hsc]]].
    - cbn [append]. rewrite Hnone. reflexivity.
    - rewrite append_assoc. rewrite (contains_here "/" "/" sc tail).
      rewrite (split_here "/" "/" sc tail Hsc).
      rewrite (split_none _ _ Hnone). reflexivity. }
  unfold runtime_host. rewrite Hs1. cbn [rbind].
  rewrite contains_single. rewrite count_char_contains by lia.
  pose proof (split_single_length ":" tail) as Hlen.
  destruct (split ":" tail) as [|a [|b [|c rest]]]; cbn [List.length] in Hlen;
    try reflexivity; lia.
Qed.

Lemma get_runtime_config_two_colons_witness :
  get_runtime_config (sample_env false false) (record_with_url "ssh://root:pw@example.org:22")
  = Raise ValueError.
Proof.
  apply (get_runtime_config_two_colons (sample_env false false)
           (record_with_url "ssh://root:pw@example.org:22") "ssh://" "root:pw@example.org:22").
  - reflexivity.
  - reflexivity.
  - right. exists "ssh:". split; reflexivity.
  - reflexivity.
  - vm_compute. lia.
Defined.

(** X19: outside a container [get_runtime_config] returns an address
    without a colon, the two ports of the record and the user root, or
    raises [KeyError] for one of the three keys it reads, [ValueError],
    [TypeError] or [AttributeError]. *)
Theorem get_runtime_config_result (E : Env) (set : dict) :
  is_dockerized E = false ->
  match get_runtime_config E set with
  | Ok cfg =>
      exists host ssh http,
        cfg = [ ("code_exec_ssh_addr", VStr host); ("code_exec_ssh_port", ssh);
                ("code_exec_http_port", http); ("code_exec_ssh_user", VStr "root") ]
        /\ contains_char ":" host = false
        /\ dict_get set "rfc_port_ssh" = Some ssh
        /\ dict_get set "rfc_port_http" = Some http
  | Raise e =>
      In e [ KeyError "rfc_url"; KeyError "rfc_port_ssh"; KeyError "rfc_port_http";
             ValueError; TypeError; AttributeError ]
  end.
Proof.
  intros Hd. unfold get_runtime_config, getitem. rewrite Hd.
  destruct (dict_get set "rfc_url") as [url|]; cbn [rbind]; [|simpl; tauto].
  assert (Hhost : match runtime_host url with
                  | Ok host => contains_char ":" host = false
                  | Raise e => In e [ValueError; TypeError; AttributeError]
                  end).
  { destruct url as [| | | |s|d]; cbn [runtime_host]; try (simpl; tauto).
    2:{ destruct (dict_has d "//"); [simpl; tauto|].
        destruct (dict_has d ":"); simpl; tauto. }
    assert (Hs1 : exists s1,
              (if contains "//" s then
                 match split "//" s with
                 | _ :: second :: _ => Ok second
                 | _ => Raise (PyException "IndexError")
                 end
               else Ok s) = Ok s1).
    { destruct (contains "//" s) eqn:Hc; [|eauto].
      destruct (split_contains_two "/" "/" s Hc) as [a [b [rest Hs]]].
      rewrite Hs. eauto. }
    destruct Hs1 as [s1 Hs1]. rewrite Hs1. cbn [rbind].
    rewrite contains_single.
    destruct (contains_char ":" s1) eqn:Hc.
    - pose proof (split_single_first ":" s1) as Hfirst.
      destruct (split ":" s1) as [|h [|p [|q rest]]]; cbn [rbind]; try (simpl; tauto).
      destruct (endswith h "/"); [apply drop_last_no_char|]; exact Hfirst.
    - cbn [rbind]. destruct (endswith s1 "/"); [apply drop_last_no_char|]; exact Hc. }
  destruct (runtime_host url) as [host|e]; cbn [rbind].
  - destruct (dict_get set "rfc_port_ssh") as [ssh|]; cbn [rbind]; [|simpl; tauto].
    destruct (dict_get set "rfc_port_http") as [http|]; cbn [rbind]; [|simpl; tauto].
    exists host, ssh, http. repeat split. exact Hhost.
  - simpl in Hhost. simpl. tauto.
Qed.

Lemma get_runtime_config_result_witness :
  exists host ssh http,
    get_runtime_config (sample_env false false) get_default_settings
    = Ok [ ("code_exec_ssh_addr", VStr host); ("code_exec_ssh_port", ssh);
           ("code_exec_http_port", http); ("code_exec_ssh_user", VStr "root") ]
    /\ contains_char ":" host = false.
Proof.
  pose proof (get_runtime_config_result (sample_env false false) get_default_settings
                eq_refl) as H.
  destruct (get_runtime_config (sample_env false false) get_default_settings) as [cfg|e] eqn:Hrun.
  - destruct H as [host [ssh [http [Hcfg [Hcolon _]]]]].
    exists host, ssh, http. subst cfg. split; [reflexivity | exact Hcolon].
  - vm_compute in Hrun. discriminate Hrun.
Defined.

(** ** Comment lines and repeated keys *)

Lemma hash_line_skipped (rest : string) :
  line_pattern_match (String "#" rest) = None.
Proof. reflexivity. Qed.

Lemma indented_hash_line_read (k text : string) :
  contains_char "="%char k = false ->
  line_pattern_match (String " " (String "#" (k ++ "=" ++ text)))
  = Some (String " " (String "#" k), dot_star (lstrip_by is_space text)).
Proof.
  intros Hk. cbn [line_pattern_match].
  change (is_space " ") with true. change (is_space "#") with false. cbv iota.
  unfold match_key_value.
  change (Ascii.eqb "#" "#") with true. change (Ascii.eqb " " "#") with false. cbv iota.
  change (String "#" (k ++ "=" ++ text)) with (String "#" k ++ String "="%char text).
  rewrite split_at_eq_app; [reflexivity|].
  cbn [contains_char]. rewrite Hk. reflexivity.
Qed.

(** X20: a line is skipped as a comment only when the hash sign is its first
    character; when white space comes first, the line is read as an entry
    whose key begins with the hash sign. *)
Theorem env_to_dict_comment_lines (k v rest : string) :
  (no_linebreak rest = true -> _env_to_dict (String "#" rest) = [])
  /\ (plain_key k = true -> plain_value v = true ->
      _env_to_dict (String " " (String "#" (k ++ "=" ++ quoted_text v)))
      = [(String "#" k, VStr v)]).
Proof.
  split.
  - intros Hnl. unfold _env_to_dict.
    rewrite splitlines_single; [reflexivity | | discriminate].
    cbn [no_linebreak]. rewrite Hnl. reflexivity.
  - intros Hk Hv.
    destruct (plain_key_parts k Hk) as [Hne [Hnl [Heq [_ [_ Hend]]]]].
    destruct (decode_quoted_text v Hv) as [Hdec Hq].
    unfold _env_to_dict. rewrite splitlines_single; [|
      cbn [no_linebreak]; rewrite no_linebreak_app, Hnl; cbn [append no_linebreak];
      rewrite Hq; reflexivity | discriminate].
    cbn [fold_left]. rewrite (indented_hash_line_read k _ Heq). rewrite Hdec.
    cbn [dict_set]. f_equal. f_equal.
    unfold strip. cbn [lstrip_by]. change (is_space " ") with true. cbv iota.
    change (is_space "#") with false. cbv iota.
    apply rstrip_by_id. destruct k as [|c r]; [congruence|]. exact Hend.
Qed.

(** X21: when a key is assigned on two lines, the mapping holds it once,
    with the value of the later line. *)
Theorem env_to_dict_last_assignment_wins (k v1 v2 : string) :
  plain_key k = true -> plain_value v1 = true -> plain_value v2 = true ->
  _env_to_dict ((k ++ "=" ++ quoted_text v1) ++ String LF (k ++ "=" ++ quoted_text v2))
  = [(k, VStr v2)].
Proof.
  intros Hk Hv1 Hv2.
  destruct (plain_key_parts k Hk) as [Hne [Hnl [_ [_ [Hs1 Hs2]]]]].
  destruct (decode_quoted_text v1 Hv1) as [Hd1 Hq1].
  destruct (decode_quoted_text v2 Hv2) as [Hd2 Hq2].
  assert (Hline : forall v, no_linebreak (quoted_text v) = true ->
                    no_linebreak (k ++ "=" ++ quoted_text v) = true).
  { intros v Hq. rewrite no_linebreak_app, Hnl. cbn [append no_linebreak]. exact Hq. }
  change (fold_left decode_step
            (splitlines ((k ++ "=" ++ quoted_text v1)
                         ++ String LF (k ++ "=" ++ quoted_text v2))) []
          = [(k, VStr v2)]).
  rewrite splitlines_cons by (apply Hline; exact Hq1).
  rewrite splitlines_single; [| apply Hline; exact Hq2 | destruct k; [congruence | discriminate]].
  cbn [fold_left]. unfold decode_step.
  rewrite (line_pattern_match_plain k (quoted_text v1) Hk).
  rewrite (line_pattern_match_plain k (quoted_text v2) Hk).
  cbv beta iota. rewrite Hd1, Hd2.
  unfold strip. rewrite (lstrip_by_id _ k Hs1), (rstrip_by_id _ k Hs2).
  cbn [dict_set]. rewrite String.eqb_refl. reflexivity.
Qed.

Lemma env_to_dict_last_assignment_wins_witness :
  _env_to_dict (("seed" ++ "=" ++ quoted_text "1") ++ String LF ("seed" ++ "=" ++ quoted_text "2"))
  = [("seed", VStr "2")].
Proof.
  apply (env_to_dict_last_assignment_wins "seed" "1" "2"); reflexivity.
Defined.

(** ** Types after normalisation *)

(** X22: in a record that [normalize_settings] returns, every key of the
    defaults is present with a value of the type of its default. *)
Theorem normalize_settings_types (E : Env) (x : value) (y : dict)
    (key : string) (dflt : value) :
  normalize_settings E x = Ok y ->
  In (key, dflt) get_default_settings ->
  exists w, dict_get y key = Some w /\ same_type dflt w = true.
Proof.
  intros H Hin.
  destruct (normalize_settings_normal E x y H key dflt Hin) as [w [Hg Hc]].
  exists w. split; [exact Hg | exact (coerce_same_type E dflt w w Hc)].
Qed.

Lemma normalize_settings_types_witness :
  exists y w,
    normalize_settings (sample_env false false)
      (VDict [("chat_model_ctx_length", VStr "many")]) = Ok y
    /\ dict_get y "chat_model_ctx_length" = Some w
    /\ same_type (VInt 120000) w = true.
Proof.
  eexists.
  assert (H : normalize_settings (sample_env false false)
                (VDict [("chat_model_ctx_length", VStr "many")]) = Ok ?[y])
    by (vm_compute; reflexivity).
  destruct (normalize_settings_types (sample_env false false) _ _
              "chat_model_ctx_length" (VInt 120000) H ltac:(in_defaults)) as [w [Hg Ht]].
  exists w. split; [exact H|]. split; [exact Hg | exact Ht].
Defined.

(** ** The order of the effects of a save *)

(** X23: when [set_settings] returns, what it has added to the log ends
    with the write of the settings file, the reinitialisation of the agents
    and the reload of the speech model with the normalised size, in this
    order; the file holds the dump of the cached record, and nothing before
    that write is a file write. *)
Theorem set_settings_effects_in_order (E : Env) (s : nat) (st st' : State) :
  set_settings E s st = (Ok tt, st') ->
  exists n c size saves,
    normalize_settings E (VDict (deref st s)) = Ok n
    /\ dict_get n "stt_model_size" = Some size
    /\ _settings st' = Some c
    /\ settings_file st' = Some (json_dumps E (deref st' c))
    /\ trace st'
       = (trace st ++ saves
          ++ [WriteFile (json_dumps E (deref st' c)); Reconfigure; WhisperPreload size])%list
    /\ forall content, ~ In (WriteFile content) saves.
Proof.
  intros Hrun. unfold set_settings in Hrun.
  unfold bind at 1 in Hrun. unfold load at 1 in Hrun.
  unfold bind at 1 in Hrun. unfold lift at 1 in Hrun.
  destruct (normalize_settings E (VDict (deref st s))) as [norm|e] eqn:Hnorm;
    [|discriminate Hrun].
  unfold bind at 1 in Hrun. unfold new_dict at 1 in Hrun.
  unfold bind at 1 in Hrun. unfold set_global at 1 in Hrun.
  cbn [heap _settings dotenv settings_file trace] in Hrun.
  set (c := List.length (heap st)) in *.
  set (st1 := mkState (heap st ++ [norm]) (Some c) (dotenv st) (settings_file st) (trace st)) in *.
  assert (Hc : (c < List.length (heap st1))%nat).
  { unfold st1, c. cbn [heap]. rewrite length_app. simpl. lia. }
  destruct (write_settings_file_effect E c st1 Hc)
    as [res [h [secrets [file [evs [Hw [Hlen [Hother [_ [Hok _]]]]]]]]]].
  unfold bind at 1 in Hrun. rewrite Hw in Hrun.
  destruct res as [[]|e]; [|discriminate Hrun].
  destruct (Hok eq_refl) as [Hsan [Hkeep [Hfile [evs0 [Hevs Hnw]]]]].
  pose proof (normalize_settings_normal E _ _ Hnorm) as Hnormal.
  destruct (Hnormal "stt_model_size" (VStr "base") ltac:(in_defaults)) as [size [Hsize _]].
  assert (Hsize' : dict_get (nth c h []) "stt_model_size" = Some size).
  { rewrite (Hkeep "stt_model_size") by (simpl; intuition discriminate).
    unfold deref, st1, c. cbn [heap]. rewrite nth_middle. exact Hsize. }
  assert (Ht : truthy (VDict (nth c h [])) = true).
  { destruct (nth c h []); [discriminate Hsize' | reflexivity]. }
  unfold _apply_settings, global_truthy in Hrun. cbn [_settings st1] in Hrun.
  unfold deref at 1 in Hrun. cbn [heap] in Hrun. rewrite Ht in Hrun.
  cbn [when] in Hrun. unfold bind, emit, load, lift, getitem in Hrun.
  unfold deref in Hrun. cbn [heap _settings dotenv settings_file trace st1] in Hrun.
  rewrite Hsize' in Hrun. inversion Hrun; subst st'. clear Hrun.
  exists norm, c, size, evs0.
  cbn [heap _settings dotenv settings_file trace]. unfold deref. cbn [heap].
  split; [reflexivity|]. split; [exact Hsize|]. split; [reflexivity|].
  split; [exact Hfile|]. split; [|exact Hnw].
  rewrite Hevs. repeat rewrite <- app_assoc. reflexivity.
Qed.

Lemma set_settings_effects_in_order_witness :
  exists n c size saves,
    normalize_settings (sample_env false false)
      (VDict (deref (fresh_state [sample_record]) 0)) = Ok n
    /\ dict_get n "stt_model_size" = Some size
    /\ _settings (snd (set_settings (sample_env false false) 0 (fresh_state [sample_record])))
       = Some c
    /\ settings_file (snd (set_settings (sample_env false false) 0 (fresh_state [sample_record])))
       = Some (json_dumps (sample_env false false)
                 (deref (snd (set_settings (sample_env false false) 0
                                (fresh_state [sample_record]))) c))
    /\ trace (snd (set_settings (sample_env false false) 0 (fresh_state [sample_record])))
       = (trace (fresh_state [sample_record]) ++ saves
          ++ [WriteFile (json_dumps (sample_env false false)
                           (deref (snd (set_settings (sample_env false false) 0
                                          (fresh_state [sample_record]))) c));
              Reconfigure; WhisperPreload size])%list
    /\ forall content, ~ In (WriteFile content) saves.
Proof.
  apply (set_settings_effects_in_order (sample_env false false) 0
           (fresh_state [sample_record])).
  vm_compute. reflexivity.
Defined.
